(** * neighsnoopd: the topology cache, the reply correlator and the refresh timer

    A shallow embedding of [cache.c] and of the event handlers of
    [neighsnoopd.c].  The C program keeps its entities in heap objects that
    point at each other and indexes them with GLib hash tables; the model
    keeps one store per struct, addressed by pointers drawn from a single
    counter, and one finite map per hash table.  Reading or writing through
    a pointer whose object was released has no defined behaviour in C: the
    model stops there ([None]).  Calls that leave the process (the clock, the
    eBPF map, the sysctl file, [rand], the timer wheel, the packet socket)
    take their outcome from an oracle indexed by a call counter. *)

From stdpp Require Import gmap strings list.
From Stdlib Require Import ZArith QArith Qround Qpower Qabs Lqa.
From Stdlib Require SpecFloat.

Local Open Scope Z_scope.

(** ** Data *)

(** Pointers.  Objects of every struct are allocated from one address
    counter, so pointers to different objects differ, whatever their types. *)
Abbreviation ptr := positive (only parsing).

(** A MAC address is a 48-bit value, an IP address a 128-bit value in network
    order (IPv4 addresses are IPv4-mapped), as [struct in6_addr]. *)
Abbreviation mac_addr := N (only parsing).
Abbreviation in6_addr := N (only parsing).

(** [struct cache_times]; a [struct timespec] is kept as one number. *)
Record times := {
  created : Z;
  updated : Z;
  referenced : Z;
}.

Definition times0 : times := {| created := 0; updated := 0; referenced := 0 |}.

Record link_cache := {
  lc_ifindex : Z;
  lc_mac : mac_addr;
  lc_ifname : string;
  lc_kind : string;
  lc_slave_kind : string;
  lc_vlan_id : Z;
  lc_vlan_protocol : Z;
  lc_has_vlan : bool;
  lc_is_macvlan : bool;
  lc_is_svi : bool;
  lc_ignore_link : bool;
  lc_link_ifindex : Z;
  lc_times : times;
  lc_reference_count : Z;
  lc_network_list : list ptr;
  lc_fdb_list : list ptr;
}.

Record network_cache := {
  nc_id : Z;
  nc_network : in6_addr;
  nc_prefixlen : Z;
  nc_true_prefixlen : Z;
  nc_links : list ptr;
  nc_refcnt : Z;
  nc_times : times;
  nc_reference_count : Z;
}.

Record link_network_cache := {
  lnc_ip : in6_addr;
  lnc_network : ptr;
  lnc_link : ptr;
}.

Record fdb_cache := {
  fc_mac : mac_addr;
  fc_link : ptr;
  fc_vlan_id : Z;
  fc_times : times;
  fc_reference_count : Z;
}.

Record neigh_cache := {
  ngc_ifindex : Z;
  ngc_mac : mac_addr;
  ngc_ip : in6_addr;
  ngc_nud_state : Z;
  ngc_sending_link_network : ptr;
  ngc_timer : option ptr;
  ngc_id : Z;
  ngc_update_count : Z;
  ngc_reference_count : Z;
  ngc_times : times;
}.

(** The decoded netlink commands and the ring-buffer record. *)
Record netlink_link_cmd := {
  lcmd_ifindex : Z;
  lcmd_mac : mac_addr;
  lcmd_ifname : string;
  lcmd_kind : string;
  lcmd_slave_kind : string;
  lcmd_vlan_id : Z;
  lcmd_vlan_protocol : Z;
  lcmd_has_vlan : bool;
  lcmd_is_macvlan : bool;
  lcmd_link_ifindex : Z;
}.

Record netlink_addr_cmd := {
  acmd_ifindex : Z;
  acmd_ip : in6_addr;
  acmd_network : in6_addr;
  acmd_prefixlen : Z;
  acmd_true_prefixlen : Z;
}.

Record netlink_neigh_cmd := {
  ncmd_ifindex : Z;
  ncmd_vlan_id : Z;
  ncmd_mac : mac_addr;
  ncmd_ip : in6_addr;
  ncmd_nud_state : Z;
  ncmd_is_externally_learned : bool;
}.

Inductive netlink_cmd :=
  | CMD_NEIGH_ADD (c : netlink_neigh_cmd)
  | CMD_NEIGH_DEL (c : netlink_neigh_cmd)
  | CMD_FDB_ADD (c : netlink_neigh_cmd)
  | CMD_FDB_DEL (c : netlink_neigh_cmd)
  | CMD_ADDR_ADD (c : netlink_addr_cmd)
  | CMD_ADDR_DEL (c : netlink_addr_cmd)
  | CMD_LINK_ADD (c : netlink_link_cmd)
  | CMD_LINK_DEL (c : netlink_link_cmd).

Record neighbor_reply := {
  nr_in_family : Z;
  nr_vlan_id : Z;
  nr_network_id : Z;
  nr_mac : mac_addr;
  nr_ip : in6_addr;
}.

Definition AF_INET : Z := 2.
Definition AF_INET6 : Z := 10.
Definition NUD_REACHABLE : Z := 2.
Definition NUD_STALE : Z := 4.

(** The probe a refresh sends, as the fields the two builders fill in. *)
Inductive probe_kind := ARP_REQUEST | NEIGHBOR_SOLICIT.

Record probe := {
  pr_kind : probe_kind;
  pr_dst_mac : mac_addr;
  pr_src_mac : mac_addr;
  pr_src_ip : in6_addr;
  pr_dst_ip : in6_addr;
  pr_sll_ifindex : Z;
}.

(** The part of [struct env] the handlers read. *)
Record env := {
  only_ipv4 : bool;
  only_ipv6 : bool;
  has_links : bool;
  has_networks : bool;
  has_fdb : bool;
  disable_ipv6ll_filter : bool;
  ifidx_mon : Z;
  has_deny_filter : bool;
  deny_filter : string -> bool;
}.

(** Outcomes of the calls that leave the process, by call number. *)
Record oracle := {
  o_clock : nat -> option Z;
  o_bpf_update : nat -> bool;
  o_bpf_delete : nat -> bool;
  o_base_reachable_time_ms : nat -> bool -> string -> option Q;
  o_rand : nat -> N;
  o_timer_add : nat -> bool;
  o_sendto : nat -> bool;
}.

(** ** The state *)

Record heap := {
  next_ptr : ptr;
  h_link : gmap ptr link_cache;
  h_network : gmap ptr network_cache;
  h_link_network : gmap ptr link_network_cache;
  h_fdb : gmap ptr fdb_cache;
  h_neigh : gmap ptr neigh_cache;
}.

(** The seven hash tables of [cache.c], under their names. *)
Record tables := {
  db_lookup_addr : gmap in6_addr ptr;
  db_lookup_vlan_networkid : gmap (Z * Z) ptr;
  db_lookup_addr_ifindex : gmap (in6_addr * Z) ptr;
  db_link_cache : gmap Z ptr;
  db_network_cache : gmap Z ptr;
  db_fdb_cache : gmap (mac_addr * Z * Z) ptr;
  db_neigh_cache : gmap (Z * in6_addr) ptr;
}.

Record world := {
  tick : nat;
  network_id : Z;
  neigh_id : Z;
  count : Z;
  target_networks : gmap (Z * in6_addr) Z;
  timers : gmap ptr (ptr * Q);
  netlink_tx : list (Z * mac_addr * in6_addr);
  packets : list probe;
}.

Record state := {
  mem : heap;
  db : tables;
  io : world;
}.

Definition with_mem (f : heap -> heap) (st : state) : state :=
  {| mem := f (mem st); db := db st; io := io st |}.
Definition with_db (f : tables -> tables) (st : state) : state :=
  {| mem := mem st; db := f (db st); io := io st |}.
Definition with_io (f : world -> world) (st : state) : state :=
  {| mem := mem st; db := db st; io := f (io st) |}.

Definition set_next_ptr (v : ptr) (h : heap) : heap :=
  {| next_ptr := v; h_link := h_link h; h_network := h_network h;
     h_link_network := h_link_network h; h_fdb := h_fdb h; h_neigh := h_neigh h |}.
Definition set_h_link (v : gmap ptr link_cache) (h : heap) : heap :=
  {| next_ptr := next_ptr h; h_link := v; h_network := h_network h;
     h_link_network := h_link_network h; h_fdb := h_fdb h; h_neigh := h_neigh h |}.
Definition set_h_network (v : gmap ptr network_cache) (h : heap) : heap :=
  {| next_ptr := next_ptr h; h_link := h_link h; h_network := v;
     h_link_network := h_link_network h; h_fdb := h_fdb h; h_neigh := h_neigh h |}.
Definition set_h_link_network (v : gmap ptr link_network_cache) (h : heap) : heap :=
  {| next_ptr := next_ptr h; h_link := h_link h; h_network := h_network h;
     h_link_network := v; h_fdb := h_fdb h; h_neigh := h_neigh h |}.
Definition set_h_fdb (v : gmap ptr fdb_cache) (h : heap) : heap :=
  {| next_ptr := next_ptr h; h_link := h_link h; h_network := h_network h;
     h_link_network := h_link_network h; h_fdb := v; h_neigh := h_neigh h |}.
Definition set_h_neigh (v : gmap ptr neigh_cache) (h : heap) : heap :=
  {| next_ptr := next_ptr h; h_link := h_link h; h_network := h_network h;
     h_link_network := h_link_network h; h_fdb := h_fdb h; h_neigh := v |}.

Definition set_db_lookup_addr (v : gmap in6_addr ptr) (t : tables) : tables :=
  {| db_lookup_addr := v; db_lookup_vlan_networkid := db_lookup_vlan_networkid t;
     db_lookup_addr_ifindex := db_lookup_addr_ifindex t; db_link_cache := db_link_cache t;
     db_network_cache := db_network_cache t; db_fdb_cache := db_fdb_cache t;
     db_neigh_cache := db_neigh_cache t |}.
Definition set_db_lookup_vlan_networkid (v : gmap (Z * Z) ptr) (t : tables) : tables :=
  {| db_lookup_addr := db_lookup_addr t; db_lookup_vlan_networkid := v;
     db_lookup_addr_ifindex := db_lookup_addr_ifindex t; db_link_cache := db_link_cache t;
     db_network_cache := db_network_cache t; db_fdb_cache := db_fdb_cache t;
     db_neigh_cache := db_neigh_cache t |}.
Definition set_db_lookup_addr_ifindex (v : gmap (in6_addr * Z) ptr) (t : tables) : tables :=
  {| db_lookup_addr := db_lookup_addr t; db_lookup_vlan_networkid := db_lookup_vlan_networkid t;
     db_lookup_addr_ifindex := v; db_link_cache := db_link_cache t;
     db_network_cache := db_network_cache t; db_fdb_cache := db_fdb_cache t;
     db_neigh_cache := db_neigh_cache t |}.
Definition set_db_link_cache (v : gmap Z ptr) (t : tables) : tables :=
  {| db_lookup_addr := db_lookup_addr t; db_lookup_vlan_networkid := db_lookup_vlan_networkid t;
     db_lookup_addr_ifindex := db_lookup_addr_ifindex t; db_link_cache := v;
     db_network_cache := db_network_cache t; db_fdb_cache := db_fdb_cache t;
     db_neigh_cache := db_neigh_cache t |}.
Definition set_db_network_cache (v : gmap Z ptr) (t : tables) : tables :=
  {| db_lookup_addr := db_lookup_addr t; db_lookup_vlan_networkid := db_lookup_vlan_networkid t;
     db_lookup_addr_ifindex := db_lookup_addr_ifindex t; db_link_cache := db_link_cache t;
     db_network_cache := v; db_fdb_cache := db_fdb_cache t;
     db_neigh_cache := db_neigh_cache t |}.
Definition set_db_fdb_cache (v : gmap (mac_addr * Z * Z) ptr) (t : tables) : tables :=
  {| db_lookup_addr := db_lookup_addr t; db_lookup_vlan_networkid := db_lookup_vlan_networkid t;
     db_lookup_addr_ifindex := db_lookup_addr_ifindex t; db_link_cache := db_link_cache t;
     db_network_cache := db_network_cache t; db_fdb_cache := v;
     db_neigh_cache := db_neigh_cache t |}.
Definition set_db_neigh_cache (v : gmap (Z * in6_addr) ptr) (t : tables) : tables :=
  {| db_lookup_addr := db_lookup_addr t; db_lookup_vlan_networkid := db_lookup_vlan_networkid t;
     db_lookup_addr_ifindex := db_lookup_addr_ifindex t; db_link_cache := db_link_cache t;
     db_network_cache := db_network_cache t; db_fdb_cache := db_fdb_cache t;
     db_neigh_cache := v |}.

Definition set_tick (v : nat) (w : world) : world :=
  {| tick := v; network_id := network_id w; neigh_id := neigh_id w; count := count w;
     target_networks := target_networks w; timers := timers w;
     netlink_tx := netlink_tx w; packets := packets w |}.
Definition set_network_id (v : Z) (w : world) : world :=
  {| tick := tick w; network_id := v; neigh_id := neigh_id w; count := count w;
     target_networks := target_networks w; timers := timers w;
     netlink_tx := netlink_tx w; packets := packets w |}.
Definition set_neigh_id (v : Z) (w : world) : world :=
  {| tick := tick w; network_id := network_id w; neigh_id := v; count := count w;
     target_networks := target_networks w; timers := timers w;
     netlink_tx := netlink_tx w; packets := packets w |}.
Definition set_count (v : Z) (w : world) : world :=
  {| tick := tick w; network_id := network_id w; neigh_id := neigh_id w; count := v;
     target_networks := target_networks w; timers := timers w;
     netlink_tx := netlink_tx w; packets := packets w |}.
Definition set_target_networks (v : gmap (Z * in6_addr) Z) (w : world) : world :=
  {| tick := tick w; network_id := network_id w; neigh_id := neigh_id w; count := count w;
     target_networks := v; timers := timers w;
     netlink_tx := netlink_tx w; packets := packets w |}.
Definition set_timers (v : gmap ptr (ptr * Q)) (w : world) : world :=
  {| tick := tick w; network_id := network_id w; neigh_id := neigh_id w; count := count w;
     target_networks := target_networks w; timers := v;
     netlink_tx := netlink_tx w; packets := packets w |}.
Definition set_netlink_tx (v : list (Z * mac_addr * in6_addr)) (w : world) : world :=
  {| tick := tick w; network_id := network_id w; neigh_id := neigh_id w; count := count w;
     target_networks := target_networks w; timers := timers w;
     netlink_tx := v; packets := packets w |}.
Definition set_packets (v : list probe) (w : world) : world :=
  {| tick := tick w; network_id := network_id w; neigh_id := neigh_id w; count := count w;
     target_networks := target_networks w; timers := timers w;
     netlink_tx := netlink_tx w; packets := v |}.

(** [setup_cache]: seven empty tables; the two [static] id counters start at
    1. *)
Definition setup_cache : state :=
  {| mem := {| next_ptr := 1%positive; h_link := ∅; h_network := ∅;
               h_link_network := ∅; h_fdb := ∅; h_neigh := ∅ |};
     db := {| db_lookup_addr := ∅; db_lookup_vlan_networkid := ∅;
              db_lookup_addr_ifindex := ∅; db_link_cache := ∅;
              db_network_cache := ∅; db_fdb_cache := ∅; db_neigh_cache := ∅ |};
     io := {| tick := 0%nat; network_id := 1; neigh_id := 1; count := 0;
              target_networks := ∅; timers := ∅; netlink_tx := []; packets := [] |} |}.

(** ** The monad: state, and [None] where C has no defined behaviour *)

Definition M (A : Type) : Type := state -> option (A * state).

Definition ret {A} (a : A) : M A := fun st => Some (a, st).
Definition bind {A B} (m : M A) (k : A -> M B) : M B :=
  fun st => match m st with
            | Some (a, st') => k a st'
            | None => None
            end.
Definition undefined {A} : M A := fun _ => None.
Definition gets {A} (f : state -> A) : M A := fun st => Some (f st, st).
Definition modify (f : state -> state) : M unit := fun st => Some (tt, f st).

Notation "'let*' x ':=' m 'in' k" := (bind m (fun x => k))
  (at level 10, x name, m at level 100, k at level 200).

(** *** Allocation and access *)

(** [g_new0].  GLib's allocator ends the process when memory runs out and
    never returns NULL, so the NULL checks after it are dead code. *)
Definition g_new0 : M ptr := fun st =>
  Some (next_ptr (mem st), with_mem (set_next_ptr (Pos.succ (next_ptr (mem st)))) st).

Definition load_link (p : ptr) : M link_cache := fun st =>
  match h_link (mem st) !! p with Some v => Some (v, st) | None => None end.
Definition load_network (p : ptr) : M network_cache := fun st =>
  match h_network (mem st) !! p with Some v => Some (v, st) | None => None end.
Definition load_link_network (p : ptr) : M link_network_cache := fun st =>
  match h_link_network (mem st) !! p with Some v => Some (v, st) | None => None end.
Definition load_fdb (p : ptr) : M fdb_cache := fun st =>
  match h_fdb (mem st) !! p with Some v => Some (v, st) | None => None end.
Definition load_neigh (p : ptr) : M neigh_cache := fun st =>
  match h_neigh (mem st) !! p with Some v => Some (v, st) | None => None end.

(** Filling a block that [g_new0] has just returned. *)
Definition init_link (p : ptr) (v : link_cache) : M unit :=
  modify (with_mem (fun h => set_h_link (<[p := v]> (h_link h)) h)).
Definition init_network (p : ptr) (v : network_cache) : M unit :=
  modify (with_mem (fun h => set_h_network (<[p := v]> (h_network h)) h)).
Definition init_link_network (p : ptr) (v : link_network_cache) : M unit :=
  modify (with_mem (fun h => set_h_link_network (<[p := v]> (h_link_network h)) h)).
Definition init_fdb (p : ptr) (v : fdb_cache) : M unit :=
  modify (with_mem (fun h => set_h_fdb (<[p := v]> (h_fdb h)) h)).
Definition init_neigh (p : ptr) (v : neigh_cache) : M unit :=
  modify (with_mem (fun h => set_h_neigh (<[p := v]> (h_neigh h)) h)).

(** Assignments through a pointer: read, change, write back. *)
Definition update_link (p : ptr) (f : link_cache -> link_cache) : M unit :=
  let* v := load_link p in init_link p (f v).
Definition update_network (p : ptr) (f : network_cache -> network_cache) : M unit :=
  let* v := load_network p in init_network p (f v).
Definition update_fdb (p : ptr) (f : fdb_cache -> fdb_cache) : M unit :=
  let* v := load_fdb p in init_fdb p (f v).
Definition update_neigh (p : ptr) (f : neigh_cache -> neigh_cache) : M unit :=
  let* v := load_neigh p in init_neigh p (f v).

(** [g_free] of an object; releasing a block twice is undefined. *)
Definition free_link (p : ptr) : M unit :=
  let* _ := load_link p in
  modify (with_mem (fun h => set_h_link (delete p (h_link h)) h)).
Definition free_network (p : ptr) : M unit :=
  let* _ := load_network p in
  modify (with_mem (fun h => set_h_network (delete p (h_network h)) h)).
Definition free_link_network (p : ptr) : M unit :=
  let* _ := load_link_network p in
  modify (with_mem (fun h => set_h_link_network (delete p (h_link_network h)) h)).
Definition free_fdb (p : ptr) : M unit :=
  let* _ := load_fdb p in
  modify (with_mem (fun h => set_h_fdb (delete p (h_fdb h)) h)).
Definition free_neigh (p : ptr) : M unit :=
  let* _ := load_neigh p in
  modify (with_mem (fun h => set_h_neigh (delete p (h_neigh h)) h)).

(** Field updates the functions below make. *)
Definition set_times_referenced (now : Z) (t : times) : times :=
  {| created := created t; updated := updated t; referenced := now |}.
Definition set_times_updated (now : Z) (t : times) : times :=
  {| created := created t; updated := now; referenced := referenced t |}.
Definition set_times_created (now : Z) (t : times) : times :=
  {| created := now; updated := updated t; referenced := referenced t |}.

Definition link_set_times (t : times) (l : link_cache) : link_cache :=
  {| lc_ifindex := lc_ifindex l; lc_mac := lc_mac l; lc_ifname := lc_ifname l;
     lc_kind := lc_kind l; lc_slave_kind := lc_slave_kind l; lc_vlan_id := lc_vlan_id l;
     lc_vlan_protocol := lc_vlan_protocol l; lc_has_vlan := lc_has_vlan l;
     lc_is_macvlan := lc_is_macvlan l; lc_is_svi := lc_is_svi l;
     lc_ignore_link := lc_ignore_link l; lc_link_ifindex := lc_link_ifindex l;
     lc_times := t; lc_reference_count := lc_reference_count l;
     lc_network_list := lc_network_list l; lc_fdb_list := lc_fdb_list l |}.
Definition link_set_reference_count (c : Z) (l : link_cache) : link_cache :=
  {| lc_ifindex := lc_ifindex l; lc_mac := lc_mac l; lc_ifname := lc_ifname l;
     lc_kind := lc_kind l; lc_slave_kind := lc_slave_kind l; lc_vlan_id := lc_vlan_id l;
     lc_vlan_protocol := lc_vlan_protocol l; lc_has_vlan := lc_has_vlan l;
     lc_is_macvlan := lc_is_macvlan l; lc_is_svi := lc_is_svi l;
     lc_ignore_link := lc_ignore_link l; lc_link_ifindex := lc_link_ifindex l;
     lc_times := lc_times l; lc_reference_count := c;
     lc_network_list := lc_network_list l; lc_fdb_list := lc_fdb_list l |}.
Definition link_set_network_list (ns : list ptr) (l : link_cache) : link_cache :=
  {| lc_ifindex := lc_ifindex l; lc_mac := lc_mac l; lc_ifname := lc_ifname l;
     lc_kind := lc_kind l; lc_slave_kind := lc_slave_kind l; lc_vlan_id := lc_vlan_id l;
     lc_vlan_protocol := lc_vlan_protocol l; lc_has_vlan := lc_has_vlan l;
     lc_is_macvlan := lc_is_macvlan l; lc_is_svi := lc_is_svi l;
     lc_ignore_link := lc_ignore_link l; lc_link_ifindex := lc_link_ifindex l;
     lc_times := lc_times l; lc_reference_count := lc_reference_count l;
     lc_network_list := ns; lc_fdb_list := lc_fdb_list l |}.
Definition link_set_is_svi (b : bool) (l : link_cache) : link_cache :=
  {| lc_ifindex := lc_ifindex l; lc_mac := lc_mac l; lc_ifname := lc_ifname l;
     lc_kind := lc_kind l; lc_slave_kind := lc_slave_kind l; lc_vlan_id := lc_vlan_id l;
     lc_vlan_protocol := lc_vlan_protocol l; lc_has_vlan := lc_has_vlan l;
     lc_is_macvlan := lc_is_macvlan l; lc_is_svi := b;
     lc_ignore_link := lc_ignore_link l; lc_link_ifindex := lc_link_ifindex l;
     lc_times := lc_times l; lc_reference_count := lc_reference_count l;
     lc_network_list := lc_network_list l; lc_fdb_list := lc_fdb_list l |}.
Definition link_set_ignore_link (b : bool) (l : link_cache) : link_cache :=
  {| lc_ifindex := lc_ifindex l; lc_mac := lc_mac l; lc_ifname := lc_ifname l;
     lc_kind := lc_kind l; lc_slave_kind := lc_slave_kind l; lc_vlan_id := lc_vlan_id l;
     lc_vlan_protocol := lc_vlan_protocol l; lc_has_vlan := lc_has_vlan l;
     lc_is_macvlan := lc_is_macvlan l; lc_is_svi := lc_is_svi l;
     lc_ignore_link := b; lc_link_ifindex := lc_link_ifindex l;
     lc_times := lc_times l; lc_reference_count := lc_reference_count l;
     lc_network_list := lc_network_list l; lc_fdb_list := lc_fdb_list l |}.

Definition network_set_links (ls : list ptr) (n : network_cache) : network_cache :=
  {| nc_id := nc_id n; nc_network := nc_network n; nc_prefixlen := nc_prefixlen n;
     nc_true_prefixlen := nc_true_prefixlen n; nc_links := ls; nc_refcnt := nc_refcnt n;
     nc_times := nc_times n; nc_reference_count := nc_reference_count n |}.
Definition network_set_refcnt (c : Z) (n : network_cache) : network_cache :=
  {| nc_id := nc_id n; nc_network := nc_network n; nc_prefixlen := nc_prefixlen n;
     nc_true_prefixlen := nc_true_prefixlen n; nc_links := nc_links n; nc_refcnt := c;
     nc_times := nc_times n; nc_reference_count := nc_reference_count n |}.
Definition network_set_times (t : times) (n : network_cache) : network_cache :=
  {| nc_id := nc_id n; nc_network := nc_network n; nc_prefixlen := nc_prefixlen n;
     nc_true_prefixlen := nc_true_prefixlen n; nc_links := nc_links n;
     nc_refcnt := nc_refcnt n; nc_times := t;
     nc_reference_count := nc_reference_count n |}.
Definition network_set_reference_count (c : Z) (n : network_cache) : network_cache :=
  {| nc_id := nc_id n; nc_network := nc_network n; nc_prefixlen := nc_prefixlen n;
     nc_true_prefixlen := nc_true_prefixlen n; nc_links := nc_links n;
     nc_refcnt := nc_refcnt n; nc_times := nc_times n; nc_reference_count := c |}.

Definition fdb_touch (now : Z) (f : fdb_cache) : fdb_cache :=
  {| fc_mac := fc_mac f; fc_link := fc_link f; fc_vlan_id := fc_vlan_id f;
     fc_times := set_times_referenced now (fc_times f);
     fc_reference_count := fc_reference_count f + 1 |}.

Definition neigh_set_times (t : times) (n : neigh_cache) : neigh_cache :=
  {| ngc_ifindex := ngc_ifindex n; ngc_mac := ngc_mac n; ngc_ip := ngc_ip n;
     ngc_nud_state := ngc_nud_state n;
     ngc_sending_link_network := ngc_sending_link_network n;
     ngc_timer := ngc_timer n; ngc_id := ngc_id n;
     ngc_update_count := ngc_update_count n;
     ngc_reference_count := ngc_reference_count n; ngc_times := t |}.
Definition neigh_set_reference_count (c : Z) (n : neigh_cache) : neigh_cache :=
  {| ngc_ifindex := ngc_ifindex n; ngc_mac := ngc_mac n; ngc_ip := ngc_ip n;
     ngc_nud_state := ngc_nud_state n;
     ngc_sending_link_network := ngc_sending_link_network n;
     ngc_timer := ngc_timer n; ngc_id := ngc_id n;
     ngc_update_count := ngc_update_count n;
     ngc_reference_count := c; ngc_times := ngc_times n |}.
Definition neigh_set_mac (m : mac_addr) (n : neigh_cache) : neigh_cache :=
  {| ngc_ifindex := ngc_ifindex n; ngc_mac := m; ngc_ip := ngc_ip n;
     ngc_nud_state := ngc_nud_state n;
     ngc_sending_link_network := ngc_sending_link_network n;
     ngc_timer := ngc_timer n; ngc_id := ngc_id n;
     ngc_update_count := ngc_update_count n;
     ngc_reference_count := ngc_reference_count n; ngc_times := ngc_times n |}.
Definition neigh_set_nud_state (s : Z) (n : neigh_cache) : neigh_cache :=
  {| ngc_ifindex := ngc_ifindex n; ngc_mac := ngc_mac n; ngc_ip := ngc_ip n;
     ngc_nud_state := s;
     ngc_sending_link_network := ngc_sending_link_network n;
     ngc_timer := ngc_timer n; ngc_id := ngc_id n;
     ngc_update_count := ngc_update_count n;
     ngc_reference_count := ngc_reference_count n; ngc_times := ngc_times n |}.
Definition neigh_set_update_count (c : Z) (n : neigh_cache) : neigh_cache :=
  {| ngc_ifindex := ngc_ifindex n; ngc_mac := ngc_mac n; ngc_ip := ngc_ip n;
     ngc_nud_state := ngc_nud_state n;
     ngc_sending_link_network := ngc_sending_link_network n;
     ngc_timer := ngc_timer n; ngc_id := ngc_id n;
     ngc_update_count := c;
     ngc_reference_count := ngc_reference_count n; ngc_times := ngc_times n |}.
Definition neigh_set_timer (t : option ptr) (n : neigh_cache) : neigh_cache :=
  {| ngc_ifindex := ngc_ifindex n; ngc_mac := ngc_mac n; ngc_ip := ngc_ip n;
     ngc_nud_state := ngc_nud_state n;
     ngc_sending_link_network := ngc_sending_link_network n;
     ngc_timer := t; ngc_id := ngc_id n;
     ngc_update_count := ngc_update_count n;
     ngc_reference_count := ngc_reference_count n; ngc_times := ngc_times n |}.
Definition neigh_set_id (i : Z) (n : neigh_cache) : neigh_cache :=
  {| ngc_ifindex := ngc_ifindex n; ngc_mac := ngc_mac n; ngc_ip := ngc_ip n;
     ngc_nud_state := ngc_nud_state n;
     ngc_sending_link_network := ngc_sending_link_network n;
     ngc_timer := ngc_timer n; ngc_id := i;
     ngc_update_count := ngc_update_count n;
     ngc_reference_count := ngc_reference_count n; ngc_times := ngc_times n |}.

(** ** Identifier helpers *)

(** [IN6_IS_ADDR_V4MAPPED]: the first 80 bits are zero and the next 16 are
    ones.  [IN6_IS_ADDR_LINKLOCAL]: the address starts with fe80::/10. *)
Definition IN6_IS_ADDR_V4MAPPED (ip : in6_addr) : bool :=
  (N.shiftr ip 32 =? 0xffff)%N.
Definition IN6_IS_ADDR_LINKLOCAL (ip : in6_addr) : bool :=
  (N.shiftr ip 118 =? 0x3fa)%N.

(** Modelled from the spec: the number of leading bits that
    [calculate_network_using_cidr] keeps, at most 128 (see there for the
    IPv4-mapped case). *)
Definition prefix_bits (ip : in6_addr) (prefixlen : Z) : N :=
  N.min 128 (if IN6_IS_ADDR_V4MAPPED ip then 96 + Z.to_N prefixlen else Z.to_N prefixlen).

(** Modelled from the spec: the 128-bit mask with the leading [bits] bits
    set. *)
Definition netmask (bits : N) : N :=
  N.shiftl (N.ones bits) (128 - bits).

(** Modelled from the spec: [calculate_network_using_cidr] is declared in the
    missing header and defined outside the two source files.  The spec has it
    compute "the canonical network address by zeroing all bits beyond
    prefixlen", and its scenario 2 masks the IPv4-mapped 10.0.0.1 with prefix
    24 to the IPv4-mapped 10.0.0.0: for an IPv4-mapped address the prefix is
    counted inside the last 32 bits. *)
Definition calculate_network_using_cidr (ip : in6_addr) (prefixlen : Z) : in6_addr :=
  N.land ip (netmask (prefix_bits ip prefixlen)).

(** Modelled from the spec: [compare_ipv6_addresses] is defined outside the
    two source files; it is the equality of the identifier helpers, on the 16
    bytes of the addresses. *)
Definition compare_ipv6_addresses (a b : in6_addr) : bool := (a =? b)%N.

(** Modelled from the spec: [is_zero_mac] is defined outside the two source
    files; the spec has the NEIGH ADD precondition "MAC non-zero". *)
Definition is_zero_mac (m : mac_addr) : bool := (m =? 0)%N.

(** Modelled from the spec: [is_same_mac] is defined outside the two source
    files; it is the equality of the identifier helpers, on the 6 bytes of
    the addresses. *)
Definition is_same_mac (a b : mac_addr) : bool := (a =? b)%N.

(** [g_list_delete_link] at the first node whose data is [x]: what the two
    search loops of [cache_del_link_network] do. *)
Fixpoint g_list_delete_first (x : ptr) (l : list ptr) : list ptr :=
  match l with
  | [] => []
  | y :: r => if Pos.eqb y x then r else y :: g_list_delete_first x r
  end.

Fixpoint for_each {A} (l : list A) (body : A -> M unit) : M unit :=
  match l with
  | [] => ret tt
  | x :: r => let* _ := body x in for_each r body
  end.

(** ** cache.c *)

Section Cache.

Variable O : oracle.

Definition next_tick : M nat := fun st =>
  Some (tick (io st), with_io (fun w => set_tick (S (tick w)) w) st).

(** [clock_gettime(CLOCK_REALTIME, ..)]: the time, or [None] for -1. *)
Definition clock_gettime : M (option Z) :=
  let* k := next_tick in ret (o_clock O k).

(** [bpf_map_update_elem] and [bpf_map_delete_elem] on the target-networks
    map; [true] stands for a non-negative return. *)
Definition bpf_map_update_elem (key : Z * in6_addr) (value : Z) : M bool :=
  let* k := next_tick in
  if o_bpf_update O k
  then let* _ := modify (with_io (fun w =>
                   set_target_networks (<[key := value]> (target_networks w)) w)) in
       ret true
  else ret false.

Definition bpf_map_delete_elem (key : Z * in6_addr) : M bool :=
  let* k := next_tick in
  let* present := gets (fun st => bool_decide (is_Some (target_networks (io st) !! key))) in
  if o_bpf_delete O k && present
  then let* _ := modify (with_io (fun w =>
                   set_target_networks (delete key (target_networks w)) w)) in
       ret true
  else ret false.

(** The strings are copied as they are: the sizes of the destination arrays
    are in the missing header. *)
Definition cache_add_link (link_cmd : netlink_link_cmd) : M (option ptr) :=
  let* cache := g_new0 in
  let* _ := init_link cache
    {| lc_ifindex := lcmd_ifindex link_cmd; lc_mac := lcmd_mac link_cmd;
       lc_ifname := lcmd_ifname link_cmd; lc_kind := lcmd_kind link_cmd;
       lc_slave_kind := lcmd_slave_kind link_cmd; lc_vlan_id := lcmd_vlan_id link_cmd;
       lc_vlan_protocol := lcmd_vlan_protocol link_cmd;
       lc_has_vlan := lcmd_has_vlan link_cmd; lc_is_macvlan := lcmd_is_macvlan link_cmd;
       lc_is_svi := false; lc_ignore_link := false; lc_link_ifindex := 0;
       lc_times := times0; lc_reference_count := 0;
       lc_network_list := []; lc_fdb_list := [] |} in
  let* now := clock_gettime in
  match now with
  | None =>
      (* g_free(cache); goto out; and out returns cache, not NULL *)
      let* _ := free_link cache in ret (Some cache)
  | Some t =>
      let* _ := update_link cache
                  (link_set_times {| created := t; updated := t; referenced := t |}) in
      let* _ := modify (with_db (fun d =>
                  set_db_link_cache (<[lcmd_ifindex link_cmd := cache]> (db_link_cache d)) d)) in
      ret (Some cache)
  end.

(** Returns [true] for 0 and [false] for [errno]. *)
Definition cache_update_link (cache : ptr) (link_cmd : netlink_link_cmd) : M bool :=
  let* l := load_link cache in
  let updated :=
    negb (lc_link_ifindex l =? lcmd_link_ifindex link_cmd)
    || negb (String.eqb (lc_ifname l) (lcmd_ifname link_cmd))
    || negb (lc_mac l =? lcmd_mac link_cmd)%N
    || negb (String.eqb (lc_kind l) (lcmd_kind link_cmd))
    || negb (String.eqb (lc_slave_kind l) (lcmd_slave_kind link_cmd))
    || negb (lc_vlan_protocol l =? lcmd_vlan_protocol link_cmd)
    || negb (lc_vlan_id l =? lcmd_vlan_id link_cmd)
    || negb (Bool.eqb (lc_has_vlan l) (lcmd_has_vlan link_cmd))
    || negb (Bool.eqb (lc_is_macvlan l) (lcmd_is_macvlan link_cmd)) in
  let* _ := init_link cache
    {| lc_ifindex := lc_ifindex l; lc_mac := lcmd_mac link_cmd;
       lc_ifname := lcmd_ifname link_cmd; lc_kind := lcmd_kind link_cmd;
       lc_slave_kind := lcmd_slave_kind link_cmd; lc_vlan_id := lcmd_vlan_id link_cmd;
       lc_vlan_protocol := lcmd_vlan_protocol link_cmd;
       lc_has_vlan := lcmd_has_vlan link_cmd; lc_is_macvlan := lcmd_is_macvlan link_cmd;
       lc_is_svi := lc_is_svi l; lc_ignore_link := lc_ignore_link l;
       lc_link_ifindex := lcmd_link_ifindex link_cmd;
       lc_times := lc_times l; lc_reference_count := lc_reference_count l;
       lc_network_list := lc_network_list l; lc_fdb_list := lc_fdb_list l |} in
  if updated then
    let* now := clock_gettime in
    match now with
    | None => ret false
    | Some t =>
        let* _ := update_link cache (fun l' =>
                    link_set_times (set_times_updated t (lc_times l')) l') in
        ret true
    end
  else ret true.

Definition cache_add_link_network (link_network : ptr) : M Z :=
  let* ln := load_link_network link_network in
  let* network := load_network (lnc_network ln) in
  let* link := load_link (lnc_link ln) in
  let* _ := modify (with_db (fun d => set_db_lookup_vlan_networkid
              (<[(nc_id network, lc_vlan_id link) := link_network]>
                 (db_lookup_vlan_networkid d)) d)) in
  let* _ := modify (with_db (fun d => set_db_lookup_addr_ifindex
              (<[(nc_network network, lc_ifindex link) := link_network]>
                 (db_lookup_addr_ifindex d)) d)) in
  let* _ := update_network (lnc_network ln) (fun n =>
              network_set_links (nc_links n ++ [link_network]) n) in
  let* _ := update_network (lnc_network ln) (fun n =>
              network_set_refcnt (nc_refcnt n + 1) n) in
  let* _ := update_link (lnc_link ln) (fun l =>
              link_set_network_list (lc_network_list l ++ [link_network]) l) in
  ret 0.

(** The second loop compares the entries of [link->network_list], which are
    link_network pointers, with the network pointer. *)
Definition cache_del_link_network (link_network : ptr) : M unit :=
  let* ln := load_link_network link_network in
  let* network := load_network (lnc_network ln) in
  let* link := load_link (lnc_link ln) in
  let* _ := modify (with_db (fun d => set_db_lookup_vlan_networkid
              (delete (nc_id network, lc_vlan_id link) (db_lookup_vlan_networkid d)) d)) in
  let* _ := modify (with_db (fun d => set_db_lookup_addr_ifindex
              (delete (nc_network network, lc_ifindex link) (db_lookup_addr_ifindex d)) d)) in
  let* _ := update_network (lnc_network ln) (fun n =>
              network_set_links (g_list_delete_first link_network (nc_links n)) n) in
  let* _ := update_link (lnc_link ln) (fun l =>
              link_set_network_list
                (g_list_delete_first (lnc_network ln) (lc_network_list l)) l) in
  let* _ := free_link_network link_network in
  update_network (lnc_network ln) (fun n => network_set_refcnt (nc_refcnt n - 1) n).

Definition cache_get_link (ifindex : Z) : M (option ptr) :=
  let* found := gets (fun st => db_link_cache (db st) !! ifindex) in
  match found with
  | None => ret None
  | Some cache =>
      let* _ := load_link cache in
      let* now := clock_gettime in
      match now with
      | None => ret None
      | Some t =>
          let* _ := update_link cache (fun l =>
                      link_set_reference_count (lc_reference_count l + 1)
                        (link_set_times (set_times_referenced t (lc_times l)) l)) in
          ret (Some cache)
      end
  end.

(** [g_hash_table_remove] on the fdb table, which owns its values
    ([g_free] is its value destructor). *)
Definition db_fdb_cache_remove (key : mac_addr * Z * Z) : M unit :=
  let* found := gets (fun st => db_fdb_cache (db st) !! key) in
  match found with
  | None => ret tt
  | Some fdb =>
      let* _ := modify (with_db (fun d =>
                  set_db_fdb_cache (delete key (db_fdb_cache d)) d)) in
      free_fdb fdb
  end.

(** The traversal of [network_list] is over the list as it is on entry:
    [cache_del_link_network] unlinks a node of it only if a link_network
    pointer equals a network pointer.  The key of the fdb removal is built
    from [ifindex] and [vlan_id] only: its [mac] is zero. *)
Definition cache_del_link (link_cmd : netlink_link_cmd) : M Z :=
  let* found := gets (fun st => db_link_cache (db st) !! lcmd_ifindex link_cmd) in
  match found with
  | None => ret (-1)
  | Some cache =>
      let* l := load_link cache in
      let* _ := for_each (lc_network_list l) cache_del_link_network in
      let* l' := load_link cache in
      let* _ := for_each (lc_fdb_list l') (fun f =>
                  let* fdb := load_fdb f in
                  let* fl := load_link (fc_link fdb) in
                  db_fdb_cache_remove (0%N, lc_ifindex fl, fc_vlan_id fdb)) in
      let* _ := modify (with_db (fun d =>
                  set_db_link_cache (delete (lcmd_ifindex link_cmd) (db_link_cache d)) d)) in
      let* _ := free_link cache in
      ret 0
  end.

Definition cache_new_link_network : M ptr := g_new0.

Definition cache_get_link_network_by_reply (r : neighbor_reply) : M (option ptr) :=
  gets (fun st => db_lookup_vlan_networkid (db st) !! (nr_network_id r, nr_vlan_id r)).

Fixpoint cache_get_link_network_by_addr_loop (ip : in6_addr) (l : list ptr)
  : M (option ptr) :=
  match l with
  | [] => ret None
  | cache :: rest =>
      let* ln := load_link_network cache in
      let* network := load_network (lnc_network ln) in
      if compare_ipv6_addresses
           (calculate_network_using_cidr ip (nc_prefixlen network)) (nc_network network)
      then ret (Some cache)
      else cache_get_link_network_by_addr_loop ip rest
  end.

Definition cache_get_link_network_by_addr (link : ptr) (ip : in6_addr) : M (option ptr) :=
  let* l := load_link link in
  cache_get_link_network_by_addr_loop ip (lc_network_list l).

Definition cache_get_link_network (ifindex : Z) (network_ip : in6_addr) : M (option ptr) :=
  gets (fun st => db_lookup_addr_ifindex (db st) !! (network_ip, ifindex)).

(** The labels [err1], [err2] and [err3] of [cache_add_network]; each falls
    through to the one before it, and [err0] returns NULL.  [db_lookup_addr]
    owns its keys ([g_free] is its key destructor in [setup_cache]), so the
    removal at [err3] releases [addr_key], and the [g_free(addr_key)] after
    it releases the same block a second time: the function has no defined
    behaviour from there on. *)
Definition cache_add_network_err1 (cache : ptr) : M (option ptr) :=
  let* _ := free_network cache in
  ret None.

Definition cache_add_network_err2 (cache : ptr) (id : Z) : M (option ptr) :=
  let* _ := modify (with_db (fun d =>
              set_db_network_cache (delete id (db_network_cache d)) d)) in
  cache_add_network_err1 cache.

Definition cache_add_network_err3 (cache : ptr) (id : Z) (network : in6_addr)
  : M (option ptr) :=
  let* _ := modify (with_db (fun d =>
              set_db_lookup_addr (delete network (db_lookup_addr d)) d)) in
  (* g_free(addr_key), which the key destructor has released *)
  let* _ := (undefined : M unit) in
  cache_add_network_err2 cache id.

(** [cache_add_network] from the two allocations to the call of
    [cache_add_link_network]: the new Network, inserted into both network
    tables, and the binding of the link to it.  The result is the Network and
    its id. *)
Definition cache_add_network_insert (addr_cmd : netlink_addr_cmd) (link_cache : ptr)
  : M (ptr * Z) :=
  let* cache := g_new0 in
  let* link_network_cache := g_new0 in
  (* cache->id = id++, on a static __u32 *)
  let* id := gets (fun st => network_id (io st)) in
  let* _ := modify (with_io (set_network_id ((id + 1) mod 2 ^ 32))) in
  let* _ := init_network cache
    {| nc_id := id; nc_network := acmd_network addr_cmd;
       nc_prefixlen := acmd_prefixlen addr_cmd;
       nc_true_prefixlen := acmd_true_prefixlen addr_cmd;
       nc_links := []; nc_refcnt := 0; nc_times := times0;
       nc_reference_count := 0 |} in
  let* _ := modify (with_db (fun d =>
              set_db_network_cache (<[id := cache]> (db_network_cache d)) d)) in
  let* _ := modify (with_db (fun d =>
              set_db_lookup_addr (<[acmd_network addr_cmd := cache]> (db_lookup_addr d)) d)) in
  let* _ := init_link_network link_network_cache
    {| lnc_ip := acmd_ip addr_cmd; lnc_network := cache; lnc_link := link_cache |} in
  let* _ := cache_add_link_network link_network_cache in
  ret (cache, id).

Definition cache_add_network (addr_cmd : netlink_addr_cmd) : M (option ptr) :=
  let* link_cache := cache_get_link (acmd_ifindex addr_cmd) in
  match link_cache with
  | None => ret None
  | Some link_cache =>
      let* new := cache_add_network_insert addr_cmd link_cache in
      match new with
      | (cache, id) =>
          let* ok := bpf_map_update_elem
                       (acmd_prefixlen addr_cmd, acmd_network addr_cmd) id in
          if ok then
            let* now := clock_gettime in
            match now with
            | None => cache_add_network_err3 cache id (acmd_network addr_cmd)
            | Some t =>
                let* _ := update_network cache (fun n =>
                            network_set_times (set_times_referenced t
                              (set_times_created t (nc_times n))) n) in
                ret (Some cache)
            end
          else cache_add_network_err3 cache id (acmd_network addr_cmd)
      end
  end.

Definition cache_get_network_by_id (id : Z) : M (option ptr) :=
  let* found := gets (fun st => db_network_cache (db st) !! id) in
  match found with
  | None => ret None
  | Some cache =>
      let* _ := load_network cache in
      let* now := clock_gettime in
      match now with
      | None => ret (Some cache)   (* goto out, with cache still set *)
      | Some t =>
          let* _ := update_network cache (fun n =>
                      network_set_reference_count (nc_reference_count n + 1)
                        (network_set_times (set_times_referenced t (nc_times n)) n)) in
          ret (Some cache)
      end
  end.

Definition cache_get_network (addr_cmd : netlink_addr_cmd) : M (option ptr) :=
  gets (fun st => db_lookup_addr (db st) !! acmd_network addr_cmd).

Fixpoint cache_del_network_find (addr_cmd : netlink_addr_cmd) (l : list ptr)
  : M (option ptr) :=
  match l with
  | [] => ret None
  | link_network :: rest =>
      let* ln := load_link_network link_network in
      let* network := load_network (lnc_network ln) in
      if compare_ipv6_addresses (nc_network network) (acmd_ip addr_cmd)
         && (nc_prefixlen network =? acmd_prefixlen addr_cmd)
      then ret (Some (lnc_network ln))
      else cache_del_network_find addr_cmd rest
  end.

(** The loop over [network->links] in [cache_del_network].  Its body,
    [cache_del_link_network], finds the binding in [network->links], which is
    the node the loop stands on, and unlinks and releases that node with
    [g_list_delete_link]; the step of the loop then reads the [next] field of
    the released node, which has no defined behaviour.  So the loop is
    defined on the empty list only. *)
Definition cache_del_network_links (links : list ptr) : M unit :=
  match links with
  | [] => ret tt
  | first :: _ =>
      let* _ := cache_del_link_network first in
      (* iter = g_list_next(iter), on the released node *)
      undefined
  end.

(** Returns [true] for 0 and [false] for [errno].  The removal from
    [db_lookup_addr] passes a [struct ifindex_addr_cache_key] whose first
    member is the network address, which is what the table's functions
    read. *)
Definition cache_del_network (addr_cmd : netlink_addr_cmd) : M bool :=
  let* link_cache := cache_get_link (acmd_ifindex addr_cmd) in
  match link_cache with
  | None => ret true
  | Some link_cache =>
      let* l := load_link link_cache in
      let* found := cache_del_network_find addr_cmd (lc_network_list l) in
      match found with
      | None => ret true
      | Some network =>
          let* n := load_network network in
          let* _ := modify (with_db (fun d =>
                      set_db_network_cache (delete (nc_id n) (db_network_cache d)) d)) in
          let* _ := modify (with_db (fun d =>
                      set_db_lookup_addr (delete (nc_network n) (db_lookup_addr d)) d)) in
          let* _ := cache_del_network_links (nc_links n) in
          bpf_map_delete_elem (acmd_prefixlen addr_cmd, acmd_ip addr_cmd)
      end
  end.

Definition cache_get_fdb (neigh_cmd : netlink_neigh_cmd) : M (option ptr) :=
  let* found := gets (fun st => db_fdb_cache (db st) !!
                  (ncmd_mac neigh_cmd, ncmd_ifindex neigh_cmd, ncmd_vlan_id neigh_cmd)) in
  match found with
  | None => ret None
  | Some cache =>
      let* _ := load_fdb cache in
      let* now := clock_gettime in
      match now with
      | None => ret (Some cache)   (* goto out, with cache still set *)
      | Some t =>
          let* _ := update_fdb cache (fdb_touch t) in
          ret (Some cache)
      end
  end.

Definition cache_get_fdb_by_reply (r : neighbor_reply) (ifindex : Z) : M (option ptr) :=
  cache_get_fdb {| ncmd_ifindex := ifindex; ncmd_vlan_id := nr_vlan_id r;
                   ncmd_mac := nr_mac r; ncmd_ip := 0%N; ncmd_nud_state := 0;
                   ncmd_is_externally_learned := false |}.

(** [g_hash_table_insert] on the fdb table: a value already stored under the
    key is released by the value destructor. *)
Definition db_fdb_cache_insert (key : mac_addr * Z * Z) (cache : ptr) : M unit :=
  let* found := gets (fun st => db_fdb_cache (db st) !! key) in
  let* _ := match found with
            | Some old => free_fdb old
            | None => ret tt
            end in
  modify (with_db (fun d => set_db_fdb_cache (<[key := cache]> (db_fdb_cache d)) d)).

Definition cache_add_fdb (neigh_cmd : netlink_neigh_cmd) : M (option ptr) :=
  let* link := cache_get_link (ncmd_ifindex neigh_cmd) in
  match link with
  | None => ret None
  | Some link =>
      let* cache := g_new0 in
      let* _ := init_fdb cache
        {| fc_mac := ncmd_mac neigh_cmd; fc_link := link;
           fc_vlan_id := ncmd_vlan_id neigh_cmd; fc_times := times0;
           fc_reference_count := 0 |} in
      let* now := clock_gettime in
      match now with
      | None => let* _ := free_fdb cache in ret None
      | Some t =>
          let* _ := update_fdb cache (fun f =>
            {| fc_mac := fc_mac f; fc_link := fc_link f; fc_vlan_id := fc_vlan_id f;
               fc_times := set_times_referenced t (set_times_created t (fc_times f));
               fc_reference_count := fc_reference_count f |}) in
          let* _ := db_fdb_cache_insert
                      (ncmd_mac neigh_cmd, ncmd_ifindex neigh_cmd, ncmd_vlan_id neigh_cmd)
                      cache in
          ret (Some cache)
      end
  end.

Definition cache_del_fdb (neigh_cmd : netlink_neigh_cmd) : M Z :=
  let key := (ncmd_mac neigh_cmd, ncmd_ifindex neigh_cmd, ncmd_vlan_id neigh_cmd) in
  let* found := gets (fun st => db_fdb_cache (db st) !! key) in
  match found with
  | None => ret (-1)
  | Some _ => let* _ := db_fdb_cache_remove key in ret 0
  end.

Definition cache_add_neigh (link_network : ptr) (neigh_cmd : netlink_neigh_cmd)
  : M (option ptr) :=
  let* cache := g_new0 in
  let* _ := init_neigh cache
    {| ngc_ifindex := ncmd_ifindex neigh_cmd; ngc_mac := ncmd_mac neigh_cmd;
       ngc_ip := ncmd_ip neigh_cmd; ngc_nud_state := ncmd_nud_state neigh_cmd;
       ngc_sending_link_network := link_network; ngc_timer := None; ngc_id := 0;
       ngc_update_count := 0; ngc_reference_count := 0; ngc_times := times0 |} in
  let* now := clock_gettime in
  match now with
  | None => let* _ := free_neigh cache in ret None
  | Some t =>
      let* _ := update_neigh cache (fun n =>
                  neigh_set_times (set_times_referenced t
                    (set_times_created t (ngc_times n))) n) in
      let* _ := modify (with_db (fun d => set_db_neigh_cache
                  (<[(ncmd_ifindex neigh_cmd, ncmd_ip neigh_cmd) := cache]>
                     (db_neigh_cache d)) d)) in
      (* cache->id = id++, on a static __u64 *)
      let* id := gets (fun st => neigh_id (io st)) in
      let* _ := modify (with_io (set_neigh_id ((id + 1) mod 2 ^ 64))) in
      let* _ := update_neigh cache (neigh_set_id id) in
      ret (Some cache)
  end.

Definition cache_get_neigh (neigh_cmd : netlink_neigh_cmd) : M (option ptr) :=
  let* found := gets (fun st => db_neigh_cache (db st) !!
                  (ncmd_ifindex neigh_cmd, ncmd_ip neigh_cmd)) in
  match found with
  | None => ret None
  | Some cache =>
      let* _ := load_neigh cache in
      let* now := clock_gettime in
      match now with
      | None => ret (Some cache)   (* goto out, with cache still set *)
      | Some t =>
          let* _ := update_neigh cache (fun n =>
                      neigh_set_reference_count (ngc_reference_count n + 1)
                        (neigh_set_times (set_times_referenced t (ngc_times n)) n)) in
          ret (Some cache)
      end
  end.

Definition cache_get_neigh_by_reply (r : neighbor_reply) (ifindex : Z) : M (option ptr) :=
  cache_get_neigh {| ncmd_ifindex := ifindex; ncmd_vlan_id := 0;
                     ncmd_mac := nr_mac r; ncmd_ip := nr_ip r; ncmd_nud_state := 0;
                     ncmd_is_externally_learned := false |}.

(** Returns [true] for 0 and [false] for [-ENOENT] or [-errno]. *)
Definition cache_neigh_update (neigh_cmd : netlink_neigh_cmd) : M bool :=
  let* found := gets (fun st => db_neigh_cache (db st) !!
                  (ncmd_ifindex neigh_cmd, ncmd_ip neigh_cmd)) in
  match found with
  | None => ret false
  | Some cache =>
      let* n := load_neigh cache in
      let* _ := if is_same_mac (ngc_mac n) (ncmd_mac neigh_cmd) then ret tt
                else update_neigh cache (neigh_set_mac (ncmd_mac neigh_cmd)) in
      if ncmd_nud_state neigh_cmd =? ngc_nud_state n then ret true
      else
        let* _ := update_neigh cache (neigh_set_nud_state (ncmd_nud_state neigh_cmd)) in
        let* now := clock_gettime in
        match now with
        | None => ret false
        | Some t =>
            let* _ := update_neigh cache (fun n' =>
                        neigh_set_update_count (ngc_update_count n' + 1)
                          (neigh_set_times (set_times_referenced t
                             (set_times_updated t (ngc_times n'))) n')) in
            ret true
        end
  end.

Definition cache_del_neigh (neigh : ptr) : M unit :=
  let* n := load_neigh neigh in
  let* _ := modify (with_db (fun d => set_db_neigh_cache
              (delete (ngc_ifindex n, ngc_ip n) (db_neigh_cache d)) d)) in
  free_neigh neigh.

(** ** The collaborators of the handlers *)

(** Modelled from the spec: [timer_add_neigh] belongs to the timer wheel,
    which is outside the two source files.  The spec has each Neighbor hold
    at most one timer entry: arming stores a fresh entry for the interval and
    sets the neighbor's timer slot.  [true] stands for a return of 0. *)
Definition timer_add_neigh (neigh : ptr) (seconds : Q) : M bool :=
  let* k := next_tick in
  if o_timer_add O k then
    let* t := g_new0 in
    let* _ := modify (with_io (fun w => set_timers (<[t := (neigh, seconds)]> (timers w)) w)) in
    let* _ := update_neigh neigh (neigh_set_timer (Some t)) in
    ret true
  else ret false.

(** Modelled from the spec: [timer_remove_event] belongs to the timer wheel
    as well; cancelling removes the entry. *)
Definition timer_remove_event (t : ptr) : M unit :=
  modify (with_io (fun w => set_timers (delete t (timers w)) w)).

(** Modelled from the spec: [netlink_send_neigh] is outside the two source
    files; the spec has it append a NEIGH_ADD for (ifindex, mac, ip) to the
    netlink TX queue. *)
Definition netlink_send_neigh (r : neighbor_reply) (ifindex : Z) : M unit :=
  modify (with_io (fun w =>
    set_netlink_tx (netlink_tx w ++ [(ifindex, nr_mac r, nr_ip r)]) w)).

(** ** neighsnoopd.c *)

(** The two probe builders, as the addresses they put in the frame and the
    interface they send on; the result of [sendto] is logged and dropped by
    the caller. *)
Definition send_probe (kind : probe_kind) (neigh : ptr) : M Z :=
  let* n := load_neigh neigh in
  let* src := load_link_network (ngc_sending_link_network n) in
  let* link := load_link (lnc_link src) in
  let* k := next_tick in
  if o_sendto O k then
    let* _ := modify (with_io (fun w => set_packets (packets w ++
                [{| pr_kind := kind; pr_dst_mac := ngc_mac n; pr_src_mac := lc_mac link;
                    pr_src_ip := lnc_ip src; pr_dst_ip := ngc_ip n;
                    pr_sll_ifindex := lc_ifindex link |}]) w)) in
    ret 0
  else ret (-1).

Definition send_neighbor_solicitation (neigh : ptr) : M Z :=
  send_probe NEIGHBOR_SOLICIT neigh.
Definition send_arp_request (neigh : ptr) : M Z :=
  send_probe ARP_REQUEST neigh.

Definition send_gratuitous_neighbor_request (neigh : ptr) : M unit :=
  let* n := load_neigh neigh in
  let* _ := if IN6_IS_ADDR_V4MAPPED (ngc_ip n)
            then send_arp_request neigh
            else send_neighbor_solicitation neigh in
  ret tt.

(** *** C doubles

    A finite [double] is the rational it denotes.  IEEE 754 defines the
    result of a division or an addition as the exact result rounded to the
    nearest binary64 value, ties to the one with the even significand;
    [round_double] is that rounding, with the wider spacing of the subnormal
    values below 2^-1022.  Overflow is not modelled: the values computed here
    stay far below 2^1024.  The oracle's [o_base_reachable_time_ms] answers
    the value that [fscanf] stored in [base_reachable_time]. *)

(** The nearest integer, ties to even. *)
Definition round_half_even (x : Q) : Z :=
  let f := Qfloor x in
  match (x - inject_Z f ?= 1 # 2)%Q with
  | Lt => f
  | Gt => f + 1
  | Eq => if Z.even f then f else f + 1
  end.

(** The exponent [e] with [2^e <= x < 2^(e+1)], for a positive [x]. *)
Definition binade (x : Q) : Z :=
  let e0 := Z.log2 (Qnum x) - Z.log2 (Zpos (Qden x)) in
  if Qle_bool (2 ^ e0) x then e0 else e0 - 1.

(** The spacing of the binary64 values around [x]: 52 bits below its
    exponent. *)
Definition ulp_double (x : Q) : Q :=
  (2 ^ (Z.max (binade (Qabs x)) (-1022) - 52))%Q.

Definition round_double (x : Q) : Q :=
  if Qeq_bool x 0 then 0%Q
  else (ulp_double x * inject_Z (round_half_even (x / ulp_double x)))%Q.

(** The smallest normal binary64 value. *)
Definition double_min : Q := (2 ^ (-1022))%Q.

(** The interval: [base_reachable_time / 4.0 / 1000.0 + (rand() % 2000) /
    1000.0], each of the three divisions and the sum in [double]; the
    remainder is an [int], which converts exactly. *)
Definition gratuitous_seconds (base_reachable_time : Q) (r : N) : Q :=
  round_double
    (round_double (round_double (base_reachable_time / 4) / 1000)
     + round_double (inject_Z (Z.of_N (r mod 2000)) / 1000))%Q.

(** The same expression on the binary64 values of the Standard Library, and
    the rational a finite binary64 value denotes: a second reading of the C
    expression, to compare [round_double] with. *)
Definition double_of_Z (z : Z) : SpecFloat.spec_float :=
  SpecFloat.binary_normalize 53 1024 z 0 false.

Definition gratuitous_seconds_binary64 (b r : Z) : SpecFloat.spec_float :=
  SpecFloat.SFadd 53 1024
    (SpecFloat.SFdiv 53 1024
       (SpecFloat.SFdiv 53 1024 (double_of_Z b) (double_of_Z 4)) (double_of_Z 1000))
    (SpecFloat.SFdiv 53 1024 (double_of_Z (r mod 2000)) (double_of_Z 1000)).

Definition SF2Q (x : SpecFloat.spec_float) : Q :=
  match x with
  | SpecFloat.S754_finite s m e =>
      ((if s then -1 else 1) * inject_Z (Zpos m) * 2 ^ e)%Q
  | _ => 0%Q
  end.

(** [None] stands for -1 (the file could not be opened or read), [Some s]
    for 0 with [*seconds = s]. *)
Definition get_next_gratuitous_time (neigh : ptr) : M (option Q) :=
  let* n := load_neigh neigh in
  let* ln := load_link_network (ngc_sending_link_network n) in
  let* link := load_link (lnc_link ln) in
  let is_ipv4 := IN6_IS_ADDR_V4MAPPED (ngc_ip n) in
  let* k := next_tick in
  match o_base_reachable_time_ms O k is_ipv4 (lc_ifname link) with
  | None => ret None
  | Some base_reachable_time =>
      let* k' := next_tick in
      ret (Some (gratuitous_seconds base_reachable_time (o_rand O k')))
  end.

(** [true] stands for a return of 0, [false] for -1. *)
Definition new_neigh_timer (neigh : ptr) : M bool :=
  let* next_gratuitous_time := get_next_gratuitous_time neigh in
  match next_gratuitous_time with
  | None => ret false
  | Some seconds => timer_add_neigh neigh seconds
  end.

Section Handlers.

Variable E : env.

Definition filter_deny_interfaces (ifname : string) : bool :=
  if has_deny_filter E then deny_filter E ifname else false.

Definition handle_neighbor_reply (neighbor_reply : neighbor_reply) : M Z :=
  if only_ipv6 E && negb (nr_in_family neighbor_reply =? AF_INET6) then ret 1
  else if only_ipv4 E && negb (nr_in_family neighbor_reply =? AF_INET) then ret 1
  else
    let* _ := modify (with_io (fun w => set_count (count w - 1) w)) in
    let* link_net := cache_get_link_network_by_reply neighbor_reply in
    match link_net with
    | None => ret 1
    | Some link_net =>
        let* ln := load_link_network link_net in
        let* link := load_link (lnc_link ln) in
        let* fdb := cache_get_fdb_by_reply neighbor_reply (lc_ifindex link) in
        match fdb with
        | Some _ => ret 0
        | None =>
            let* neigh := cache_get_neigh_by_reply neighbor_reply (lc_ifindex link) in
            let* armed :=
              match neigh with
              | None => ret true
              | Some neigh =>
                  let* n := load_neigh neigh in
                  let* _ := match ngc_timer n with
                            | Some t => timer_remove_event t
                            | None => ret tt
                            end in
                  new_neigh_timer neigh
              end in
            if armed then
              let* _ := netlink_send_neigh neighbor_reply (lc_ifindex link) in
              ret 0
            else ret 1
        end
    end.

Definition handle_neigh_add (cmd : netlink_neigh_cmd) : M Z :=
  if negb (has_links E && has_networks E && has_fdb E) then ret 0
  else if ncmd_ifindex cmd =? 0 then ret 0
  else if is_zero_mac (ncmd_mac cmd) then ret 0
  else if ncmd_is_externally_learned cmd then ret 0
  else
    let* link := cache_get_link (ncmd_ifindex cmd) in
    match link with
    | None => ret 0
    | Some link =>
        let* link_net := cache_get_link_network_by_addr link (ncmd_ip cmd) in
        match link_net with
        | None => ret 0
        | Some link_net =>
            let* cached := cache_get_neigh cmd in
            let* neigh :=
              match cached with
              | Some neigh => let* _ := cache_neigh_update cmd in ret (Some neigh)
              | None => cache_add_neigh link_net cmd
              end in
            match neigh with
            | None => ret 0
            | Some neigh =>
                let* n := load_neigh neigh in
                let* armed :=
                  if (ngc_nud_state n =? NUD_REACHABLE)
                     && negb (bool_decide (is_Some (ngc_timer n)))
                  then new_neigh_timer neigh
                  else ret true in
                if armed then
                  let* n' := load_neigh neigh in
                  let* _ := if ngc_nud_state n' =? NUD_STALE
                            then send_gratuitous_neighbor_request neigh
                            else ret tt in
                  ret 0
                else ret 0
            end
        end
    end.

Definition handle_neigh_del (cmd : netlink_neigh_cmd) : M Z :=
  let* neigh := cache_get_neigh cmd in
  match neigh with
  | None => ret 0
  | Some neigh =>
      let* n := load_neigh neigh in
      let* _ := match ngc_timer n with
                | Some t =>
                    let* _ := timer_remove_event t in
                    update_neigh neigh (neigh_set_timer None)
                | None => ret tt
                end in
      let* _ := cache_del_neigh neigh in
      ret 0
  end.

Definition handle_fdb_add (cmd : netlink_neigh_cmd) : M Z :=
  if negb (has_links E && has_networks E) then ret 0
  else if ncmd_ifindex cmd =? 0 then ret 0
  else
    let* link := cache_get_link (ncmd_ifindex cmd) in
    match link with
    | None => ret 0
    | Some _ =>
        if ncmd_is_externally_learned cmd then ret 0
        else
          let* fdb := cache_get_fdb cmd in
          match fdb with
          | Some _ => ret 0
          | None =>
              let* fdb := cache_add_fdb cmd in
              match fdb with
              | None => ret (-1)
              | Some _ => ret 0
              end
          end
    end.

Definition handle_fdb_del (cmd : netlink_neigh_cmd) : M Z :=
  let* fdb := cache_get_fdb cmd in
  match fdb with
  | None => ret 0
  | Some _ => let* _ := cache_del_fdb cmd in ret 0
  end.

Definition handle_addr_add (cmd : netlink_addr_cmd) : M Z :=
  if negb (has_links E) then ret 0
  else if negb (disable_ipv6ll_filter E) && IN6_IS_ADDR_LINKLOCAL (acmd_ip cmd) then ret 0
  else
    let* link := cache_get_link (acmd_ifindex cmd) in
    match link with
    | None => ret 0
    | Some link =>
        let* l := load_link link in
        if negb (lc_is_svi l) then ret 0
        else
          let* cached := cache_get_network cmd in
          let* network :=
            match cached with
            | Some network => ret (Some network)
            | None => cache_add_network cmd
            end in
          match network with
          | None => ret (-1)
          | Some network =>
              let* l := load_link link in
              let* n := load_network network in
              let* link_net := cache_get_link_network (lc_ifindex l) (nc_network n) in
              match link_net with
              | Some _ => ret 0
              | None =>
                  let* link_net := cache_new_link_network in
                  let* _ := init_link_network link_net
                    {| lnc_ip := calculate_network_using_cidr (nc_network n)
                                   (acmd_prefixlen cmd);
                       lnc_network := network; lnc_link := link |} in
                  cache_add_link_network link_net
              end
          end
    end.

Definition handle_addr_del (cmd : netlink_addr_cmd) : M Z :=
  let* network := cache_get_network cmd in
  match network with
  | None => ret 0
  | Some _ => let* _ := cache_del_network cmd in ret 0
  end.

Definition handle_link_add (cmd : netlink_link_cmd) : M Z :=
  let* link := cache_get_link (lcmd_ifindex cmd) in
  match link with
  | Some link => let* _ := cache_update_link link cmd in ret 0
  | None =>
      let* link := cache_add_link cmd in
      match link with
      | None => ret (-1)
      | Some link =>
          let* _ := update_link link
                      (link_set_is_svi (lcmd_link_ifindex cmd =? ifidx_mon E)) in
          let* _ := if filter_deny_interfaces (lcmd_ifname cmd)
                    then update_link link (link_set_ignore_link true)
                    else ret tt in
          ret 0
      end
  end.

Definition handle_link_del (cmd : netlink_link_cmd) : M Z :=
  let* link := cache_get_link (lcmd_ifindex cmd) in
  match link with
  | None => ret 0
  | Some _ => let* _ := cache_del_link cmd in ret 0
  end.

Definition handle_netlink_cmd (cmd : netlink_cmd) : M Z :=
  match cmd with
  | CMD_NEIGH_ADD c => handle_neigh_add c
  | CMD_NEIGH_DEL c => handle_neigh_del c
  | CMD_FDB_ADD c => handle_fdb_add c
  | CMD_FDB_DEL c => handle_fdb_del c
  | CMD_ADDR_ADD c => handle_addr_add c
  | CMD_ADDR_DEL c => handle_addr_del c
  | CMD_LINK_ADD c => handle_link_add c
  | CMD_LINK_DEL c => handle_link_del c
  end.

End Handlers.

(** A sequence of topology events, each handled under the [env] in force
    when it arrives; the return codes are dropped. *)
Fixpoint handle_events (evs : list (env * netlink_cmd)) : M unit :=
  match evs with
  | [] => ret tt
  | (E, cmd) :: rest =>
      let* _ := handle_netlink_cmd E cmd in
      handle_events rest
  end.

End Cache.

(** ** Concrete events and environments

    The seed scenario of the spec: the monitored bridge [br0] (ifindex 2)
    with the address 10.0.0.1/24, a host 10.0.0.5 at 02:00:00:00:00:05. *)

Definition O_ok : oracle :=
  {| o_clock := fun _ => Some 100; o_bpf_update := fun _ => true;
     o_bpf_delete := fun _ => true;
     o_base_reachable_time_ms := fun _ _ _ => Some (30000 # 1);
     o_rand := fun _ => 1234%N; o_timer_add := fun _ => true;
     o_sendto := fun _ => true |}.

(** The eBPF map rejects every update. *)
Definition O_bpf_fails : oracle :=
  {| o_clock := fun _ => Some 100; o_bpf_update := fun _ => false;
     o_bpf_delete := fun _ => true;
     o_base_reachable_time_ms := fun _ _ _ => Some (30000 # 1);
     o_rand := fun _ => 1234%N; o_timer_add := fun _ => true;
     o_sendto := fun _ => true |}.

(** The sysctl file cannot be read. *)
Definition O_sysctl_fails : oracle :=
  {| o_clock := fun _ => Some 100; o_bpf_update := fun _ => true;
     o_bpf_delete := fun _ => true;
     o_base_reachable_time_ms := fun _ _ _ => None;
     o_rand := fun _ => 1234%N; o_timer_add := fun _ => true;
     o_sendto := fun _ => true |}.

(** The sysctl file reads 9 ms, and [rand] returns 0. *)
Definition O_nine : oracle :=
  {| o_clock := fun _ => Some 100; o_bpf_update := fun _ => true;
     o_bpf_delete := fun _ => true;
     o_base_reachable_time_ms := fun _ _ _ => Some (inject_Z 9);
     o_rand := fun _ => 0%N; o_timer_add := fun _ => true;
     o_sendto := fun _ => true |}.

(** The clock answers its first [n] calls and fails afterwards. *)
Definition O_clock_stops (n : nat) : oracle :=
  {| o_clock := fun k => if (k <? n)%nat then Some 100 else None;
     o_bpf_update := fun _ => true; o_bpf_delete := fun _ => true;
     o_base_reachable_time_ms := fun _ _ _ => Some (30000 # 1);
     o_rand := fun _ => 1234%N; o_timer_add := fun _ => true;
     o_sendto := fun _ => true |}.

Definition E_ready : env :=
  {| only_ipv4 := false; only_ipv6 := false; has_links := true;
     has_networks := true; has_fdb := true; disable_ipv6ll_filter := false;
     ifidx_mon := 2; has_deny_filter := false; deny_filter := fun _ => false |}.

Definition mac_br0 : mac_addr := 0x020000000001%N.
Definition mac_host : mac_addr := 0x020000000005%N.
Definition ip_10_0_0_0 : in6_addr := 0xffff0a000000%N.
Definition ip_10_0_0_1 : in6_addr := 0xffff0a000001%N.
Definition ip_10_0_0_5 : in6_addr := 0xffff0a000005%N.

Definition link_br0 : netlink_link_cmd :=
  {| lcmd_ifindex := 2; lcmd_mac := mac_br0; lcmd_ifname := "br0";
     lcmd_kind := "bridge"; lcmd_slave_kind := ""; lcmd_vlan_id := 0;
     lcmd_vlan_protocol := 0; lcmd_has_vlan := false; lcmd_is_macvlan := false;
     lcmd_link_ifindex := 2 |}.

Definition addr_10_0_0_1 : netlink_addr_cmd :=
  {| acmd_ifindex := 2; acmd_ip := ip_10_0_0_1; acmd_network := ip_10_0_0_0;
     acmd_prefixlen := 24; acmd_true_prefixlen := 24 |}.

Definition fdb_host (externally_learned : bool) : netlink_neigh_cmd :=
  {| ncmd_ifindex := 2; ncmd_vlan_id := 0; ncmd_mac := mac_host; ncmd_ip := 0%N;
     ncmd_nud_state := 0; ncmd_is_externally_learned := externally_learned |}.

Definition neigh_host : netlink_neigh_cmd :=
  {| ncmd_ifindex := 2; ncmd_vlan_id := 0; ncmd_mac := mac_host;
     ncmd_ip := ip_10_0_0_5; ncmd_nud_state := NUD_REACHABLE;
     ncmd_is_externally_learned := false |}.

Definition reply_host : neighbor_reply :=
  {| nr_in_family := AF_INET; nr_vlan_id := 0; nr_network_id := 1;
     nr_mac := mac_host; nr_ip := ip_10_0_0_5 |}.

(** The state a sequence of events leaves, from the empty cache; [None] if
    the run is undefined. *)
Definition state_after (O : oracle) (evs : list (env * netlink_cmd))
  : option state :=
  match handle_events O evs setup_cache with
  | Some (_, st) => Some st
  | None => None
  end.

(** The result and the final state of one operation run in the state a
    sequence of events leaves. *)
Definition run_after {A} (O : oracle) (evs : list (env * netlink_cmd)) (m : M A)
  : option (A * state) :=
  (let* _ := handle_events O evs in m) setup_cache.

(** The cache after the bridge link has been added; after its address has
    been added too; and after an FDB entry and a neighbor for the host have
    been added as well (the objects are then: link 1, network 2, binding 3,
    fdb 4, neighbor 5, timer 6). *)
Definition events_br0 : list (env * netlink_cmd) :=
  [(E_ready, CMD_LINK_ADD link_br0)].
Definition events_addr : list (env * netlink_cmd) :=
  events_br0 ++ [(E_ready, CMD_ADDR_ADD addr_10_0_0_1)].
Definition events_full : list (env * netlink_cmd) :=
  events_addr ++ [(E_ready, CMD_FDB_ADD (fdb_host false));
                  (E_ready, CMD_NEIGH_ADD neigh_host)].

(** The same without the FDB entry (link 1, network 2, binding 3, neighbor
    4, timer 5). *)
Definition events_neigh : list (env * netlink_cmd) :=
  events_addr ++ [(E_ready, CMD_NEIGH_ADD neigh_host)].

Definition st_br0 : state :=
  default setup_cache (state_after O_ok events_br0).
Definition st_neigh : state :=
  default setup_cache (state_after O_ok events_neigh).

(** A second SVI on the bridge, VLAN 10, and its address 10.0.0.2/24 in the
    same network; [st_two] is the cache with both links and the first
    address (links 1 and 4, network 2, binding 3). *)
Definition link_vlan10 : netlink_link_cmd :=
  {| lcmd_ifindex := 3; lcmd_mac := mac_br0; lcmd_ifname := "br0.10";
     lcmd_kind := "vlan"; lcmd_slave_kind := ""; lcmd_vlan_id := 10;
     lcmd_vlan_protocol := 0x8100; lcmd_has_vlan := true; lcmd_is_macvlan := false;
     lcmd_link_ifindex := 2 |}.

Definition ip_10_0_0_2 : in6_addr := 0xffff0a000002%N.

Definition addr_10_0_0_2 : netlink_addr_cmd :=
  {| acmd_ifindex := 3; acmd_ip := ip_10_0_0_2; acmd_network := ip_10_0_0_0;
     acmd_prefixlen := 24; acmd_true_prefixlen := 24 |}.

Definition events_two : list (env * netlink_cmd) :=
  events_addr ++ [(E_ready, CMD_LINK_ADD link_vlan10)].

Definition st_two : state :=
  default setup_cache (state_after O_ok events_two).

(** Both SVIs bound to the network (bindings 3 and 5). *)
Definition events_bound : list (env * netlink_cmd) :=
  events_two ++ [(E_ready, CMD_ADDR_ADD addr_10_0_0_2)].

Definition st_bound : state :=
  default setup_cache (state_after O_ok events_bound).


Definition mac_other : mac_addr := 0x020000000006%N.
Definition st_addr : state :=
  default setup_cache (state_after O_ok events_addr).
Definition st_full : state :=
  default setup_cache (state_after O_ok events_full).


(** ** The invariant behind the refcnt law

    Every live Network counts its bindings; every live LinkNetwork whose
    Network is live sits in that Network's list; and no pointer held by a
    live object lies beyond the allocation counter, so a block that
    [g_new0] hands out is not already referred to. *)
Record nets_inv (np : positive) (hn : gmap positive network_cache)
    (hln : gmap positive link_network_cache) : Prop := {
  inv_refcnt : forall p n,
    hn !! p = Some n -> nc_refcnt n = Z.of_nat (length (nc_links n));
  inv_listed : forall q ln n,
    hln !! q = Some ln -> hn !! lnc_network ln = Some n -> q ∈ nc_links n;
  inv_ln_bound : forall q ln,
    hln !! q = Some ln -> (lnc_network ln < np)%positive;
  inv_net_bound : forall p n,
    hn !! p = Some n -> (p < np)%positive;
}.

Definition cache_inv (st : state) : Prop :=
  nets_inv (next_ptr (mem st)) (h_network (mem st)) (h_link_network (mem st)).

(** [m] keeps [P]: from a state with [P], every defined run of [m] ends in
    a state with [P]. *)
Definition preserves {A} (P : state -> Prop) (m : M A) : Prop :=
  forall st a st', P st -> m st = Some (a, st') -> P st'.

(** [m] leaves the stores of Networks and LinkNetworks alone and does not
    move the allocation counter back. *)
Definition frames_networks {A} (m : M A) : Prop :=
  forall st a st', m st = Some (a, st') ->
    h_network (mem st') = h_network (mem st) /\
    h_link_network (mem st') = h_link_network (mem st) /\
    (next_ptr (mem st) <= next_ptr (mem st'))%positive.

(** ** The checksum and the Neighbor Solicitation frame *)

(** A [uint32_t] after an addition. *)
Definition u32 (x : Z) : Z := x mod 2 ^ 32.

(** The [uint16_t] that [*ptr] reads from two bytes of the buffer, and the
    two bytes an assignment to a [uint16_t] field writes, on a big-endian
    ([be = true]) or little-endian host. *)
Definition load16 (be : bool) (b0 b1 : Z) : Z :=
  if be then 256 * b0 + b1 else b0 + 256 * b1.
Definition store16 (be : bool) (v : Z) : list Z :=
  if be then [v / 256; v mod 256] else [v mod 256; v / 256].

(** The loop of [checksum] and the odd byte after it; [data] holds the [len]
    bytes of the buffer. *)
Fixpoint checksum_loop (be : bool) (data : list Z) (sum : Z) : Z :=
  match data with
  | b0 :: b1 :: rest => checksum_loop be rest (u32 (sum + load16 be b0 b1))
  | [b] => u32 (sum + b)
  | [] => sum
  end.

Definition checksum (be : bool) (data : list Z) : Z :=
  let sum := checksum_loop be data 0 in
  let sum := u32 (Z.shiftr sum 16 + Z.land sum 0xFFFF) in
  let sum := u32 (sum + Z.shiftr sum 16) in
  Z.lnot sum mod 2 ^ 16.

(** The bytes of a MAC address and of an IPv6 address, first byte first. *)
Definition byte_of (v : N) (k : N) : Z := Z.of_N ((v / 256 ^ k) mod 256).
Definition mac_bytes (m : mac_addr) : list Z :=
  map (byte_of m) [5; 4; 3; 2; 1; 0]%N.
Definition in6_bytes (ip : in6_addr) : list Z :=
  map (byte_of ip) [15; 14; 13; 12; 11; 10; 9; 8; 7; 6; 5; 4; 3; 2; 1; 0]%N.

(** [htons] and [htonl] of a value, as the bytes in memory. *)
Definition htons_bytes (v : Z) : list Z := [v / 256 mod 256; v mod 256].
Definition htonl_bytes (v : Z) : list Z :=
  [v / 16777216 mod 256; v / 65536 mod 256; v / 256 mod 256; v mod 256].

Definition ETH_P_IPV6 : Z := 0x86DD.
Definition IPPROTO_ICMPV6 : Z := 58.
Definition ND_NEIGHBOR_SOLICIT : Z := 135.

(** The ICMPv6 part of the frame of [send_neighbor_solicitation]: type,
    code, the checksum field, reserved, target, and the Source Link-Layer
    Address option (24 + 8 bytes). *)
Definition nd_ns_bytes (cksum : list Z) (neigh_ip : in6_addr) (src_mac : mac_addr)
  : list Z :=
  [ND_NEIGHBOR_SOLICIT; 0] ++ cksum ++ [0; 0; 0; 0] ++ in6_bytes neigh_ip
  ++ [1; 1] ++ mac_bytes src_mac.

(** [pseudo_buffer]: the pseudo-header (source, destination, length, three
    zero bytes, next header) followed by the solicitation and its option. *)
Definition pseudo_buffer (cksum : list Z) (neigh_ip : in6_addr) (src_mac : mac_addr)
    (src_ip : in6_addr) : list Z :=
  in6_bytes src_ip ++ in6_bytes neigh_ip ++ htonl_bytes (24 + 8)
  ++ [0; 0; 0] ++ [IPPROTO_ICMPV6]
  ++ nd_ns_bytes cksum neigh_ip src_mac.

(** The 86 bytes [send_neighbor_solicitation] hands to [sendto]: Ethernet
    header, IPv6 header, solicitation with its checksum, option. *)
Definition neighbor_solicitation_buffer (be : bool) (neigh_mac : mac_addr)
    (neigh_ip : in6_addr) (src_mac : mac_addr) (src_ip : in6_addr) : list Z :=
  mac_bytes neigh_mac ++ mac_bytes src_mac ++ htons_bytes ETH_P_IPV6
  ++ [0x60; 0; 0; 0] ++ htons_bytes (24 + 8) ++ [IPPROTO_ICMPV6; 255]
  ++ in6_bytes src_ip ++ in6_bytes neigh_ip
  ++ nd_ns_bytes
       (store16 be (checksum be (pseudo_buffer [0; 0] neigh_ip src_mac src_ip)))
       neigh_ip src_mac.

(** A byte value, and the sum of the loop of [checksum] without the
    wrap-around, for the proofs. *)
Definition is_byte (b : Z) : Prop := 0 <= b < 256.

Fixpoint word_sum (be : bool) (data : list Z) : Z :=
  match data with
  | b0 :: b1 :: rest => load16 be b0 b1 + word_sum be rest
  | [b] => b
  | [] => 0
  end.

(** ** The timer event *)

(** [handle_timer_neigh_event], on the neighbor the command points at: the
    probe is sent and the neighbor's timer slot cleared, whatever [sendto]
    returned. *)
Definition handle_timer_neigh_event (O : oracle) (neigh : ptr) : M Z :=
  let* _ := send_gratuitous_neighbor_request O neigh in
  let* _ := update_neigh neigh (neigh_set_timer None) in
  ret 0.

(** ** Properties of runs *)

(** [m] leaves the component [f] of the state as it is, in every defined
    run. *)
Definition keeps {A X} (f : state -> X) (m : M A) : Prop :=
  forall st a st', m st = Some (a, st') -> f st' = f st.

(** No Link has an FDB entry on its [fdb_list]. *)
Definition links_fdb_empty (st : state) : Prop :=
  forall p l, h_link (mem st) !! p = Some l -> lc_fdb_list l = [].

(** The part of the state that belongs to the FDB cache, and the parts that
    LINK and NEIGH events have no business with. *)
Definition fdb_part (st : state) :=
  (db_fdb_cache (db st), h_fdb (mem st)).
Definition network_indices (st : state) :=
  (db_network_cache (db st), db_lookup_addr (db st), target_networks (io st)).

(** The engine is fully initialised. *)
Definition engine_ready (E : env) : bool :=
  has_links E && has_networks E && has_fdb E.

Definition is_addr_cmd (cmd : netlink_cmd) : bool :=
  match cmd with
  | CMD_ADDR_ADD _ | CMD_ADDR_DEL _ => true
  | _ => false
  end.

(** A LINK ADD that moves [br0] to VLAN 20 under another parent and renames
    it. *)
Definition link_br0_moved : netlink_link_cmd :=
  {| lcmd_ifindex := 2; lcmd_mac := mac_br0; lcmd_ifname := "vlan20";
     lcmd_kind := "vlan"; lcmd_slave_kind := ""; lcmd_vlan_id := 20;
     lcmd_vlan_protocol := 0x8100; lcmd_has_vlan := true; lcmd_is_macvlan := false;
     lcmd_link_ifindex := 7 |}.

(** The part of the state that only NEIGH events and replies should write:
    the neigh table, the armed timers and the probes sent. *)
Definition neigh_part (st : state) :=
  (db_neigh_cache (db st), timers (io st), packets (io st)).

(** The same events as [events_addr], delivered before the FDB enumeration
    has finished, and a NEIGH ADD and NEIGH DEL after them. *)
Definition E_no_fdb : env :=
  {| only_ipv4 := false; only_ipv6 := false; has_links := true;
     has_networks := true; has_fdb := false; disable_ipv6ll_filter := false;
     ifidx_mon := 2; has_deny_filter := false; deny_filter := fun _ => false |}.

Definition events_early : list (env * netlink_cmd) :=
  [(E_no_fdb, CMD_LINK_ADD link_br0); (E_no_fdb, CMD_ADDR_ADD addr_10_0_0_1);
   (E_no_fdb, CMD_NEIGH_ADD neigh_host); (E_no_fdb, CMD_NEIGH_DEL neigh_host)].

(** The host, seen STALE. *)
Definition neigh_host_stale : netlink_neigh_cmd :=
  {| ncmd_ifindex := 2; ncmd_vlan_id := 0; ncmd_mac := mac_host;
     ncmd_ip := ip_10_0_0_5; ncmd_nud_state := NUD_STALE;
     ncmd_is_externally_learned := false |}.

(** The host again, REACHABLE, at another MAC. *)
Definition neigh_host_moved : netlink_neigh_cmd :=
  {| ncmd_ifindex := 2; ncmd_vlan_id := 0; ncmd_mac := mac_other;
     ncmd_ip := ip_10_0_0_5; ncmd_nud_state := NUD_REACHABLE;
     ncmd_is_externally_learned := false |}.

(** * Proofs *)

(** ** Running the model on a symbolic state *)

Ltac destruct_state st :=
  destruct st as [[nptr hl hn hln hf hng] [da dv dai dl dn df dng]
                  [tk nid ngid cnt tn tm tx pk]].

Declare Reduction model_red :=
  cbv beta iota delta
    [bind ret undefined gets modify
     mem db io with_mem with_db with_io
     next_ptr h_link h_network h_link_network h_fdb h_neigh
     set_next_ptr set_h_link set_h_network set_h_link_network set_h_fdb set_h_neigh
     db_lookup_addr db_lookup_vlan_networkid db_lookup_addr_ifindex db_link_cache
     db_network_cache db_fdb_cache db_neigh_cache
     set_db_lookup_addr set_db_lookup_vlan_networkid set_db_lookup_addr_ifindex
     set_db_link_cache set_db_network_cache set_db_fdb_cache set_db_neigh_cache
     tick network_id neigh_id count target_networks timers netlink_tx packets
     set_tick set_network_id set_neigh_id set_count set_target_networks set_timers
     set_netlink_tx set_packets
     g_new0 load_link load_network load_link_network load_fdb load_neigh
     init_link init_network init_link_network init_fdb init_neigh
     update_link update_network update_fdb update_neigh
     free_link free_network free_link_network free_fdb free_neigh
     next_tick clock_gettime bpf_map_update_elem bpf_map_delete_elem
     cache_add_link cache_update_link cache_add_link_network cache_del_link_network
     cache_get_link db_fdb_cache_remove cache_del_link cache_new_link_network
     cache_get_link_network_by_reply cache_get_link_network_by_addr
     cache_get_link_network cache_add_network_err1 cache_add_network_err2
     cache_add_network_err3 cache_add_network_insert
     cache_add_network
     cache_get_network_by_id cache_get_network cache_del_network_links
     cache_del_network cache_get_fdb cache_get_fdb_by_reply db_fdb_cache_insert
     cache_add_fdb cache_del_fdb cache_add_neigh cache_get_neigh
     cache_get_neigh_by_reply cache_neigh_update cache_del_neigh
     timer_add_neigh timer_remove_event netlink_send_neigh send_probe
     send_neighbor_solicitation send_arp_request send_gratuitous_neighbor_request
     get_next_gratuitous_time new_neigh_timer filter_deny_interfaces
     handle_neighbor_reply handle_neigh_add handle_neigh_del handle_fdb_add
     handle_fdb_del handle_addr_add handle_addr_del handle_link_add handle_link_del
     handle_netlink_cmd
     ncmd_ifindex ncmd_vlan_id ncmd_mac ncmd_ip ncmd_nud_state
     ncmd_is_externally_learned
     nr_in_family nr_vlan_id nr_network_id nr_mac nr_ip
     acmd_ifindex acmd_ip acmd_network acmd_prefixlen acmd_true_prefixlen].

Ltac mrun :=
  match goal with
  | |- ?G => let G' := eval model_red in G in change G'
  end.

Ltac mrun_in H :=
  let T := type of H in
  let T' := eval model_red in T in
  change T' in H.

Declare Reduction field_red :=
  cbn [negb andb orb
       lc_ifindex lc_mac lc_ifname lc_kind lc_slave_kind lc_vlan_id
       lc_vlan_protocol lc_has_vlan lc_is_macvlan lc_is_svi lc_ignore_link
       lc_link_ifindex lc_times lc_reference_count lc_network_list lc_fdb_list
       link_set_times link_set_reference_count link_set_network_list
       link_set_is_svi link_set_ignore_link
       nc_id nc_network nc_prefixlen nc_true_prefixlen nc_links nc_refcnt
       nc_times nc_reference_count
       network_set_links network_set_refcnt network_set_times
       network_set_reference_count
       lnc_ip lnc_network lnc_link
       fc_mac fc_link fc_vlan_id fc_times fc_reference_count fdb_touch
       ngc_ifindex ngc_mac ngc_ip ngc_nud_state ngc_sending_link_network
       ngc_timer ngc_id ngc_update_count ngc_reference_count ngc_times
       neigh_set_times neigh_set_reference_count neigh_set_mac
       neigh_set_nud_state neigh_set_update_count neigh_set_timer neigh_set_id].

Ltac fields :=
  match goal with
  | |- ?G => let G' := eval field_red in G in change G'
  end.

Ltac fields_in H :=
  let T := type of H in
  let T' := eval field_red in T in
  change T' in H.

(** The projections in the hypotheses, reduced as [mrun] reduces them in the
    goal. *)
Ltac hyps_red :=
  repeat match goal with
         | H : _ |- _ => progress (mrun_in H; fields_in H)
         end.

(** Rewriting with the lookups and oracle answers the context knows. *)
Ltac mgo :=
  repeat (progress
    (cbv beta iota;
     repeat match goal with
            | H : ?x = Some _ |- context [?x] => rewrite H
            | H : ?x = None |- context [?x] => rewrite H
            | H : ?x = true |- context [?x] => rewrite H
            | H : ?x = false |- context [?x] => rewrite H
            end;
     rewrite ?lookup_insert_eq;
     fields)).


(** ** FDB ADD *)

(** C1, as stated, fails in both directions.  With the bridge link cached and
    the engine ready, an FDB ADD that the kernel marks externally-learned
    leaves the fdb table without the entry, and the same FDB ADD without the
    mark puts the entry in the table. *)
Lemma handle_fdb_add_externally_learned_counterexample :
  (exists st', handle_fdb_add O_ok E_ready (fdb_host true) st_br0 = Some (0, st')
     /\ db_fdb_cache (db st') !! (mac_host, 2, 0) = None)
  /\ (exists st', handle_fdb_add O_ok E_ready (fdb_host false) st_br0 = Some (0, st')
     /\ db_fdb_cache (db st') !! (mac_host, 2, 0) = Some 2%positive).
Proof.
  split; eexists; (split; [vm_compute; reflexivity | vm_compute; reflexivity]).
Qed.

(** C1 (amended).  On an FDB ADD that passes the guards of [handle_fdb_add]
    (links and networks enumerated, a non-zero ifindex, the Link found), the
    entry is cached if and only if the kernel does not mark it
    externally-learned and the two clock reads of [cache_add_fdb] succeed: a
    marked entry leaves the fdb table and the FDB store as they were; an
    unmarked entry that is not cached yet is inserted into the fdb table
    under (mac, ifindex, vlan_id), as a fresh object that points back at its
    Link, when both reads succeed, and when one of them fails the handler
    returns -1 and the fdb table is as it was. *)
Theorem handle_fdb_add_caches_unless_externally_learned
    O E cmd st lp l t1 :
  has_links E = true -> has_networks E = true ->
  ncmd_ifindex cmd <> 0 ->
  db_link_cache (db st) !! ncmd_ifindex cmd = Some lp ->
  h_link (mem st) !! lp = Some l ->
  o_clock O (tick (io st)) = Some t1 ->
  (ncmd_is_externally_learned cmd = true ->
     exists st', handle_fdb_add O E cmd st = Some (0, st')
       /\ db_fdb_cache (db st') = db_fdb_cache (db st)
       /\ h_fdb (mem st') = h_fdb (mem st))
  /\ (ncmd_is_externally_learned cmd = false ->
      db_fdb_cache (db st) !! (ncmd_mac cmd, ncmd_ifindex cmd, ncmd_vlan_id cmd) = None ->
      match o_clock O (S (tick (io st))), o_clock O (S (S (tick (io st)))) with
      | Some t2, Some t3 =>
          exists st', handle_fdb_add O E cmd st = Some (0, st')
            /\ db_fdb_cache (db st')
               = <[(ncmd_mac cmd, ncmd_ifindex cmd, ncmd_vlan_id cmd) := next_ptr (mem st)]>
                   (db_fdb_cache (db st))
            /\ h_fdb (mem st')
               = <[next_ptr (mem st) :=
                     {| fc_mac := ncmd_mac cmd; fc_link := lp;
                        fc_vlan_id := ncmd_vlan_id cmd;
                        fc_times := {| created := t3; updated := 0; referenced := t3 |};
                        fc_reference_count := 0 |}]> (h_fdb (mem st))
      | _, _ =>
          exists st', handle_fdb_add O E cmd st = Some (-1, st')
            /\ db_fdb_cache (db st') = db_fdb_cache (db st)
            /\ forall p, p <> next_ptr (mem st) ->
                         h_fdb (mem st') !! p = h_fdb (mem st) !! p
      end).
Proof.
  intros HL HN Hi Hl Hp H1.
  destruct_state st. destruct cmd as [ifi vl mc ip nud ext]. simpl in *.
  split.
  - intros ->. mrun. mgo.
    destruct (Z.eqb_spec ifi 0) as [?|_]; [done|]. mgo.
    eexists. split; [reflexivity|]. split; reflexivity.
  - intros -> Hf.
    destruct (o_clock O (S tk)) as [t2|] eqn:H2;
      [destruct (o_clock O (S (S tk))) as [t3|] eqn:H3|].
    + mrun. mgo.
      destruct (Z.eqb_spec ifi 0) as [?|_]; [done|]. mgo.
      eexists. split; [reflexivity|]. split; [reflexivity|].
      cbn [set_times_referenced set_times_created times0 created updated referenced].
      by rewrite insert_insert_eq.
    + mrun. mgo.
      destruct (Z.eqb_spec ifi 0) as [?|_]; [done|]. mgo.
      eexists. split; [reflexivity|]. split; [reflexivity|].
      cbn [mem h_fdb next_ptr]. intros p Hne.
      rewrite lookup_delete_ne, lookup_insert_ne by congruence. reflexivity.
    + mrun. mgo.
      destruct (Z.eqb_spec ifi 0) as [?|_]; [done|]. mgo.
      eexists. split; [reflexivity|]. split; reflexivity.
Qed.

(** An unmarked FDB ADD for the host, once with a working clock and once with
    a clock that fails at its third read. *)
Lemma handle_fdb_add_caches_unless_externally_learned_witness :
  (exists st', handle_fdb_add O_ok E_ready (fdb_host true) st_br0 = Some (0, st')
     /\ db_fdb_cache (db st') = db_fdb_cache (db st_br0)
     /\ h_fdb (mem st') = h_fdb (mem st_br0))
  /\ (exists st', handle_fdb_add O_ok E_ready (fdb_host false) st_br0 = Some (0, st')
     /\ db_fdb_cache (db st')
        = <[(mac_host, 2, 0) := next_ptr (mem st_br0)]> (db_fdb_cache (db st_br0))
     /\ h_fdb (mem st')
        = <[next_ptr (mem st_br0) :=
              {| fc_mac := mac_host; fc_link := 1%positive; fc_vlan_id := 0;
                 fc_times := {| created := 100; updated := 0; referenced := 100 |};
                 fc_reference_count := 0 |}]> (h_fdb (mem st_br0)))
  /\ (exists st', handle_fdb_add (O_clock_stops 3) E_ready (fdb_host false) st_br0
                  = Some (-1, st')
     /\ db_fdb_cache (db st') = db_fdb_cache (db st_br0)).
Proof.
  assert (Hl : exists l, h_link (mem st_br0) !! 1%positive = Some l)
    by (eexists; vm_compute; reflexivity).
  destruct Hl as [l Hl].
  assert (Hd : db_link_cache (db st_br0) !! ncmd_ifindex (fdb_host false)
               = Some 1%positive) by (vm_compute; reflexivity).
  assert (Hk : db_fdb_cache (db st_br0)
               !! (ncmd_mac (fdb_host false), ncmd_ifindex (fdb_host false),
                   ncmd_vlan_id (fdb_host false)) = None) by (vm_compute; reflexivity).
  assert (Hi : ncmd_ifindex (fdb_host false) <> 0) by discriminate.
  assert (H1 : o_clock (O_clock_stops 3) (tick (io st_br0)) = Some 100)
    by (vm_compute; reflexivity).
  assert (H2 : o_clock (O_clock_stops 3) (S (tick (io st_br0))) = Some 100)
    by (vm_compute; reflexivity).
  assert (H3 : o_clock (O_clock_stops 3) (S (S (tick (io st_br0)))) = None)
    by (vm_compute; reflexivity).
  split; [|split].
  - exact (proj1 (handle_fdb_add_caches_unless_externally_learned
                    O_ok E_ready (fdb_host true) st_br0 1%positive l 100
                    eq_refl eq_refl Hi Hd Hl eq_refl) eq_refl).
  - exact (proj2 (handle_fdb_add_caches_unless_externally_learned
                    O_ok E_ready (fdb_host false) st_br0 1%positive l 100
                    eq_refl eq_refl Hi Hd Hl eq_refl) eq_refl Hk).
  - pose proof (proj2 (handle_fdb_add_caches_unless_externally_learned
                         (O_clock_stops 3) E_ready (fdb_host false) st_br0 1%positive l
                         100 eq_refl eq_refl Hi Hd Hl H1) eq_refl Hk) as H.
    rewrite H2, H3 in H. destruct H as (st' & H & Hdb & _).
    exists st'. split; assumption.
Defined.

(** ** Lookups and the clock *)

(** C9, on the code: when the clock fails during a lookup, only
    [cache_get_link] answers "not found".  The lookups of a Network by id, of
    an FDB entry and of a Neighbor return the entity they found, untouched. *)
Theorem lookups_on_clock_failure O st :
  o_clock O (tick (io st)) = None ->
  (forall ifindex p l,
     db_link_cache (db st) !! ifindex = Some p ->
     h_link (mem st) !! p = Some l ->
     cache_get_link O ifindex st
     = Some (None, with_io (fun w => set_tick (S (tick w)) w) st))
  /\ (forall id p n,
     db_network_cache (db st) !! id = Some p ->
     h_network (mem st) !! p = Some n ->
     cache_get_network_by_id O id st
     = Some (Some p, with_io (fun w => set_tick (S (tick w)) w) st))
  /\ (forall cmd p f,
     db_fdb_cache (db st) !! (ncmd_mac cmd, ncmd_ifindex cmd, ncmd_vlan_id cmd) = Some p ->
     h_fdb (mem st) !! p = Some f ->
     cache_get_fdb O cmd st
     = Some (Some p, with_io (fun w => set_tick (S (tick w)) w) st))
  /\ (forall cmd p n,
     db_neigh_cache (db st) !! (ncmd_ifindex cmd, ncmd_ip cmd) = Some p ->
     h_neigh (mem st) !! p = Some n ->
     cache_get_neigh O cmd st
     = Some (Some p, with_io (fun w => set_tick (S (tick w)) w) st)).
Proof.
  intros Hc. destruct_state st. simpl in *.
  repeat split.
  - intros i p l Hd Hp. mrun. mgo. reflexivity.
  - intros i p n Hd Hp. mrun. mgo. reflexivity.
  - intros [ifi vl mc ip nud ext] p f Hd Hp. simpl in *. mrun. mgo. reflexivity.
  - intros [ifi vl mc ip nud ext] p n Hd Hp. simpl in *. mrun. mgo. reflexivity.
Qed.

Lemma lookups_on_clock_failure_witness :
  cache_get_link (O_clock_stops 0) 2 st_full
  = Some (None, with_io (fun w => set_tick (S (tick w)) w) st_full)
  /\ cache_get_network_by_id (O_clock_stops 0) 1 st_full
     = Some (Some 2%positive, with_io (fun w => set_tick (S (tick w)) w) st_full)
  /\ cache_get_fdb (O_clock_stops 0) (fdb_host false) st_full
     = Some (Some 4%positive, with_io (fun w => set_tick (S (tick w)) w) st_full)
  /\ cache_get_neigh (O_clock_stops 0) neigh_host st_full
     = Some (Some 5%positive, with_io (fun w => set_tick (S (tick w)) w) st_full).
Proof.
  assert (Hc : o_clock (O_clock_stops 0) (tick (io st_full)) = None) by reflexivity.
  destruct (lookups_on_clock_failure (O_clock_stops 0) st_full Hc)
    as (Hlink & Hnet & Hfdb & Hneigh).
  assert (Hl : exists l, h_link (mem st_full) !! 1%positive = Some l)
    by (eexists; vm_compute; reflexivity).
  assert (Hn : exists n, h_network (mem st_full) !! 2%positive = Some n)
    by (eexists; vm_compute; reflexivity).
  assert (Hf : exists f, h_fdb (mem st_full) !! 4%positive = Some f)
    by (eexists; vm_compute; reflexivity).
  assert (Hg : exists n, h_neigh (mem st_full) !! 5%positive = Some n)
    by (eexists; vm_compute; reflexivity).
  destruct Hl as [l Hl], Hn as [n Hn], Hf as [f Hf], Hg as [g Hg].
  split; [|split; [|split]].
  - apply (Hlink 2 1%positive l); [vm_compute; reflexivity | exact Hl].
  - apply (Hnet 1 2%positive n); [vm_compute; reflexivity | exact Hn].
  - apply (Hfdb (fdb_host false) 4%positive f); [vm_compute; reflexivity | exact Hf].
  - apply (Hneigh neigh_host 5%positive g); [vm_compute; reflexivity | exact Hg].
Defined.

(** ** The refresh interval *)

(** *** Rounding to a double *)

Lemma round_half_even_error (y : Q) :
  (y - (1 # 2) <= inject_Z (round_half_even y) <= y + (1 # 2))%Q.
Proof.
  unfold round_half_even.
  pose proof (Qfloor_le y) as Hlo. pose proof (Qlt_floor y) as Hhi.
  rewrite inject_Z_plus in Hhi. change (inject_Z 1) with 1%Q in Hhi.
  set (f := Qfloor y) in *.
  destruct (y - inject_Z f ?= 1 # 2)%Q eqn:Hc.
  - apply Qeq_alt in Hc.
    destruct (Z.even f); rewrite ?inject_Z_plus; change (inject_Z 1) with 1%Q; lra.
  - apply Qlt_alt in Hc. lra.
  - apply Qgt_alt in Hc. rewrite inject_Z_plus. change (inject_Z 1) with 1%Q. lra.
Qed.

Lemma pow2_pos (k : Z) : (0 < 2 ^ k)%Q.
Proof. apply Qpower_0_lt. reflexivity. Qed.

Lemma pow2_inject (k : Z) : 0 <= k -> (inject_Z (2 ^ k) == 2 ^ k)%Q.
Proof. intros Hk. apply (Zpower_Qpower 2 k Hk). Qed.

Local Open Scope Q_scope.

Lemma binade_spec (x : Q) :
  0 < x -> 2 ^ binade x <= x /\ x < 2 ^ (binade x + 1).
Proof.
  intros Hx. destruct x as [n d]. unfold binade. cbn [Qnum Qden].
  assert (Hn : (0 < n)%Z) by (unfold Qlt in Hx; simpl in Hx; lia).
  set (ln := Z.log2 n). set (ld := Z.log2 (Z.pos d)).
  assert (Hln : (0 <= ln)%Z) by apply Z.log2_nonneg.
  assert (Hld : (0 <= ld)%Z) by apply Z.log2_nonneg.
  destruct (Z.log2_spec n Hn) as [Hn1 Hn2]. fold ln in Hn1, Hn2.
  destruct (Z.log2_spec (Z.pos d) eq_refl) as [Hd1 Hd2]. fold ld in Hd1, Hd2.
  assert (Qn1 : 2 ^ ln <= inject_Z n)
    by (rewrite <- pow2_inject by exact Hln; rewrite <- Zle_Qle; exact Hn1).
  assert (Qn2 : inject_Z n < 2 ^ (ln + 1))
    by (rewrite <- pow2_inject by lia; rewrite <- Zlt_Qlt; exact Hn2).
  assert (Qd1 : 2 ^ ld <= inject_Z (Z.pos d))
    by (rewrite <- pow2_inject by exact Hld; rewrite <- Zle_Qle; exact Hd1).
  assert (Qd2 : inject_Z (Z.pos d) < 2 ^ (ld + 1))
    by (rewrite <- pow2_inject by lia; rewrite <- Zlt_Qlt; exact Hd2).
  assert (Hxq : n # d == inject_Z n / inject_Z (Z.pos d)) by apply Qmake_Qdiv.
  assert (HD : 0 < inject_Z (Z.pos d)) by reflexivity.
  pose proof (pow2_pos ln) as P1. pose proof (pow2_pos ld) as P2.
  pose proof (pow2_pos (ln + 1)) as P3. pose proof (pow2_pos (ld + 1)) as P4.
  assert (E1 : 2 ^ (ln + 1) == 2 * 2 ^ ln).
  { rewrite Qpower_plus by discriminate. change (2 ^ 1) with 2. ring. }
  assert (E2 : 2 ^ (ld + 1) == 2 * 2 ^ ld).
  { rewrite Qpower_plus by discriminate. change (2 ^ 1) with 2. ring. }
  destruct (Qle_bool (2 ^ (ln - ld)) (n # d)) eqn:Hb.
  - apply Qle_bool_iff in Hb. split; [exact Hb|].
    replace (ln - ld + 1)%Z with (ln + 1 - ld)%Z by ring.
    rewrite Qpower_minus by discriminate. rewrite Hxq.
    apply Qlt_shift_div_l; [exact P2|].
    setoid_replace (inject_Z n / inject_Z (Z.pos d) * 2 ^ ld)
      with (inject_Z n * (2 ^ ld / inject_Z (Z.pos d)))
      using relation Qeq by (field; lra).
    assert (Hq : 2 ^ ld / inject_Z (Z.pos d) <= 1)
      by (apply Qle_shift_div_r; [exact HD | lra]).
    assert (Hq0 : 0 < 2 ^ ld / inject_Z (Z.pos d))
      by (apply Qlt_shift_div_l; [exact HD | lra]).
    assert (Hn0 : 0 < inject_Z n) by lra.
    nra.
  - assert (Hlt : n # d < 2 ^ (ln - ld)).
    { apply Qnot_le_lt. intros Hle. apply Qle_bool_iff in Hle. congruence. }
    split.
    + replace (ln - ld - 1)%Z with (ln - (ld + 1))%Z by ring.
      rewrite Qpower_minus by discriminate. rewrite Hxq.
      apply Qle_shift_div_r; [exact P4|].
      setoid_replace (inject_Z n / inject_Z (Z.pos d) * 2 ^ (ld + 1))
        with (inject_Z n * (2 ^ (ld + 1) / inject_Z (Z.pos d)))
        using relation Qeq by (field; lra).
      assert (Hq : 1 <= 2 ^ (ld + 1) / inject_Z (Z.pos d))
        by (apply Qle_shift_div_l; [exact HD | lra]).
      assert (Hn0 : 0 < inject_Z n) by lra.
      nra.
    + replace (ln - ld - 1 + 1)%Z with (ln - ld)%Z by ring. exact Hlt.
Qed.

Lemma binade_ge (x : Q) (k : Z) : 2 ^ k <= x -> (k <= binade x)%Z.
Proof.
  intros Hk. assert (Hx : 0 < x) by (pose proof (pow2_pos k); lra).
  destruct (binade_spec x Hx) as [_ Hhi].
  assert (H : 2 ^ k < 2 ^ (binade x + 1)) by lra.
  apply Qpower_lt_compat_l_inv in H; [lia | reflexivity].
Qed.

Lemma round_double_zero (x : Q) : x == 0 -> round_double x = 0.
Proof.
  intros Hx. unfold round_double. apply Qeq_bool_iff in Hx. rewrite Hx. reflexivity.
Qed.

(** A value that is zero or in the normal range is rounded with a relative
    error of at most 2^-53. *)
Lemma round_double_bounds (x : Q) :
  x == 0 \/ double_min <= x ->
  (1 - (1 # 9007199254740992)) * x <= round_double x
  /\ round_double x <= (1 + (1 # 9007199254740992)) * x.
Proof.
  intros [Hx|Hx].
  - rewrite (round_double_zero x Hx). lra.
  - unfold double_min in Hx.
    assert (Hpos : 0 < x) by (pose proof (pow2_pos (-1022)); lra).
    unfold round_double.
    destruct (Qeq_bool x 0) eqn:Hz; [apply Qeq_bool_iff in Hz; lra|].
    unfold ulp_double.
    assert (Habs : Qabs x == x) by (apply Qabs_pos; lra).
    assert (Hpa : 0 < Qabs x) by lra.
    destruct (binade_spec (Qabs x) Hpa) as [Hlo _].
    assert (Hge : (-1022 <= binade (Qabs x))%Z) by (apply binade_ge; lra).
    rewrite Z.max_l by lia.
    set (e := binade (Qabs x)) in *.
    assert (Hu : 2 ^ (e - 52) == 2 ^ e * (1 # 4503599627370496)).
    { rewrite Qpower_minus by discriminate. unfold Qdiv. reflexivity. }
    pose proof (pow2_pos (e - 52)) as Hup.
    set (u := 2 ^ (e - 52)) in *.
    pose proof (round_half_even_error (x / u)) as [Hr1 Hr2].
    set (r := inject_Z (round_half_even (x / u))) in *.
    assert (Hy : u * (x / u) == x) by (field; lra).
    set (y := x / u) in *.
    assert (Hul : u <= x * (1 # 4503599627370496)) by (rewrite Hu; nra).
    split; nra.
Qed.

Lemma double_min_small : double_min <= 1 # 16000.
Proof. apply Qle_bool_iff. vm_compute. reflexivity. Qed.

(** *** The interval *)

(** The interval in double arithmetic, for a base reachable time that is a
    whole number of milliseconds below 2^31: at most 2 seconds above
    [b/4000], and below it by at most the rounding of the two divisions and
    of the sum. *)
Lemma gratuitous_seconds_bound (b : Z) (r : N) :
  (0 <= b < 2 ^ 31)%Z ->
  inject_Z b / 4000 * (1 - (1 # 2251799813685248)) <= gratuitous_seconds (inject_Z b) r
  /\ gratuitous_seconds (inject_Z b) r <= inject_Z b / 4000 + 2.
Proof.
  intros [Hb0 Hb1]. unfold gratuitous_seconds.
  assert (Hr : (0 <= Z.of_N (r mod 2000) <= 1999)%Z).
  { assert (H : (r mod 2000 < 2000)%N) by (apply N.mod_upper_bound; discriminate).
    apply N2Z.inj_lt in H. change (Z.of_N 2000) with 2000%Z in H.
    pose proof (N2Z.is_nonneg (r mod 2000)) as H'.
    generalize dependent (Z.of_N (r mod 2000)). intros; lia. }
  set (k := Z.of_N (r mod 2000)) in *.
  assert (HB : 0 <= inject_Z b /\ inject_Z b <= 2147483648
               /\ (inject_Z b == 0 \/ 1 <= inject_Z b)).
  { split; [|split].
    - change 0 with (inject_Z 0). rewrite <- Zle_Qle. lia.
    - change 2147483648 with (inject_Z 2147483648). rewrite <- Zle_Qle. lia.
    - destruct (Z.eq_dec b 0) as [->|Hne]; [left; reflexivity|right].
      change 1 with (inject_Z 1). rewrite <- Zle_Qle. lia. }
  assert (HK : 0 <= inject_Z k /\ inject_Z k <= 1999
               /\ (inject_Z k == 0 \/ 1 <= inject_Z k)).
  { split; [|split].
    - change 0 with (inject_Z 0). rewrite <- Zle_Qle. lia.
    - change 1999 with (inject_Z 1999). rewrite <- Zle_Qle. lia.
    - destruct (Z.eq_dec k 0) as [->|Hne]; [left; reflexivity|right].
      change 1 with (inject_Z 1). rewrite <- Zle_Qle. lia. }
  generalize dependent (inject_Z b). generalize dependent (inject_Z k).
  clear. intros K HK B HB. pose proof double_min_small as HT.
  destruct HB as (HB0 & HB1 & HB2). destruct HK as (HK0 & HK1 & HK2).
  (* base_reachable_time / 4.0 *)
  assert (E1 : B / 4 == B * (1 # 4)) by field.
  set (x1 := B / 4) in *.
  assert (R1 := round_double_bounds x1 ltac:(destruct HB2; [left|right]; lra)).
  set (d1 := round_double x1) in *.
  (* ... / 1000.0 *)
  assert (E2 : d1 / 1000 == d1 * (1 # 1000)) by field.
  set (x2 := d1 / 1000) in *.
  assert (R2 := round_double_bounds x2 ltac:(destruct HB2; [left|right]; lra)).
  set (d2 := round_double x2) in *.
  (* (rand() % 2000) / 1000.0 *)
  assert (E3 : K / 1000 == K * (1 # 1000)) by field.
  set (x3 := K / 1000) in *.
  assert (R3 := round_double_bounds x3 ltac:(destruct HK2; [left|right]; lra)).
  set (j := round_double x3) in *.
  (* the sum *)
  assert (R4 := round_double_bounds (d2 + j)
                  ltac:(destruct HB2, HK2; [left|right|right|right]; lra)).
  set (s := round_double (d2 + j)) in *.
  assert (E0 : B / 4000 == B * (1 # 4000)) by field.
  rewrite E0. split; lra.
Qed.

Local Open Scope Z_scope.

(** [round_double] against the binary64 operations of the Standard Library,
    on the interval for some base reachable times and remainders. *)
Lemma gratuitous_seconds_is_binary64 :
  forallb (fun b => forallb (fun r =>
             Qeq_bool (SF2Q (gratuitous_seconds_binary64 b r))
                      (gratuitous_seconds (inject_Z b) (Z.to_N r)))
             [0; 1; 333; 1234; 1999])
          [0; 1; 7; 9; 300; 600; 1200; 2400; 29999; 30000; 123457; 2147483647]
  = true.
Proof. vm_compute. reflexivity. Qed.

(** C8, as stated, fails at its lower bound.  For a base reachable time of
    9 ms and a remainder of 0, the interval the code computes is
    5188146770730811 / 2^61 seconds, which is less than 9/4000: both
    divisions round down. *)
Lemma get_next_gratuitous_time_bound_counterexample :
  exists s st',
    get_next_gratuitous_time O_nine 4%positive st_neigh = Some (Some s, st')
    /\ (s == 5188146770730811 # 2305843009213693952)%Q
    /\ (s < 9 / 4000)%Q.
Proof.
  eexists _, _. split; [vm_compute; reflexivity|].
  split; [apply Qeq_bool_iff | apply Qlt_alt]; vm_compute; reflexivity.
Qed.

(** C8 (amended).  For a neighbor whose sending interface reads a whole
    number [b] of milliseconds below 2^31 from [base_reachable_time_ms],
    [get_next_gratuitous_time] succeeds with an interval of at most
    [b/4000 + 2] seconds and of at least [b/4000] less a relative 2^-51 (the
    rounding of the double arithmetic), and when the timer wheel accepts it
    [new_neigh_timer] arms the neighbor's timer with such an interval. *)
Theorem get_next_gratuitous_time_bound O neigh st n ln link b :
  h_neigh (mem st) !! neigh = Some n ->
  h_link_network (mem st) !! ngc_sending_link_network n = Some ln ->
  h_link (mem st) !! lnc_link ln = Some link ->
  o_base_reachable_time_ms O (tick (io st))
    (IN6_IS_ADDR_V4MAPPED (ngc_ip n)) (lc_ifname link) = Some (inject_Z b) ->
  0 <= b < 2 ^ 31 ->
  (exists s st',
     get_next_gratuitous_time O neigh st = Some (Some s, st')
     /\ (inject_Z b / 4000 * (1 - (1 # 2251799813685248)) <= s)%Q
     /\ (s <= inject_Z b / 4000 + 2)%Q)
  /\ (o_timer_add O (S (S (tick (io st)))) = true ->
      exists s st',
        new_neigh_timer O neigh st = Some (true, st')
        /\ timers (io st') !! next_ptr (mem st) = Some (neigh, s)
        /\ ngc_timer <$> h_neigh (mem st') !! neigh = Some (Some (next_ptr (mem st)))
        /\ (inject_Z b / 4000 * (1 - (1 # 2251799813685248)) <= s)%Q
        /\ (s <= inject_Z b / 4000 + 2)%Q).
Proof.
  intros Hn Hln Hl HB Hb. destruct_state st. hyps_red.
  split.
  - mrun. mgo. eexists _, _. split; [reflexivity|].
    apply gratuitous_seconds_bound, Hb.
  - intros Ht. hyps_red. mrun. mgo. eexists _, _. split; [reflexivity|].
    cbn [timers io mem h_neigh]. rewrite !lookup_insert_eq.
    split; [reflexivity|]. split; [reflexivity|].
    apply gratuitous_seconds_bound, Hb.
Qed.

(** The neighbor of the seed scenario, whose interface reads 30000 ms: the
    interval is at most 9.5 seconds and at least 7.5 less the rounding. *)
Lemma get_next_gratuitous_time_bound_witness :
  exists s st',
    get_next_gratuitous_time O_ok 5%positive st_full = Some (Some s, st')
    /\ (inject_Z 30000 / 4000 * (1 - (1 # 2251799813685248)) <= s)%Q
    /\ (s <= inject_Z 30000 / 4000 + 2)%Q.
Proof.
  assert (Hn : exists n, h_neigh (mem st_full) !! 5%positive = Some n
                         /\ ngc_sending_link_network n = 3%positive)
    by (eexists; split; [vm_compute; reflexivity | vm_compute; reflexivity]).
  destruct Hn as (n & Hn & Hs).
  assert (Hln : exists ln, h_link_network (mem st_full) !! 3%positive = Some ln
                           /\ lnc_link ln = 1%positive)
    by (eexists; split; [vm_compute; reflexivity | vm_compute; reflexivity]).
  destruct Hln as (ln & Hln & Hk).
  assert (Hl : exists l, h_link (mem st_full) !! 1%positive = Some l)
    by (eexists; vm_compute; reflexivity).
  destruct Hl as (l & Hl).
  rewrite <- Hs in Hln. rewrite <- Hk in Hl.
  assert (Hb : 0 <= 30000 < 2 ^ 31) by lia.
  exact (proj1 (get_next_gratuitous_time_bound O_ok 5%positive st_full n ln l
                  30000 Hn Hln Hl eq_refl Hb)).
Defined.

(** ** The reply correlator *)

(** C2, as stated, fails on its second half: a suppressed reply does change
    the cache.  In the seed scenario with the host's MAC in the fdb table, the
    reply is dropped without an enqueue, and the lookup that found the FDB
    entry raises that entry's reference count from 0 to 1. *)
Lemma handle_neighbor_reply_fdb_hit_counterexample :
  exists st',
    db_fdb_cache (db st_full) !! (nr_mac reply_host, 2, nr_vlan_id reply_host)
    = Some 4%positive
    /\ handle_neighbor_reply O_ok E_ready reply_host st_full = Some (0, st')
    /\ netlink_tx (io st') = []
    /\ fc_reference_count <$> h_fdb (mem st_full) !! 4%positive = Some 0
    /\ fc_reference_count <$> h_fdb (mem st') !! 4%positive = Some 1.
Proof.
  eexists. split; [vm_compute; reflexivity|].
  split; [vm_compute; reflexivity|].
  split; [vm_compute; reflexivity|].
  split; vm_compute; reflexivity.
Qed.

(** C2 (amended).  A reply that passes the family filters and whose
    (mac, link.ifindex, vlan_id) is in the fdb table is dropped with return
    code 0: nothing is enqueued on the netlink queue, no timer is armed or
    cancelled, no probe is sent, no table and no Link, Network, LinkNetwork or
    Neighbor changes.  What changes is the remaining-event counter, the call
    counter of the clock, and the matched FDB entry, whose lookup sets
    [referenced] and increments [reference_count] when the clock answers. *)
Theorem handle_neighbor_reply_fdb_hit O E r st lnp ln l fp f :
  only_ipv6 E && negb (nr_in_family r =? AF_INET6) = false ->
  only_ipv4 E && negb (nr_in_family r =? AF_INET) = false ->
  db_lookup_vlan_networkid (db st) !! (nr_network_id r, nr_vlan_id r) = Some lnp ->
  h_link_network (mem st) !! lnp = Some ln ->
  h_link (mem st) !! lnc_link ln = Some l ->
  db_fdb_cache (db st) !! (nr_mac r, lc_ifindex l, nr_vlan_id r) = Some fp ->
  h_fdb (mem st) !! fp = Some f ->
  exists st',
    handle_neighbor_reply O E r st = Some (0, st')
    /\ netlink_tx (io st') = netlink_tx (io st)
    /\ timers (io st') = timers (io st)
    /\ packets (io st') = packets (io st)
    /\ target_networks (io st') = target_networks (io st)
    /\ count (io st') = count (io st) - 1
    /\ db st' = db st
    /\ next_ptr (mem st') = next_ptr (mem st)
    /\ h_link (mem st') = h_link (mem st)
    /\ h_network (mem st') = h_network (mem st)
    /\ h_link_network (mem st') = h_link_network (mem st)
    /\ h_neigh (mem st') = h_neigh (mem st)
    /\ h_fdb (mem st')
       = match o_clock O (tick (io st)) with
         | Some t => <[fp := fdb_touch t f]> (h_fdb (mem st))
         | None => h_fdb (mem st)
         end.
Proof.
  intros H6 H4 Hv Hln Hl Hd Hf.
  destruct_state st. destruct r as [fam vl nid' mc ip]. simpl in *.
  mrun. rewrite H6, H4. cbv beta iota.
  destruct (o_clock O tk) as [t|] eqn:Hc; mgo;
    (eexists; split; [reflexivity|]; repeat split; reflexivity).
Qed.

Lemma handle_neighbor_reply_fdb_hit_witness :
  exists st',
    handle_neighbor_reply O_ok E_ready reply_host st_full = Some (0, st')
    /\ netlink_tx (io st') = netlink_tx (io st_full)
    /\ db st' = db st_full.
Proof.
  assert (Hln : exists ln, h_link_network (mem st_full) !! 3%positive = Some ln
                           /\ lnc_link ln = 1%positive)
    by (eexists; split; vm_compute; reflexivity).
  destruct Hln as (ln & Hln & Hk).
  assert (Hl : exists l, h_link (mem st_full) !! 1%positive = Some l
                         /\ lc_ifindex l = 2)
    by (eexists; split; vm_compute; reflexivity).
  destruct Hl as (l & Hl & Hi).
  assert (Hf : exists f, h_fdb (mem st_full) !! 4%positive = Some f)
    by (eexists; vm_compute; reflexivity).
  destruct Hf as (f & Hf).
  rewrite <- Hk in Hl.
  destruct (handle_neighbor_reply_fdb_hit O_ok E_ready reply_host st_full
              3%positive ln l 4%positive f) as (st' & Hrun & Htx & _ & _ & _ & _ & Hdb & _);
    try reflexivity; try assumption.
  - rewrite Hi. vm_compute; reflexivity.
  - exists st'. auto.
Defined.

(** A reply that reaches the neighbor lookup and finds a Neighbor whose timer
    can be re-armed: the old timer entry, if any, is removed, a fresh one is
    stored for the new interval and put in the neighbor's slot, and the
    NEIGH_ADD is enqueued. *)
Lemma handle_neighbor_reply_rearm O E r st lnp ln l np n sln sl B :
  only_ipv6 E && negb (nr_in_family r =? AF_INET6) = false ->
  only_ipv4 E && negb (nr_in_family r =? AF_INET) = false ->
  db_lookup_vlan_networkid (db st) !! (nr_network_id r, nr_vlan_id r) = Some lnp ->
  h_link_network (mem st) !! lnp = Some ln ->
  h_link (mem st) !! lnc_link ln = Some l ->
  db_fdb_cache (db st) !! (nr_mac r, lc_ifindex l, nr_vlan_id r) = None ->
  db_neigh_cache (db st) !! (lc_ifindex l, nr_ip r) = Some np ->
  h_neigh (mem st) !! np = Some n ->
  h_link_network (mem st) !! ngc_sending_link_network n = Some sln ->
  h_link (mem st) !! lnc_link sln = Some sl ->
  o_base_reachable_time_ms O (S (tick (io st)))
    (IN6_IS_ADDR_V4MAPPED (ngc_ip n)) (lc_ifname sl) = Some B ->
  o_timer_add O (S (S (S (tick (io st))))) = true ->
  exists st',
    handle_neighbor_reply O E r st = Some (0, st')
    /\ netlink_tx (io st') = netlink_tx (io st) ++ [(lc_ifindex l, nr_mac r, nr_ip r)]
    /\ timers (io st')
       = <[next_ptr (mem st) :=
             (np, gratuitous_seconds B (o_rand O (S (S (tick (io st))))))]>
           (match ngc_timer n with
            | Some t => delete t (timers (io st))
            | None => timers (io st)
            end)
    /\ ngc_timer <$> h_neigh (mem st') !! np = Some (Some (next_ptr (mem st))).
Proof.
  intros H6 H4 Hv Hln Hl Hd Hg Hn Hsln Hsl HB HT.
  destruct_state st. destruct r as [fam vl nid' mc ip].
  destruct n as [gi gm gip gnud gs [gt|] gid guc grc gtm]; simpl in *;
    mrun; rewrite H6, H4; cbv beta iota;
    destruct (o_clock O tk) as [t|] eqn:Hc; mgo;
    (eexists; split; [reflexivity|];
     cbn [netlink_tx timers io mem h_neigh]; rewrite ?lookup_insert_eq;
     repeat split; reflexivity).
Qed.

(** C7, as stated, fails where it says the enqueue does not depend on the
    re-arming.  With the seed neighbor cached and the sysctl file unreadable,
    a reply for it passes the filters, resolves the binding, misses the fdb
    table, and the handler returns 1 with nothing on the netlink queue. *)
Lemma handle_neighbor_reply_rearm_failure_counterexample :
  exists st st',
    state_after O_sysctl_fails events_neigh = Some st
    /\ db_lookup_vlan_networkid (db st) !! (nr_network_id reply_host, nr_vlan_id reply_host)
       = Some 3%positive
    /\ db_fdb_cache (db st) !! (nr_mac reply_host, 2, nr_vlan_id reply_host) = None
    /\ db_neigh_cache (db st) !! (2, nr_ip reply_host) = Some 4%positive
    /\ handle_neighbor_reply O_sysctl_fails E_ready reply_host st = Some (1, st')
    /\ netlink_tx (io st') = [].
Proof.
  eexists _, _. split; [vm_compute; reflexivity|].
  repeat split; vm_compute; reflexivity.
Qed.

(** C7 (amended).  For a reply that passes the family filters, resolves a
    LinkNetwork through the (network_id, vlan_id) index and has no fdb-table
    hit, the correlator enqueues a NEIGH_ADD for (link.ifindex, mac, ip) when
    no Neighbor is cached for (link.ifindex, ip), and when one is cached and
    its timer is re-armed; when the re-arming fails (the sysctl cannot be
    read, or the timer wheel refuses), it returns 1 and enqueues nothing. *)
Theorem handle_neighbor_reply_enqueue O E r st lnp ln l :
  only_ipv6 E && negb (nr_in_family r =? AF_INET6) = false ->
  only_ipv4 E && negb (nr_in_family r =? AF_INET) = false ->
  db_lookup_vlan_networkid (db st) !! (nr_network_id r, nr_vlan_id r) = Some lnp ->
  h_link_network (mem st) !! lnp = Some ln ->
  h_link (mem st) !! lnc_link ln = Some l ->
  db_fdb_cache (db st) !! (nr_mac r, lc_ifindex l, nr_vlan_id r) = None ->
  (db_neigh_cache (db st) !! (lc_ifindex l, nr_ip r) = None ->
     exists st',
       handle_neighbor_reply O E r st = Some (0, st')
       /\ netlink_tx (io st') = netlink_tx (io st) ++ [(lc_ifindex l, nr_mac r, nr_ip r)])
  /\ (forall np n sln sl,
      db_neigh_cache (db st) !! (lc_ifindex l, nr_ip r) = Some np ->
      h_neigh (mem st) !! np = Some n ->
      h_link_network (mem st) !! ngc_sending_link_network n = Some sln ->
      h_link (mem st) !! lnc_link sln = Some sl ->
      (forall B,
         o_base_reachable_time_ms O (S (tick (io st)))
           (IN6_IS_ADDR_V4MAPPED (ngc_ip n)) (lc_ifname sl) = Some B ->
         o_timer_add O (S (S (S (tick (io st))))) = true ->
         exists st',
           handle_neighbor_reply O E r st = Some (0, st')
           /\ netlink_tx (io st')
              = netlink_tx (io st) ++ [(lc_ifindex l, nr_mac r, nr_ip r)])
      /\ (o_base_reachable_time_ms O (S (tick (io st)))
            (IN6_IS_ADDR_V4MAPPED (ngc_ip n)) (lc_ifname sl) = None
          \/ o_timer_add O (S (S (S (tick (io st))))) = false ->
          exists st',
            handle_neighbor_reply O E r st = Some (1, st')
            /\ netlink_tx (io st') = netlink_tx (io st))).
Proof.
  intros H6 H4 Hv Hln Hl Hd. split; [|intros np n sln sl Hg Hn Hsln Hsl; split].
  - intros Hg. destruct_state st. destruct r as [fam vl nid' mc ip]. simpl in *.
    mrun. rewrite H6, H4. mgo. eexists. split; reflexivity.
  - intros B HB HT.
    destruct (handle_neighbor_reply_rearm O E r st lnp ln l np n sln sl B)
      as (st' & Hrun & Htx & _); try assumption.
    exists st'. auto.
  - intros Hfail. destruct_state st. destruct r as [fam vl nid' mc ip].
    destruct n as [gi gm gip gnud gs [gt|] gid guc grc gtm]; simpl in *;
      mrun; rewrite H6, H4; cbv beta iota;
      destruct (o_clock O tk) as [t|] eqn:Hc; mgo;
      (destruct (o_base_reachable_time_ms O (S tk) (IN6_IS_ADDR_V4MAPPED gip)
                   (lc_ifname sl)) as [B|] eqn:HB;
       [destruct Hfail as [?|HT]; [discriminate|]; mgo | mgo]);
      (eexists; split; reflexivity).
Qed.

Lemma handle_neighbor_reply_enqueue_witness :
  exists st',
    handle_neighbor_reply O_ok E_ready reply_host st_neigh = Some (0, st')
    /\ netlink_tx (io st') = netlink_tx (io st_neigh) ++ [(2, mac_host, ip_10_0_0_5)].
Proof.
  assert (Hln : exists ln, h_link_network (mem st_neigh) !! 3%positive = Some ln
                           /\ lnc_link ln = 1%positive)
    by (eexists; split; vm_compute; reflexivity).
  destruct Hln as (ln & Hln & Hk).
  assert (Hl : exists l, h_link (mem st_neigh) !! 1%positive = Some l
                         /\ lc_ifindex l = 2)
    by (eexists; split; vm_compute; reflexivity).
  destruct Hl as (l & Hl & Hi).
  assert (Hn : exists n, h_neigh (mem st_neigh) !! 4%positive = Some n
                         /\ ngc_sending_link_network n = 3%positive)
    by (eexists; split; vm_compute; reflexivity).
  destruct Hn as (n & Hn & Hs).
  pose proof Hln as Hln'. rewrite <- Hs in Hln'. rewrite <- Hk in Hl.
  assert (Hd : db_fdb_cache (db st_neigh)
               !! (nr_mac reply_host, lc_ifindex l, nr_vlan_id reply_host) = None)
    by (rewrite Hi; vm_compute; reflexivity).
  assert (Hg : db_neigh_cache (db st_neigh) !! (lc_ifindex l, nr_ip reply_host)
               = Some 4%positive)
    by (rewrite Hi; vm_compute; reflexivity).
  assert (Hv : db_lookup_vlan_networkid (db st_neigh)
               !! (nr_network_id reply_host, nr_vlan_id reply_host) = Some 3%positive)
    by (vm_compute; reflexivity).
  destruct (handle_neighbor_reply_enqueue O_ok E_ready reply_host st_neigh
              3%positive ln l eq_refl eq_refl Hv Hln Hl Hd) as [_ Hcached].
  destruct (Hcached 4%positive n ln l Hg Hn Hln' Hl) as [Hok _].
  destruct (Hok (30000 # 1) eq_refl eq_refl) as (st' & Hrun & Htx).
  exists st'. split; [exact Hrun|]. rewrite Htx, Hi. reflexivity.
Defined.

(** ** The neighbor lookup of the correlator *)




(** ** CIDR masking *)

Lemma netmask_testbit (b i : N) :
  (b <= 128)%N ->
  N.testbit (netmask b) i = ((128 - b <=? i)%N && (i <? 128)%N).
Proof.
  intros Hb. unfold netmask.
  destruct (N.leb_spec (128 - b) i) as [Hle|Hlt].
  - rewrite N.shiftl_spec_high' by assumption.
    destruct (N.ltb_spec i 128) as [Hi|Hi].
    + rewrite N.ones_spec_low by lia. reflexivity.
    + rewrite N.ones_spec_high by lia. reflexivity.
  - rewrite N.shiftl_spec_low by assumption. reflexivity.
Qed.

Lemma netmask_land (b b' : N) :
  (b <= b')%N -> (b' <= 128)%N ->
  N.land (netmask b) (netmask b') = netmask b.
Proof.
  intros Hbb Hb'. apply N.bits_inj. intros i.
  rewrite N.land_spec, !netmask_testbit by lia.
  destruct (N.leb_spec (128 - b) i), (N.leb_spec (128 - b') i),
    (N.ltb_spec i 128); simpl; try reflexivity; lia.
Qed.

Lemma v4mapped_masked (ip : N) (b : N) :
  IN6_IS_ADDR_V4MAPPED ip = true -> (96 <= b)%N -> (b <= 128)%N ->
  IN6_IS_ADDR_V4MAPPED (N.land ip (netmask b)) = true.
Proof.
  unfold IN6_IS_ADDR_V4MAPPED. intros Hv Hlo Hhi.
  apply N.eqb_eq in Hv. apply N.eqb_eq.
  rewrite N.shiftr_land, Hv.
  apply N.bits_inj. intros i.
  rewrite N.land_spec, N.shiftr_spec', netmask_testbit by assumption.
  change 0xffff%N with (N.ones 16).
  destruct (N.ltb_spec i 16) as [Hi|Hi].
  - rewrite N.ones_spec_low by assumption.
    destruct (N.leb_spec (128 - b) (i + 32)), (N.ltb_spec (i + 32) 128);
      simpl; try reflexivity; lia.
  - rewrite N.ones_spec_high by assumption. reflexivity.
Qed.

Lemma prefix_bits_le_128 ip p : (prefix_bits ip p <= 128)%N.
Proof. unfold prefix_bits. apply N.le_min_l. Qed.

(** Masking twice with the same prefix is masking once. *)
Lemma calculate_network_using_cidr_idempotent ip p :
  calculate_network_using_cidr (calculate_network_using_cidr ip p) p
  = calculate_network_using_cidr ip p.
Proof.
  unfold calculate_network_using_cidr.
  rewrite <- N.land_assoc. f_equal.
  apply netmask_land; [|apply prefix_bits_le_128].
  destruct (IN6_IS_ADDR_V4MAPPED ip) eqn:Hv.
  - assert (Hb : (96 <= prefix_bits ip p)%N).
    { unfold prefix_bits. rewrite Hv. lia. }
    pose proof (v4mapped_masked ip (prefix_bits ip p) Hv Hb (prefix_bits_le_128 ip p)) as Hm.
    unfold prefix_bits at 2. rewrite Hm.
    unfold prefix_bits. rewrite Hv. reflexivity.
  - unfold prefix_bits at 1. rewrite Hv. unfold prefix_bits.
    generalize (Z.to_N p). intros k.
    destruct (IN6_IS_ADDR_V4MAPPED (N.land _ _)).
    + apply N.min_le_compat_l. lia.
    + apply N.le_refl.
Qed.

(** ** ADDR ADD *)

(** C6, as stated, fails on the path that creates the Network.  The ADDR ADD
    of 10.0.0.1/24 on the bridge, with no Network cached, creates the binding
    3 with the address 10.0.0.1 itself, not with 10.0.0.0, the address masked
    to 24 bits. *)
Lemma handle_addr_add_new_network_counterexample :
  exists st',
    db_lookup_addr (db st_br0) !! acmd_network addr_10_0_0_1 = None
    /\ handle_addr_add O_ok E_ready addr_10_0_0_1 st_br0 = Some (0, st')
    /\ map_to_list (h_link_network (mem st'))
       = [(3%positive,
           {| lnc_ip := ip_10_0_0_1; lnc_network := 2%positive; lnc_link := 1%positive |})]
    /\ calculate_network_using_cidr (acmd_ip addr_10_0_0_1) (acmd_prefixlen addr_10_0_0_1)
       = ip_10_0_0_0
    /\ ip_10_0_0_1 <> ip_10_0_0_0.
Proof.
  eexists. split; [vm_compute; reflexivity|].
  split; [vm_compute; reflexivity|].
  split; [vm_compute; reflexivity|].
  split; [vm_compute; reflexivity | discriminate].
Qed.

(** C6 (amended).  For an ADDR ADD that [handle_addr_add] accepts (links
    enumerated, not a filtered link-local address, the Link found and an
    SVI): when no Network is cached for the event's network address, the
    LinkNetwork created with the new Network stores the event's address as it
    came, unmasked; when a Network is cached and the Link is not bound to it
    yet, the LinkNetwork created stores the Network's address masked to the
    event's prefixlen, which is the event's address masked to its prefixlen
    whenever the Network's address is. *)
Theorem handle_addr_add_link_network_ip O E cmd st lp l t1 :
  has_links E = true ->
  negb (disable_ipv6ll_filter E) && IN6_IS_ADDR_LINKLOCAL (acmd_ip cmd) = false ->
  db_link_cache (db st) !! acmd_ifindex cmd = Some lp ->
  h_link (mem st) !! lp = Some l ->
  lc_is_svi l = true ->
  o_clock O (tick (io st)) = Some t1 ->
  (db_lookup_addr (db st) !! acmd_network cmd = None ->
   forall t2 t4,
   o_clock O (S (tick (io st))) = Some t2 ->
   o_bpf_update O (S (S (tick (io st)))) = true ->
   o_clock O (S (S (S (tick (io st))))) = Some t4 ->
   exists st',
     handle_addr_add O E cmd st = Some (0, st')
     /\ db_lookup_addr (db st') !! acmd_network cmd = Some (next_ptr (mem st))
     /\ db_lookup_addr_ifindex (db st') !! (acmd_network cmd, lc_ifindex l)
        = Some (Pos.succ (next_ptr (mem st)))
     /\ h_link_network (mem st')
        = <[Pos.succ (next_ptr (mem st)) :=
              {| lnc_ip := acmd_ip cmd; lnc_network := next_ptr (mem st);
                 lnc_link := lp |}]> (h_link_network (mem st)))
  /\ (forall netp n,
      db_lookup_addr (db st) !! acmd_network cmd = Some netp ->
      h_network (mem st) !! netp = Some n ->
      db_lookup_addr_ifindex (db st) !! (nc_network n, lc_ifindex l) = None ->
      exists st',
        handle_addr_add O E cmd st = Some (0, st')
        /\ db_lookup_addr_ifindex (db st') !! (nc_network n, lc_ifindex l)
           = Some (next_ptr (mem st))
        /\ h_link_network (mem st')
           = <[next_ptr (mem st) :=
                 {| lnc_ip := calculate_network_using_cidr (nc_network n)
                                (acmd_prefixlen cmd);
                    lnc_network := netp; lnc_link := lp |}]> (h_link_network (mem st))
        /\ (nc_network n
            = calculate_network_using_cidr (acmd_ip cmd) (acmd_prefixlen cmd) ->
            lnc_ip <$> h_link_network (mem st') !! next_ptr (mem st)
            = Some (calculate_network_using_cidr (acmd_ip cmd) (acmd_prefixlen cmd)))).
Proof.
  intros HL Hll Hd Hp Hsvi H1.
  destruct_state st. destruct cmd as [ifi ip net plen tplen]. simpl in *.
  split.
  - intros Ha t2 t4 H2 Hb H4. mrun. rewrite Hll. mgo.
    eexists. split; [reflexivity|].
    cbn [db_lookup_addr db_lookup_addr_ifindex db mem h_link_network].
    rewrite !lookup_insert_eq. repeat split; reflexivity.
  - intros netp n Ha Hn Hai. mrun. rewrite Hll. mgo.
    eexists. split; [reflexivity|].
    cbn [db_lookup_addr db_lookup_addr_ifindex db mem h_link_network].
    rewrite !lookup_insert_eq. split; [reflexivity|]. split; [reflexivity|].
    intros ->. cbn [fmap option_fmap option_map lnc_ip].
    by rewrite calculate_network_using_cidr_idempotent.
Qed.

Lemma handle_addr_add_link_network_ip_witness :
  (exists st',
     handle_addr_add O_ok E_ready addr_10_0_0_1 st_br0 = Some (0, st')
     /\ h_link_network (mem st')
        = <[3%positive :=
              {| lnc_ip := ip_10_0_0_1; lnc_network := 2%positive;
                 lnc_link := 1%positive |}]> (h_link_network (mem st_br0)))
  /\ (exists st',
     handle_addr_add O_ok E_ready addr_10_0_0_2 st_two = Some (0, st')
     /\ lnc_ip <$> h_link_network (mem st') !! 5%positive = Some ip_10_0_0_0).
Proof.
  split.
  - assert (Hl : exists l, h_link (mem st_br0) !! 1%positive = Some l
                           /\ lc_is_svi l = true)
      by (eexists; split; vm_compute; reflexivity).
    destruct Hl as (l & Hl & Hsvi).
    assert (Hd : db_link_cache (db st_br0) !! acmd_ifindex addr_10_0_0_1
                 = Some 1%positive) by (vm_compute; reflexivity).
    assert (Ha : db_lookup_addr (db st_br0) !! acmd_network addr_10_0_0_1 = None)
      by (vm_compute; reflexivity).
    destruct (handle_addr_add_link_network_ip O_ok E_ready addr_10_0_0_1 st_br0
                1%positive l 100 eq_refl eq_refl Hd Hl Hsvi eq_refl) as [Hnew _].
    destruct (Hnew Ha 100 100 eq_refl eq_refl eq_refl) as (st' & Hrun & _ & _ & Hln).
    exists st'. split; [exact Hrun | exact Hln].
  - assert (Hl : exists l, h_link (mem st_two) !! 4%positive = Some l
                           /\ lc_is_svi l = true /\ lc_ifindex l = 3)
      by (eexists; repeat split; vm_compute; reflexivity).
    destruct Hl as (l & Hl & Hsvi & Hi).
    assert (Hn : exists n, h_network (mem st_two) !! 2%positive = Some n
                           /\ nc_network n = ip_10_0_0_0)
      by (eexists; split; vm_compute; reflexivity).
    destruct Hn as (n & Hn & Hnet).
    assert (Hd : db_link_cache (db st_two) !! acmd_ifindex addr_10_0_0_2
                 = Some 4%positive) by (vm_compute; reflexivity).
    assert (Ha : db_lookup_addr (db st_two) !! acmd_network addr_10_0_0_2
                 = Some 2%positive) by (vm_compute; reflexivity).
    assert (Hai : db_lookup_addr_ifindex (db st_two) !! (nc_network n, lc_ifindex l) = None)
      by (rewrite Hnet, Hi; vm_compute; reflexivity).
    destruct (handle_addr_add_link_network_ip O_ok E_ready addr_10_0_0_2 st_two
                4%positive l 100 eq_refl eq_refl Hd Hl Hsvi eq_refl) as [_ Hold].
    destruct (Hold 2%positive n Ha Hn Hai) as (st' & Hrun & _ & _ & Hip).
    exists st'. split; [exact Hrun|].
    assert (Hp : next_ptr (mem st_two) = 5%positive) by (vm_compute; reflexivity).
    rewrite Hp in Hip.
    rewrite Hip; [vm_compute; reflexivity | rewrite Hnet; vm_compute; reflexivity].
Defined.

(** ** LINK DEL *)

(** C3, on the code.  After the seed scenario (bridge link 1, its network 2
    and binding 3, the host's FDB entry 4 and neighbor 5) a LINK DEL of the
    bridge removes the link and its binding from their tables, and leaves the
    host's entry in the fdb table, pointing at the released link; the
    neighbor stays in the neigh table as well, with the released binding as
    its sender. *)
Theorem cache_del_link_leaves_fdb_entries :
  exists st,
    state_after O_ok (events_full ++ [(E_ready, CMD_LINK_DEL link_br0)])
    = Some st
    /\ db_link_cache (db st) !! 2 = None
    /\ h_link (mem st) !! 1%positive = None
    /\ db_lookup_vlan_networkid (db st) = ∅
    /\ db_lookup_addr_ifindex (db st) = ∅
    /\ h_link_network (mem st) = ∅
    /\ nc_links <$> h_network (mem st) !! 2%positive = Some []
    /\ db_fdb_cache (db st) !! (mac_host, 2, 0) = Some 4%positive
    /\ fc_link <$> h_fdb (mem st) !! 4%positive = Some 1%positive
    /\ db_neigh_cache (db st) !! (2, ip_10_0_0_5) = Some 5%positive
    /\ ngc_sending_link_network <$> h_neigh (mem st) !! 5%positive = Some 3%positive.
Proof.
  eexists. split; [vm_compute; reflexivity|].
  repeat split; vm_compute; reflexivity.
Qed.

(** ** ADDR ADD when the eBPF map refuses the update *)

(** C4, on the code.  With the bridge link cached and no Network for
    10.0.0.0/24, [cache_add_network] under a failing map update arrives at
    [err3] with the Network 2 in both network tables and the binding 3 it
    has made in both LinkNetwork indices and in the Link's list.  No
    statement of the ladder undoes [cache_add_link_network]: the first takes
    the Network out of the network-by-addr index and leaves the binding
    where it is; the second releases the key a second time, so the function
    returns nothing, it has no defined behaviour, and neither has the
    handler; and the statements at [err2] and [err1], which come after it,
    take the Network out of the network table and release it, and leave the
    binding in both indices and in the Link's list, pointing at the released
    Network. *)
Theorem cache_add_network_rollback_leaves_link_network :
  exists st0 st1 st2 st3 st4,
    cache_get_link O_bpf_fails 2 st_br0 = Some (Some 1%positive, st0)
    /\ cache_add_network_insert addr_10_0_0_1 1%positive st0
       = Some ((2%positive, 1), st1)
    /\ bpf_map_update_elem O_bpf_fails (24, ip_10_0_0_0) 1 st1 = Some (false, st2)
    /\ db_network_cache (db st2) !! 1 = Some 2%positive
    /\ db_lookup_addr (db st2) !! ip_10_0_0_0 = Some 2%positive
    /\ db_lookup_vlan_networkid (db st_br0) !! (1, 0) = None
    /\ db_lookup_vlan_networkid (db st2) !! (1, 0) = Some 3%positive
    /\ db_lookup_addr_ifindex (db st_br0) !! (ip_10_0_0_0, 2) = None
    /\ db_lookup_addr_ifindex (db st2) !! (ip_10_0_0_0, 2) = Some 3%positive
    /\ lc_network_list <$> h_link (mem st_br0) !! 1%positive = Some []
    /\ lc_network_list <$> h_link (mem st2) !! 1%positive = Some [3%positive]
    /\ h_link_network (mem st2) !! 3%positive
       = Some {| lnc_ip := ip_10_0_0_1; lnc_network := 2%positive;
                 lnc_link := 1%positive |}
    (* err3, its first statement *)
    /\ modify (with_db (fun d =>
         set_db_lookup_addr (delete ip_10_0_0_0 (db_lookup_addr d)) d)) st2
       = Some (tt, st3)
    /\ db_lookup_addr (db st3) !! ip_10_0_0_0 = None
    /\ db_lookup_vlan_networkid (db st3) !! (1, 0) = Some 3%positive
    /\ db_lookup_addr_ifindex (db st3) !! (ip_10_0_0_0, 2) = Some 3%positive
    /\ lc_network_list <$> h_link (mem st3) !! 1%positive = Some [3%positive]
    (* err2 and err1 *)
    /\ cache_add_network_err2 2%positive 1 st3 = Some (None, st4)
    /\ db_network_cache (db st4) !! 1 = None
    /\ h_network (mem st4) !! 2%positive = None
    /\ db_lookup_vlan_networkid (db st4) !! (1, 0) = Some 3%positive
    /\ db_lookup_addr_ifindex (db st4) !! (ip_10_0_0_0, 2) = Some 3%positive
    /\ lc_network_list <$> h_link (mem st4) !! 1%positive = Some [3%positive]
    /\ lnc_network <$> h_link_network (mem st4) !! 3%positive = Some 2%positive
    (* the function and the handler *)
    /\ cache_add_network_err3 2%positive 1 ip_10_0_0_0 st2 = None
    /\ cache_add_network O_bpf_fails addr_10_0_0_1 st_br0 = None
    /\ handle_addr_add O_bpf_fails E_ready addr_10_0_0_1 st_br0 = None.
Proof.
  eexists _, _, _, _, _.
  do 3 (split; [vm_compute; reflexivity|]).
  do 9 (split; [vm_compute; reflexivity|]).
  split; [vm_compute; reflexivity|].
  do 4 (split; [vm_compute; reflexivity|]).
  split; [vm_compute; reflexivity|].
  repeat split; vm_compute; reflexivity.
Qed.

(** ** The refcnt law *)

(** *** Lists *)

Lemma g_list_delete_first_length (x : positive) (l : list positive) :
  x ∈ l -> S (length (g_list_delete_first x l)) = length l.
Proof.
  induction l as [|y r IH]; intros Hin.
  - by apply elem_of_nil in Hin.
  - simpl. destruct (Pos.eqb_spec y x) as [->|Hne]; [reflexivity|].
    apply elem_of_cons in Hin as [->|Hin]; [done|].
    simpl. by rewrite IH.
Qed.

Lemma g_list_delete_first_elem (x y : positive) (l : list positive) :
  y ∈ l -> y <> x -> y ∈ g_list_delete_first x l.
Proof.
  induction l as [|z r IH]; intros Hin Hne; [done|].
  simpl. apply elem_of_cons in Hin as [->|Hin].
  - destruct (Pos.eqb_spec z x) as [->|_]; [done|]. apply elem_of_cons; by left.
  - destruct (Pos.eqb_spec z x) as [_|_]; [done|]. apply elem_of_cons; right; auto.
Qed.

(** *** The invariant under the four changes the code makes *)

Lemma nets_inv_grow np np' hn hln :
  nets_inv np hn hln -> (np <= np')%positive -> nets_inv np' hn hln.
Proof.
  intros [H1 H2 H3 H4] Hle. split; [done | done | |].
  - intros q ln Hq. specialize (H3 q ln Hq). lia.
  - intros p n Hp. specialize (H4 p n Hp). lia.
Qed.

(** A Network object changes in fields other than [links] and [refcnt]. *)
Lemma nets_inv_touch np hn hln p n n' :
  nets_inv np hn hln -> hn !! p = Some n ->
  nc_links n' = nc_links n -> nc_refcnt n' = nc_refcnt n ->
  nets_inv np (<[p := n']> hn) hln.
Proof.
  intros [H1 H2 H3 H4] Hp Hl Hr. split; [| |done|].
  - intros p' m. rewrite lookup_insert. case_decide as Hd.
    + intros [= <-]. rewrite Hl, Hr. eauto.
    + eauto.
  - intros q ln m Hq. rewrite lookup_insert. case_decide as Hd.
    + intros [= <-]. rewrite Hl. rewrite Hd in Hp. eauto.
    + eauto.
  - intros p' m. rewrite lookup_insert. case_decide as Hd.
    + intros _. subst. eauto.
    + eauto.
Qed.

(** [cache_add_network] that succeeds: a Network in the block [np] with the
    one binding in the block after it. *)
Lemma nets_inv_new_network np hn hln n ln :
  nets_inv np hn hln ->
  nc_links n = [Pos.succ np] -> nc_refcnt n = 1 -> lnc_network ln = np ->
  nets_inv (Pos.succ (Pos.succ np)) (<[np := n]> hn) (<[Pos.succ np := ln]> hln).
Proof.
  intros [H1 H2 H3 H4] Hl Hr Hn. split.
  - intros p m. rewrite lookup_insert. case_decide.
    + intros [= <-]. by rewrite Hl, Hr.
    + eauto.
  - intros q l m. rewrite lookup_insert. case_decide as Hq.
    + intros [= <-]. rewrite Hn, lookup_insert_eq. intros [= <-].
      rewrite Hl. subst q. apply list_elem_of_singleton. reflexivity.
    + intros Hl'. pose proof (H3 q l Hl') as Hb.
      rewrite lookup_insert_ne by lia. eauto.
  - intros q l. rewrite lookup_insert. case_decide.
    + intros [= <-]. lia.
    + intros Hl'. specialize (H3 q l Hl'). lia.
  - intros p m. rewrite lookup_insert. case_decide.
    + intros _. lia.
    + intros Hp. specialize (H4 p m Hp). lia.
Qed.

(** [cache_add_link_network] on a binding just filled in. *)
Lemma nets_inv_add_link_network np np' hn hln q ln n n' :
  nets_inv np hn hln -> (np <= np')%positive ->
  hn !! lnc_network ln = Some n ->
  nc_links n' = nc_links n ++ [q] -> nc_refcnt n' = nc_refcnt n + 1 ->
  nets_inv np' (<[lnc_network ln := n']> hn) (<[q := ln]> hln).
Proof.
  intros [H1 H2 H3 H4] Hle Hn Hl Hr. split.
  - intros p m. rewrite lookup_insert. case_decide.
    + intros [= <-]. rewrite Hl, Hr, length_app. simpl.
      rewrite (H1 _ _ Hn). lia.
    + eauto.
  - intros q' l m. rewrite lookup_insert. case_decide as Hq.
    + intros [= <-]. rewrite lookup_insert_eq. intros [= <-].
      rewrite Hl. subst q'. apply elem_of_app. right. apply list_elem_of_singleton.
      reflexivity.
    + intros Hl'. rewrite lookup_insert. case_decide as Hd.
      * intros [= <-]. rewrite Hl. apply elem_of_app. left.
        rewrite Hd in Hn. eauto.
      * eauto.
  - intros q' l. rewrite lookup_insert. case_decide.
    + intros [= <-]. specialize (H4 _ _ Hn). lia.
    + intros Hl'. specialize (H3 q' l Hl'). lia.
  - intros p m. rewrite lookup_insert. case_decide as Hd.
    + intros _. subst p. specialize (H4 _ _ Hn). lia.
    + intros Hp. specialize (H4 p m Hp). lia.
Qed.

(** [cache_del_link_network] on a live binding of a live Network. *)
Lemma nets_inv_del_link_network np hn hln q ln n n' :
  nets_inv np hn hln ->
  hln !! q = Some ln -> hn !! lnc_network ln = Some n ->
  nc_links n' = g_list_delete_first q (nc_links n) ->
  nc_refcnt n' = nc_refcnt n - 1 ->
  nets_inv np (<[lnc_network ln := n']> hn) (delete q hln).
Proof.
  intros [H1 H2 H3 H4] Hq Hn Hl Hr. split.
  - intros p m. rewrite lookup_insert. case_decide.
    + intros [= <-]. rewrite Hl, Hr, (H1 _ _ Hn).
      pose proof (g_list_delete_first_length q (nc_links n) (H2 _ _ _ Hq Hn)). lia.
    + eauto.
  - intros q' l m. rewrite lookup_delete. case_decide as Hne; [done|].
    intros Hl'. rewrite lookup_insert. case_decide as Hd.
    + intros [= <-]. rewrite Hl. apply g_list_delete_first_elem; [|congruence].
      rewrite Hd in Hn. eauto.
    + eauto.
  - intros q' l. rewrite lookup_delete. case_decide; [done|]. eauto.
  - intros p m. rewrite lookup_insert. case_decide as Hd.
    + intros _. subst p. eauto.
    + eauto.
Qed.

(** *** Framing *)

Lemma frames_ret {A} (a : A) : frames_networks (ret a).
Proof. intros st b st' [= <- <-]. repeat split; reflexivity. Qed.

Lemma frames_undefined {A} : frames_networks (@undefined A).
Proof. intros st b st' [=]. Qed.

Lemma frames_bind {A B} (m : M A) (k : A -> M B) :
  frames_networks m -> (forall a, frames_networks (k a)) ->
  frames_networks (bind m k).
Proof.
  intros Hm Hk st b st' H. unfold bind in H.
  destruct (m st) as [[a st1]|] eqn:Hmst; [|discriminate].
  destruct (Hm _ _ _ Hmst) as (E1 & E2 & E3).
  destruct (Hk a _ _ _ H) as (F1 & F2 & F3).
  rewrite F1, F2, E1, E2. repeat split; try reflexivity. lia.
Qed.

Lemma frames_gets {A} (f : state -> A) : frames_networks (gets f).
Proof. intros st b st' [= <- <-]. repeat split; reflexivity. Qed.

Lemma frames_modify_db (f : tables -> tables) : frames_networks (modify (with_db f)).
Proof. intros st b st' [= <- <-]. repeat split; reflexivity. Qed.

Lemma frames_modify_io (f : world -> world) : frames_networks (modify (with_io f)).
Proof. intros st b st' [= <- <-]. repeat split; reflexivity. Qed.

Lemma frames_g_new0 : frames_networks g_new0.
Proof. intros st b st' [= <- <-]. simpl. repeat split; try reflexivity. lia. Qed.

Lemma frames_next_tick : frames_networks next_tick.
Proof. intros st b st' [= <- <-]. repeat split; reflexivity. Qed.

Ltac frames_load :=
  let H := fresh in
  intros ? ? ? H; mrun_in H;
  repeat match type of H with
         | context [match ?x with _ => _ end] => destruct x
         end;
  try discriminate H; injection H as <- <-; repeat split; reflexivity.

Lemma frames_load_link p : frames_networks (load_link p).
Proof. frames_load. Qed.
Lemma frames_load_network p : frames_networks (load_network p).
Proof. frames_load. Qed.
Lemma frames_load_link_network p : frames_networks (load_link_network p).
Proof. frames_load. Qed.
Lemma frames_load_fdb p : frames_networks (load_fdb p).
Proof. frames_load. Qed.
Lemma frames_load_neigh p : frames_networks (load_neigh p).
Proof. frames_load. Qed.

Lemma frames_init_link p v : frames_networks (init_link p v).
Proof. intros st b st' [= <- <-]. repeat split; reflexivity. Qed.
Lemma frames_init_fdb p v : frames_networks (init_fdb p v).
Proof. intros st b st' [= <- <-]. repeat split; reflexivity. Qed.
Lemma frames_init_neigh p v : frames_networks (init_neigh p v).
Proof. intros st b st' [= <- <-]. repeat split; reflexivity. Qed.

Lemma frames_modify_h_link (f : heap -> gmap positive link_cache) :
  frames_networks (modify (with_mem (fun h => set_h_link (f h) h))).
Proof. intros st b st' [= <- <-]. repeat split; reflexivity. Qed.
Lemma frames_modify_h_fdb (f : heap -> gmap positive fdb_cache) :
  frames_networks (modify (with_mem (fun h => set_h_fdb (f h) h))).
Proof. intros st b st' [= <- <-]. repeat split; reflexivity. Qed.
Lemma frames_modify_h_neigh (f : heap -> gmap positive neigh_cache) :
  frames_networks (modify (with_mem (fun h => set_h_neigh (f h) h))).
Proof. intros st b st' [= <- <-]. repeat split; reflexivity. Qed.

Lemma frames_for_each {A} (l : list A) (body : A -> M unit) :
  (forall x, frames_networks (body x)) -> frames_networks (for_each l body).
Proof.
  intros Hb. induction l as [|x r IH]; simpl.
  - apply frames_ret.
  - apply frames_bind; auto.
Qed.

Create HintDb frames.

#[local] Hint Resolve frames_ret frames_undefined frames_gets frames_modify_db
  frames_modify_io frames_g_new0 frames_next_tick frames_load_link
  frames_load_network frames_load_link_network frames_load_fdb frames_load_neigh
  frames_init_link frames_init_fdb frames_init_neigh
  frames_modify_h_link frames_modify_h_fdb frames_modify_h_neigh : frames.

(** One step through a monadic term: a bind, a case analysis, or a call that
    the hint database knows. *)
Ltac frames_step :=
  lazymatch goal with
  | |- frames_networks (bind _ _) => apply frames_bind; [|intros ?]
  | |- frames_networks (for_each _ _) => apply frames_for_each; intros ?
  | |- frames_networks (match ?x with _ => _ end) => destruct x
  | |- frames_networks (let _ := _ in _) => cbv zeta
  | |- frames_networks _ => solve [eauto with frames]
  end.

Ltac frames := repeat frames_step.

Lemma frames_update_link p f : frames_networks (update_link p f).
Proof. unfold update_link. frames. Qed.
Lemma frames_update_fdb p f : frames_networks (update_fdb p f).
Proof. unfold update_fdb. frames. Qed.
Lemma frames_update_neigh p f : frames_networks (update_neigh p f).
Proof. unfold update_neigh. frames. Qed.
Lemma frames_free_link p : frames_networks (free_link p).
Proof. unfold free_link. frames. Qed.
Lemma frames_free_fdb p : frames_networks (free_fdb p).
Proof. unfold free_fdb. frames. Qed.
Lemma frames_free_neigh p : frames_networks (free_neigh p).
Proof. unfold free_neigh. frames. Qed.

#[local] Hint Resolve frames_update_link frames_update_fdb frames_update_neigh
  frames_free_link frames_free_fdb frames_free_neigh : frames.


Section Frames.

Variable O : oracle.

Lemma frames_clock_gettime : frames_networks (clock_gettime O).
Proof. unfold clock_gettime. frames. Qed.
Lemma frames_bpf_map_update_elem k v : frames_networks (bpf_map_update_elem O k v).
Proof. unfold bpf_map_update_elem. frames. Qed.
Lemma frames_bpf_map_delete_elem k : frames_networks (bpf_map_delete_elem O k).
Proof. unfold bpf_map_delete_elem. frames. Qed.

Hint Resolve frames_clock_gettime frames_bpf_map_update_elem
  frames_bpf_map_delete_elem : frames.

Lemma frames_cache_add_link c : frames_networks (cache_add_link O c).
Proof. unfold cache_add_link. frames. Qed.
Lemma frames_cache_update_link p c : frames_networks (cache_update_link O p c).
Proof. unfold cache_update_link. frames. Qed.
Lemma frames_cache_get_link i : frames_networks (cache_get_link O i).
Proof. unfold cache_get_link. frames. Qed.
Lemma frames_db_fdb_cache_remove k : frames_networks (db_fdb_cache_remove k).
Proof. unfold db_fdb_cache_remove. frames. Qed.
Lemma frames_db_fdb_cache_insert k p : frames_networks (db_fdb_cache_insert k p).
Proof. unfold db_fdb_cache_insert. frames. Qed.

Hint Resolve frames_cache_add_link frames_cache_update_link frames_cache_get_link
  frames_db_fdb_cache_remove frames_db_fdb_cache_insert : frames.

Lemma frames_cache_get_link_network_by_addr_loop ip l :
  frames_networks (cache_get_link_network_by_addr_loop ip l).
Proof. induction l as [|x r IH]; simpl; frames. Qed.

Hint Resolve frames_cache_get_link_network_by_addr_loop : frames.

Lemma frames_cache_get_link_network_by_addr p ip :
  frames_networks (cache_get_link_network_by_addr p ip).
Proof. unfold cache_get_link_network_by_addr. frames. Qed.
Lemma frames_cache_get_link_network i a : frames_networks (cache_get_link_network i a).
Proof. unfold cache_get_link_network. frames. Qed.
Lemma frames_cache_get_network c : frames_networks (cache_get_network c).
Proof. unfold cache_get_network. frames. Qed.
Lemma frames_cache_del_network_find c l : frames_networks (cache_del_network_find c l).
Proof. induction l as [|x r IH]; simpl; frames. Qed.
Lemma frames_cache_get_fdb c : frames_networks (cache_get_fdb O c).
Proof. unfold cache_get_fdb. frames. Qed.
Lemma frames_cache_get_neigh c : frames_networks (cache_get_neigh O c).
Proof. unfold cache_get_neigh. frames. Qed.

Hint Resolve frames_cache_get_link_network_by_addr frames_cache_get_link_network
  frames_cache_get_network frames_cache_del_network_find frames_cache_get_fdb
  frames_cache_get_neigh : frames.

Lemma frames_cache_add_fdb c : frames_networks (cache_add_fdb O c).
Proof. unfold cache_add_fdb. frames. Qed.
Lemma frames_cache_del_fdb c : frames_networks (cache_del_fdb c).
Proof. unfold cache_del_fdb. frames. Qed.
Lemma frames_cache_add_neigh p c : frames_networks (cache_add_neigh O p c).
Proof. unfold cache_add_neigh. frames. Qed.
Lemma frames_cache_neigh_update c : frames_networks (cache_neigh_update O c).
Proof. unfold cache_neigh_update. frames. Qed.
Lemma frames_cache_del_neigh p : frames_networks (cache_del_neigh p).
Proof. unfold cache_del_neigh. frames. Qed.
Lemma frames_timer_add_neigh p s : frames_networks (timer_add_neigh O p s).
Proof. unfold timer_add_neigh. frames. Qed.
Lemma frames_timer_remove_event t : frames_networks (timer_remove_event t).
Proof. unfold timer_remove_event. frames. Qed.
Lemma frames_send_probe k p : frames_networks (send_probe O k p).
Proof. unfold send_probe. frames. Qed.

Hint Resolve frames_cache_add_fdb frames_cache_del_fdb frames_cache_add_neigh
  frames_cache_neigh_update frames_cache_del_neigh frames_timer_add_neigh
  frames_timer_remove_event frames_send_probe : frames.

Lemma frames_send_gratuitous_neighbor_request p :
  frames_networks (send_gratuitous_neighbor_request O p).
Proof.
  unfold send_gratuitous_neighbor_request, send_arp_request,
    send_neighbor_solicitation. frames.
Qed.
Lemma frames_get_next_gratuitous_time p :
  frames_networks (get_next_gratuitous_time O p).
Proof. unfold get_next_gratuitous_time. frames. Qed.

Hint Resolve frames_send_gratuitous_neighbor_request
  frames_get_next_gratuitous_time : frames.

Lemma frames_new_neigh_timer p : frames_networks (new_neigh_timer O p).
Proof. unfold new_neigh_timer. frames. Qed.

Hint Resolve frames_new_neigh_timer : frames.

Lemma frames_handle_neigh_add E c : frames_networks (handle_neigh_add O E c).
Proof. unfold handle_neigh_add. frames. Qed.
Lemma frames_handle_neigh_del c : frames_networks (handle_neigh_del O c).
Proof. unfold handle_neigh_del. frames. Qed.
Lemma frames_handle_fdb_add E c : frames_networks (handle_fdb_add O E c).
Proof. unfold handle_fdb_add. frames. Qed.
Lemma frames_handle_fdb_del c : frames_networks (handle_fdb_del O c).
Proof. unfold handle_fdb_del. frames. Qed.
Lemma frames_handle_link_add E c : frames_networks (handle_link_add O E c).
Proof. unfold handle_link_add. frames. Qed.

End Frames.

#[local] Hint Resolve frames_clock_gettime frames_bpf_map_update_elem
  frames_bpf_map_delete_elem frames_cache_add_link frames_cache_update_link
  frames_cache_get_link frames_db_fdb_cache_remove frames_db_fdb_cache_insert
  frames_cache_get_link_network_by_addr frames_cache_get_link_network
  frames_cache_get_network frames_cache_del_network_find frames_cache_get_fdb
  frames_cache_get_neigh frames_cache_add_fdb frames_cache_del_fdb
  frames_cache_add_neigh frames_cache_neigh_update frames_cache_del_neigh
  frames_timer_add_neigh frames_timer_remove_event frames_send_probe
  frames_send_gratuitous_neighbor_request frames_get_next_gratuitous_time
  frames_new_neigh_timer frames_handle_neigh_add frames_handle_neigh_del
  frames_handle_fdb_add frames_handle_fdb_del frames_handle_link_add : frames.

(** *** Keeping the invariant *)

Lemma frames_preserves {A} (m : M A) : frames_networks m -> preserves cache_inv m.
Proof.
  intros Hf st a st' Hinv H. destruct (Hf _ _ _ H) as (E1 & E2 & E3).
  unfold cache_inv in *. rewrite E1, E2. eapply nets_inv_grow; eauto.
Qed.

Lemma preserves_bind {A B} (P : state -> Prop) (m : M A) (k : A -> M B) :
  preserves P m -> (forall a, preserves P (k a)) -> preserves P (bind m k).
Proof.
  intros Hm Hk st b st' HP H. unfold bind in H.
  destruct (m st) as [[a st1]|] eqn:Hmst; [|discriminate].
  eapply Hk; [|exact H]. eapply Hm; eauto.
Qed.

Lemma preserves_for_each {A} (P : state -> Prop) (l : list A) (body : A -> M unit) :
  (forall x, preserves P (body x)) -> preserves P (for_each l body).
Proof.
  intros Hb. induction l as [|x r IH]; simpl.
  - intros st a st' HP [= <- <-]. exact HP.
  - apply preserves_bind; auto.
Qed.

(** Inverting a defined run: the innermost case analysis first. *)
Ltac break_inner H :=
  match type of H with
  | context [match ?x with _ => _ end] =>
      lazymatch x with
      | context [match _ with _ => _ end] => fail
      | _ => let E := fresh "E" in destruct x eqn:E; try discriminate H
      end
  end.

Ltac minv H :=
  repeat (progress (fields_in H; rewrite ?lookup_insert_eq in H;
                    cbv beta iota in H; try break_inner H)).

Ltac inv_goal :=
  unfold cache_inv in *; cbn [mem next_ptr h_network h_link_network] in *;
  rewrite ?insert_insert_eq, ?delete_insert_eq.

Lemma preserves_cache_del_link_network q :
  preserves cache_inv (cache_del_link_network q).
Proof.
  intros st a st' Hinv H. destruct_state st. mrun_in H. minv H.
  injection H as <- <-. inv_goal. simplify_eq.
  eapply nets_inv_del_link_network; eauto.
Qed.

Section Preserves.

Variable O : oracle.

Lemma preserves_cache_add_network c : preserves cache_inv (cache_add_network O c).
Proof.
  intros st a st' Hinv H. destruct_state st. mrun_in H. minv H;
    injection H as <- <-; inv_goal; simplify_eq; try assumption.
  apply nets_inv_new_network; auto.
Qed.

(** The three steps of [handle_addr_add] that bind another SVI to a Network
    that exists. *)
Lemma preserves_new_link_network v :
  preserves cache_inv
    (let* link_net := cache_new_link_network in
     let* _ := init_link_network link_net v in
     cache_add_link_network link_net).
Proof.
  intros st a st' Hinv H. destruct_state st. mrun_in H. minv H;
    injection H as <- <-; inv_goal; simplify_eq.
  eapply nets_inv_add_link_network; eauto. lia.
Qed.

Lemma preserves_cache_del_network_links l :
  preserves cache_inv (cache_del_network_links l).
Proof.
  unfold cache_del_network_links. destruct l as [|first rest].
  - apply frames_preserves. frames.
  - apply preserves_bind; [apply preserves_cache_del_link_network|].
    intros _. apply frames_preserves. frames.
Qed.

Create HintDb pres.

Hint Resolve preserves_cache_del_link_network preserves_cache_add_network
  preserves_new_link_network preserves_cache_del_network_links : pres.

(** One step through a monadic term for [preserves cache_inv]: a call the
    hint database knows, a bind, a case analysis, or a term that frames the
    two stores. *)
Ltac pres_step :=
  first
    [ solve [eauto with pres]
    | lazymatch goal with
      | |- preserves cache_inv (bind _ _) => apply preserves_bind; [|intros ?]
      | |- preserves cache_inv (for_each _ _) => apply preserves_for_each; intros ?
      | |- preserves cache_inv (match ?x with _ => _ end) => destruct x
      | |- preserves cache_inv _ => solve [apply frames_preserves; frames]
      end ].

Ltac pres := repeat pres_step.

Lemma preserves_cache_del_network c :
  preserves cache_inv (cache_del_network O c).
Proof. unfold cache_del_network. pres. Qed.

Lemma preserves_cache_del_link c : preserves cache_inv (cache_del_link c).
Proof. unfold cache_del_link. pres. Qed.

Hint Resolve preserves_cache_del_network preserves_cache_del_link : pres.

Lemma preserves_handle_addr_add E c : preserves cache_inv (handle_addr_add O E c).
Proof. unfold handle_addr_add. pres. Qed.

Lemma preserves_handle_addr_del c :
  preserves cache_inv (handle_addr_del O c).
Proof. unfold handle_addr_del. pres. Qed.

Lemma preserves_handle_link_del c : preserves cache_inv (handle_link_del O c).
Proof. unfold handle_link_del. pres. Qed.

Lemma preserves_handle_netlink_cmd E cmd :
  preserves cache_inv (handle_netlink_cmd O E cmd).
Proof.
  destruct cmd; simpl.
  - apply frames_preserves, frames_handle_neigh_add.
  - apply frames_preserves, frames_handle_neigh_del.
  - apply frames_preserves, frames_handle_fdb_add.
  - apply frames_preserves, frames_handle_fdb_del.
  - apply preserves_handle_addr_add.
  - apply preserves_handle_addr_del.
  - apply frames_preserves, frames_handle_link_add.
  - apply preserves_handle_link_del.
Qed.

Lemma preserves_handle_events evs :
  preserves cache_inv (handle_events O evs).
Proof.
  induction evs as [|[E cmd] rest IH]; simpl.
  - intros st a st' Hinv [= <- <-]. exact Hinv.
  - apply preserves_bind; [apply preserves_handle_netlink_cmd | intros _; exact IH].
Qed.

End Preserves.

Lemma cache_inv_setup_cache : cache_inv setup_cache.
Proof.
  unfold cache_inv, setup_cache. simpl. split.
  - intros p n H. by rewrite lookup_empty in H.
  - intros q ln n H. by rewrite lookup_empty in H.
  - intros q ln H. by rewrite lookup_empty in H.
  - intros p n H. by rewrite lookup_empty in H.
Qed.

(** C5.  After any sequence of link, address, FDB and neighbor events whose
    run is defined, handled from the empty cache under any readiness flags
    and any outcomes of the clock, the eBPF map, the sysctl file and the timer
    wheel, every Network in the network table (indeed every Network object
    that has not been released) has [refcnt] equal to the length of
    [links]. *)
Theorem refcnt_law O evs st id p n :
  state_after O evs = Some st ->
  db_network_cache (db st) !! id = Some p ->
  h_network (mem st) !! p = Some n ->
  nc_refcnt n = Z.of_nat (length (nc_links n)).
Proof.
  unfold state_after. intros Hrun _ Hn.
  destruct (handle_events O evs setup_cache) as [[u st1]|] eqn:Hev;
    [|discriminate].
  injection Hrun as ->.
  pose proof (preserves_handle_events O evs _ _ _
                cache_inv_setup_cache Hev) as Hinv.
  exact (inv_refcnt _ _ _ Hinv p n Hn).
Qed.

(** The seed network once both SVIs are bound to it: two bindings, and a
    reference count of two. *)
Lemma refcnt_law_witness :
  exists n,
    h_network (mem st_bound) !! 2%positive = Some n
    /\ nc_links n = [3%positive; 5%positive]
    /\ nc_refcnt n = Z.of_nat (length (nc_links n)).
Proof.
  assert (Hn : exists n, h_network (mem st_bound) !! 2%positive = Some n
                         /\ nc_links n = [3%positive; 5%positive])
    by (eexists; split; vm_compute; reflexivity).
  destruct Hn as (n & Hn & Hl).
  assert (Hst : state_after O_ok events_bound = Some st_bound)
    by (vm_compute; reflexivity).
  assert (Hd : db_network_cache (db st_bound) !! 1 = Some 2%positive)
    by (vm_compute; reflexivity).
  exists n. split; [exact Hn|]. split; [exact Hl|].
  exact (refcnt_law O_ok events_bound st_bound 1 2%positive n Hst Hd Hn).
Defined.

(** * More of the code *)

(** ** The checksum *)

(** Induction over a buffer two bytes at a time. *)
Lemma pair_induction (P : list Z -> Prop) :
  P [] -> (forall b, P [b]) ->
  (forall b0 b1 rest, P rest -> P (b0 :: b1 :: rest)) ->
  forall l, P l.
Proof.
  intros H0 H1 H2 l.
  assert (H : P l /\ forall b, P (b :: l)); [|apply H].
  induction l as [|a r [IH1 IH2]]; [split; auto|].
  split; [apply IH2|]. intros b. apply H2. exact IH1.
Qed.

Lemma load16_bound be b0 b1 :
  is_byte b0 -> is_byte b1 -> 0 <= load16 be b0 b1 <= 65535.
Proof. unfold is_byte, load16. destruct be; lia. Qed.

Lemma load16_store16 be v :
  0 <= v < 65536 ->
  exists b0 b1, store16 be v = [b0; b1] /\ is_byte b0 /\ is_byte b1
                /\ load16 be b0 b1 = v.
Proof.
  intros Hv. unfold store16, load16, is_byte.
  pose proof (Z.div_mod v 256 ltac:(lia)) as Hd.
  pose proof (Z.mod_pos_bound v 256 ltac:(lia)) as Hm.
  assert (0 <= v / 256 < 256).
  { split; [apply Z.div_pos; lia | apply Z.div_lt_upper_bound; lia]. }
  destruct be; eexists _, _; (split; [reflexivity|]); repeat split; lia.
Qed.

Lemma word_sum_bound be data :
  Forall is_byte data ->
  0 <= word_sum be data <= 32768 * Z.of_nat (length data).
Proof.
  induction data as [| b | b0 b1 rest IH] using pair_induction; intros Hb.
  - simpl. lia.
  - inversion Hb as [|? ? Hb0 _]; subst. unfold is_byte in Hb0. simpl. lia.
  - inversion Hb as [|? ? Hb0 Hb']; subst. inversion Hb' as [|? ? Hb1 Hr]; subst.
    specialize (IH Hr). pose proof (load16_bound be b0 b1 Hb0 Hb1).
    cbn [word_sum length]. lia.
Qed.

(** As long as the accumulator cannot wrap, the loop adds up the words. *)
Lemma checksum_loop_word_sum be data sum :
  Forall is_byte data -> 0 <= sum ->
  sum + word_sum be data < 2 ^ 32 ->
  checksum_loop be data sum = sum + word_sum be data.
Proof.
  revert sum.
  induction data as [| b | b0 b1 rest IH] using pair_induction; intros sum Hb Hs Hlt.
  - simpl. lia.
  - inversion Hb as [|? ? Hb0 _]; subst. unfold is_byte in Hb0.
    simpl in *. unfold u32. apply Z.mod_small. lia.
  - inversion Hb as [|? ? Hb0 Hb']; subst. inversion Hb' as [|? ? Hb1 Hr]; subst.
    pose proof (load16_bound be b0 b1 Hb0 Hb1).
    pose proof (word_sum_bound be rest Hr).
    cbn [checksum_loop word_sum] in *.
    assert (Hu : u32 (sum + load16 be b0 b1) = sum + load16 be b0 b1).
    { unfold u32. apply Z.mod_small. lia. }
    rewrite Hu, IH by (auto; lia). lia.
Qed.

Lemma word_sum_app be pre rest :
  Nat.even (length pre) = true ->
  word_sum be (pre ++ rest) = word_sum be pre + word_sum be rest.
Proof.
  induction pre as [| b | b0 b1 pre' IH] using pair_induction; intros He.
  - simpl. lia.
  - discriminate.
  - cbn [app word_sum]. rewrite IH by exact He. lia.
Qed.

(** The two folding steps turn a sum below 2^32 into its residue modulo
    65535, taken in 1..65535 unless the sum is 0. *)
Lemma checksum_fold (S : Z) :
  0 <= S < 2 ^ 32 ->
  let s1 := u32 (Z.shiftr S 16 + Z.land S 0xFFFF) in
  let s2 := u32 (s1 + Z.shiftr s1 16) in
  exists r k, s2 mod 2 ^ 16 = r /\ 0 <= r <= 65535 /\ 0 <= k
              /\ S = 65535 * k + r /\ (0 < S -> 0 < r).
Proof.
  intros HS. cbv zeta.
  change (Z.land S 0xFFFF) with (Z.land S (Z.ones 16)). rewrite Z.land_ones by lia.
  rewrite !Z.shiftr_div_pow2 by lia.
  change (2 ^ 16) with 65536. change (2 ^ 32) with 4294967296 in *.
  pose proof (Z.div_mod S 65536 ltac:(lia)) as Hd.
  pose proof (Z.mod_pos_bound S 65536 ltac:(lia)) as Hm.
  assert (Hh : 0 <= S / 65536 < 65536).
  { split; [apply Z.div_pos; lia | apply Z.div_lt_upper_bound; lia]. }
  set (h := S / 65536) in *. set (l := S mod 65536) in *.
  clearbody h l.
  unfold u32. change (2 ^ 32) with 4294967296.
  rewrite (Z.mod_small (h + l)) by lia.
  destruct (Z_lt_le_dec (h + l) 65536) as [Hlt|Hge].
  - rewrite (Z.div_small (h + l)) by lia.
    rewrite Z.add_0_r, (Z.mod_small (h + l) 4294967296) by lia.
    rewrite Z.mod_small by lia.
    exists (h + l), h. lia.
  - assert (Hq : (h + l) / 65536 = 1).
    { symmetry. apply (Z.div_unique (h + l) 65536 1 (h + l - 65536)); lia. }
    rewrite Hq, (Z.mod_small (h + l + 1) 4294967296) by lia.
    assert (Hr : (h + l + 1) mod 65536 = h + l + 1 - 65536).
    { symmetry. apply (Z.mod_unique (h + l + 1) 65536 1); lia. }
    rewrite Hr. exists (h + l + 1 - 65536), (h + 1). lia.
Qed.

Lemma checksum_range be data : 0 <= checksum be data < 65536.
Proof. unfold checksum. cbv zeta. apply Z.mod_pos_bound. lia. Qed.

(** The checksum in terms of the residue. *)
Lemma checksum_residue be data :
  Forall is_byte data -> Z.of_nat (length data) <= 131070 ->
  exists r k, checksum be data = 65535 - r /\ 0 <= r <= 65535 /\ 0 <= k
              /\ word_sum be data = 65535 * k + r
              /\ (0 < word_sum be data -> 0 < r).
Proof.
  intros Hb Hlen. pose proof (word_sum_bound be data Hb) as Hw.
  unfold checksum. cbv zeta.
  rewrite checksum_loop_word_sum by (auto; lia). rewrite Z.add_0_l.
  destruct (checksum_fold (word_sum be data) ltac:(lia)) as (r & k & Hr & Hr' & Hk & HS & Hpos).
  cbv zeta in Hr. exists r, k. repeat split; try lia.
  set (s2 := u32 _) in *.
  change (2 ^ 16) with 65536 in *.
  replace (Z.lnot s2) with ((65535 - s2 mod 65536) + (- (s2 / 65536) - 1) * 65536).
  2:{ pose proof (Z.div_mod s2 65536 ltac:(lia)). unfold Z.lnot. lia. }
  rewrite Z.mod_add by lia. rewrite Hr. apply Z.mod_small. lia.
Qed.

(** X1.  A buffer that carries its own checksum verifies: when the checksum
    of a buffer, computed with two zero bytes at an even offset, is stored at
    that offset, the checksum of the result is 0.  This holds on hosts of
    either byte order, for buffers short enough that the 32-bit sum does not
    wrap (up to 131070 bytes). *)
Theorem checksum_verifies be pre post :
  Forall is_byte pre -> Forall is_byte post ->
  Nat.even (length pre) = true ->
  Z.of_nat (length (pre ++ [0; 0] ++ post)) <= 131070 ->
  checksum be (pre ++ store16 be (checksum be (pre ++ [0; 0] ++ post)) ++ post) = 0.
Proof.
  intros Hpre Hpost Hev Hlen.
  assert (Hz : is_byte 0) by (unfold is_byte; lia).
  assert (Hdata : Forall is_byte (pre ++ [0; 0] ++ post)).
  { apply Forall_app_2; [exact Hpre|]. simpl.
    constructor; [exact Hz|]. constructor; [exact Hz | exact Hpost]. }
  destruct (checksum_residue be _ Hdata Hlen) as (r & k & Hc & Hr & Hk & HW & _).
  destruct (load16_store16 be (checksum be (pre ++ [0; 0] ++ post))
              (checksum_range be _)) as (b0 & b1 & Hst & Hb0 & Hb1 & Hld).
  rewrite Hst.
  assert (Hdata' : Forall is_byte (pre ++ [b0; b1] ++ post)).
  { apply Forall_app_2; [exact Hpre|]. simpl.
    constructor; [exact Hb0|]. constructor; [exact Hb1 | exact Hpost]. }
  assert (Hlen' : Z.of_nat (length (pre ++ [b0; b1] ++ post)) <= 131070).
  { rewrite !length_app in *. simpl in *. lia. }
  destruct (checksum_residue be _ Hdata' Hlen') as (r' & k' & Hc' & Hr' & Hk' & HW' & Hpos).
  rewrite word_sum_app in HW, HW', Hpos by exact Hev.
  cbn [app word_sum] in HW, HW', Hpos.
  assert (H00 : load16 be 0 0 = 0) by (destruct be; reflexivity).
  rewrite H00 in HW. rewrite Hld, Hc in HW', Hpos.
  pose proof (word_sum_bound be pre Hpre). pose proof (word_sum_bound be post Hpost).
  rewrite Hc'. lia.
Qed.

Lemma checksum_verifies_witness :
  checksum false ([1; 2] ++ store16 false (checksum false ([1; 2] ++ [0; 0] ++ [3; 4; 5]))
                  ++ [3; 4; 5]) = 0.
Proof.
  apply (checksum_verifies false [1; 2] [3; 4; 5]).
  - repeat constructor; unfold is_byte; lia.
  - repeat constructor; unfold is_byte; lia.
  - reflexivity.
  - simpl. lia.
Defined.

Lemma is_byte_byte_of v k : is_byte (byte_of v k).
Proof.
  unfold is_byte, byte_of.
  pose proof (N.mod_upper_bound (v / 256 ^ k) 256 ltac:(discriminate)) as H.
  apply N2Z.inj_lt in H. change (Z.of_N 256) with 256 in H.
  pose proof (N2Z.is_nonneg ((v / 256 ^ k) mod 256)). lia.
Qed.

Lemma Forall_is_byte_mac_bytes m : Forall is_byte (mac_bytes m).
Proof. unfold mac_bytes. apply Forall_map, Forall_forall. intros; apply is_byte_byte_of. Qed.

Lemma Forall_is_byte_in6_bytes ip : Forall is_byte (in6_bytes ip).
Proof. unfold in6_bytes. apply Forall_map, Forall_forall. intros; apply is_byte_byte_of. Qed.

(** X2.  The Neighbor Solicitation that [send_neighbor_solicitation] builds
    is a frame of 86 bytes, addressed to the neighbor's cached MAC, with hop
    limit 255, and its ICMPv6 checksum verifies: the checksum over the
    pseudo-header made of the frame's own source and destination addresses,
    the upper-layer length and next header 58, followed by the ICMPv6 part of
    the frame, is 0. *)
Theorem neighbor_solicitation_buffer_valid be neigh_mac neigh_ip src_mac src_ip :
  let frame := neighbor_solicitation_buffer be neigh_mac neigh_ip src_mac src_ip in
  length frame = 86%nat
  /\ take 6 frame = mac_bytes neigh_mac
  /\ frame !! 21%nat = Some 255
  /\ checksum be (take 32 (drop 22 frame) ++ [0; 0; 0; 32] ++ [0; 0; 0; 58]
                  ++ drop 54 frame) = 0.
Proof.
  intros frame.
  pose proof (load16_store16 be _
                (checksum_range be (pseudo_buffer [0; 0] neigh_ip src_mac src_ip)))
    as (b0 & b1 & Hst & _).
  assert (Hframe : frame =
    mac_bytes neigh_mac ++ mac_bytes src_mac ++ [0x86; 0xDD]
    ++ [0x60; 0; 0; 0; 0; 32; 58; 255]
    ++ in6_bytes src_ip ++ in6_bytes neigh_ip
    ++ [135; 0] ++ store16 be (checksum be (pseudo_buffer [0; 0] neigh_ip src_mac src_ip))
    ++ [0; 0; 0; 0] ++ in6_bytes neigh_ip ++ [1; 1] ++ mac_bytes src_mac)
    by reflexivity.
  split; [|split; [|split]].
  - rewrite Hframe, Hst. reflexivity.
  - rewrite Hframe. reflexivity.
  - rewrite Hframe. reflexivity.
  - set (pre := in6_bytes src_ip ++ in6_bytes neigh_ip ++ [0; 0; 0; 32; 0; 0; 0; 58]
                ++ [135; 0]).
    set (post := [0; 0; 0; 0] ++ in6_bytes neigh_ip ++ [1; 1] ++ mac_bytes src_mac).
    assert (Hbuf : pseudo_buffer [0; 0] neigh_ip src_mac src_ip = pre ++ [0; 0] ++ post)
      by reflexivity.
    assert (Hgoal : take 32 (drop 22 frame) ++ [0; 0; 0; 32] ++ [0; 0; 0; 58]
                    ++ drop 54 frame
                    = pre ++ store16 be (checksum be (pre ++ [0; 0] ++ post)) ++ post).
    { rewrite <- Hbuf, Hframe. reflexivity. }
    rewrite Hgoal. apply checksum_verifies.
    + unfold pre. repeat apply Forall_app_2;
        try apply Forall_is_byte_in6_bytes;
        repeat constructor; unfold is_byte; lia.
    + unfold post. repeat apply Forall_app_2;
        try apply Forall_is_byte_in6_bytes; try apply Forall_is_byte_mac_bytes;
        repeat constructor; unfold is_byte; lia.
    + reflexivity.
    + assert (Hlen : length (pre ++ [0; 0] ++ post) = 72%nat) by reflexivity.
      rewrite Hlen. lia.
Qed.

(** ** Components a run leaves alone *)

Lemma bind_inv {A B} (m : M A) (k : A -> M B) st b st' :
  bind m k st = Some (b, st') ->
  exists a st1, m st = Some (a, st1) /\ k a st1 = Some (b, st').
Proof.
  unfold bind. destruct (m st) as [[a st1]|]; [|discriminate]. eauto.
Qed.

Lemma keeps_ret {A X} (f : state -> X) (a : A) : keeps f (ret a).
Proof. intros st b st' [= <- <-]. reflexivity. Qed.

Lemma keeps_bind {A B X} (f : state -> X) (m : M A) (k : A -> M B) :
  keeps f m -> (forall a, keeps f (k a)) -> keeps f (bind m k).
Proof.
  intros Hm Hk st b st' H. apply bind_inv in H as (a & st1 & H1 & H2).
  rewrite (Hk _ _ _ _ H2). eauto.
Qed.

Lemma keeps_for_each {A X} (f : state -> X) (l : list A) (body : A -> M unit) :
  (forall x, keeps f (body x)) -> keeps f (for_each l body).
Proof.
  intros Hb. induction l as [|x r IH]; simpl.
  - apply keeps_ret.
  - apply keeps_bind; auto.
Qed.

Lemma keeps_preserves {A X} (f : state -> X) (v : X) (m : M A) :
  keeps f m -> preserves (fun st => f st = v) m.
Proof. intros Hk st a st' Hv H. rewrite (Hk _ _ _ H). exact Hv. Qed.

(** The two search loops only read. *)
Lemma cache_get_link_network_by_addr_loop_pure ip l st r st' :
  cache_get_link_network_by_addr_loop ip l st = Some (r, st') -> st' = st.
Proof.
  revert st r st'. induction l as [|q rest IH]; intros st r st' H; simpl in H.
  - by injection H as <- <-.
  - apply bind_inv in H as (ln & st1 & H1 & H).
    apply bind_inv in H as (n & st2 & H2 & H).
    unfold load_link_network in H1. destruct (_ !! _); simplify_eq.
    unfold load_network in H2. destruct (_ !! _); simplify_eq.
    destruct (compare_ipv6_addresses _ _); [by injection H as <- <-|eauto].
Qed.

Lemma cache_del_network_find_pure c l st r st' :
  cache_del_network_find c l st = Some (r, st') -> st' = st.
Proof.
  revert st r st'. induction l as [|q rest IH]; intros st r st' H; simpl in H.
  - by injection H as <- <-.
  - apply bind_inv in H as (ln & st1 & H1 & H).
    apply bind_inv in H as (n & st2 & H2 & H).
    unfold load_link_network in H1. destruct (_ !! _); simplify_eq.
    unfold load_network in H2. destruct (_ !! _); simplify_eq.
    destruct (_ && _); [by injection H as <- <-|eauto].
Qed.

Lemma keeps_cache_get_link_network_by_addr_loop {X} (f : state -> X) ip l :
  keeps f (cache_get_link_network_by_addr_loop ip l).
Proof.
  intros st r st' H. by rewrite (cache_get_link_network_by_addr_loop_pure _ _ _ _ _ H).
Qed.

Lemma keeps_cache_del_network_find {X} (f : state -> X) c l :
  keeps f (cache_del_network_find c l).
Proof.
  intros st r st' H. by rewrite (cache_del_network_find_pure _ _ _ _ _ H).
Qed.

(** A primitive, by running it. *)
Ltac keeps_leaf :=
  let H := fresh "H" in
  intros [[? ? ? ? ? ?] [? ? ? ? ? ? ?] [? ? ? ? ? ? ? ?]] ? ? H;
  mrun_in H; minv H; first [discriminate H | injection H as <- <-; reflexivity].

Ltac head_of t :=
  lazymatch t with
  | ?f _ => head_of f
  | _ => t
  end.

Ltac is_primitive h :=
  lazymatch h with
  | @gets => idtac | @undefined => idtac
  | modify => idtac | g_new0 => idtac | next_tick => idtac
  | load_link => idtac | load_network => idtac | load_link_network => idtac
  | load_fdb => idtac | load_neigh => idtac
  | init_link => idtac | init_network => idtac | init_link_network => idtac
  | init_fdb => idtac | init_neigh => idtac
  | update_link => idtac | update_network => idtac
  | update_fdb => idtac | update_neigh => idtac
  | free_link => idtac | free_network => idtac | free_link_network => idtac
  | free_fdb => idtac | free_neigh => idtac
  end.

(** One step through a monadic term for [keeps]: the structure first, then
    the loops, then a primitive by running it, or else the definition of the
    function called. *)
Ltac keeps_step :=
  lazymatch goal with
  | |- keeps _ (ret _) => apply keeps_ret
  | |- keeps _ (bind _ _) => apply keeps_bind; [|intros ?]
  | |- keeps _ (for_each _ _) => apply keeps_for_each; intros ?
  | |- keeps _ (cache_get_link_network_by_addr_loop _ _) =>
      apply keeps_cache_get_link_network_by_addr_loop
  | |- keeps _ (cache_del_network_find _ _) => apply keeps_cache_del_network_find
  | |- keeps _ (match ?x with _ => _ end) => destruct x
  | |- keeps _ (let _ := _ in _) => cbv zeta
  | |- keeps _ ?m =>
      let h := head_of m in
      first [ is_primitive h; solve [keeps_leaf] | unfold h ]
  end.

Ltac keeps := repeat keeps_step.

(** ** What the handlers never touch *)

(** X3.  The reply correlator changes no table: whatever the reply, a defined
    run adds, removes or replaces no entry of the seven hash tables, so it
    never creates a Neighbor; nor does it touch the eBPF map or the stores of
    Networks and LinkNetworks. *)
Theorem handle_neighbor_reply_keeps_tables O E r st ret st' :
  handle_neighbor_reply O E r st = Some (ret, st') ->
  db st' = db st
  /\ target_networks (io st') = target_networks (io st)
  /\ h_network (mem st') = h_network (mem st)
  /\ h_link_network (mem st') = h_link_network (mem st).
Proof.
  intros H.
  assert (K : keeps (fun s => (db s, target_networks (io s), h_network (mem s),
                               h_link_network (mem s)))
                (handle_neighbor_reply O E r)) by keeps.
  specialize (K _ _ _ H). by simplify_eq.
Qed.

Lemma handle_neighbor_reply_keeps_tables_witness :
  exists ret st',
    handle_neighbor_reply O_ok E_ready reply_host st_neigh = Some (ret, st')
    /\ db st' = db st_neigh.
Proof.
  pose proof (handle_neighbor_reply_keeps_tables O_ok E_ready reply_host st_neigh) as K.
  destruct (handle_neighbor_reply O_ok E_ready reply_host st_neigh) as [[ret st']|] eqn:H;
    [|vm_compute in H; discriminate H].
  exists ret, st'. split; [reflexivity|]. exact (proj1 (K ret st' eq_refl)).
Defined.

(** X4.  Only ADDR events change the network tables and the eBPF map: a
    LINK, FDB or NEIGH event leaves the network table, the by-address index
    and the target-networks map as they are.  In particular LINK DEL of the
    last SVI of a Network removes neither the Network nor its map entry. *)
Theorem network_indices_only_addr_events O E cmd st ret st' :
  is_addr_cmd cmd = false ->
  handle_netlink_cmd O E cmd st = Some (ret, st') ->
  network_indices st' = network_indices st.
Proof.
  intros Hc H.
  assert (K : keeps network_indices (handle_netlink_cmd O E cmd)).
  { destruct cmd; try discriminate Hc; unfold network_indices; keeps. }
  exact (K _ _ _ H).
Qed.

Lemma network_indices_only_addr_events_witness :
  exists ret st',
    handle_netlink_cmd O_ok E_ready (CMD_LINK_DEL link_br0) st_full
      = Some (ret, st')
    /\ network_indices st' = network_indices st_full.
Proof.
  pose proof (network_indices_only_addr_events O_ok E_ready
                (CMD_LINK_DEL link_br0) st_full) as K.
  destruct (handle_netlink_cmd O_ok E_ready (CMD_LINK_DEL link_br0) st_full)
    as [[ret st']|] eqn:H; [|vm_compute in H; discriminate H].
  exists ret, st'. split; [reflexivity|].
  exact (K ret st' eq_refl eq_refl).
Defined.

(** X5.  No topology event and no timer event enqueues a kernel NEIGH_ADD:
    the netlink TX queue is written by the reply correlator only. *)
Theorem netlink_tx_only_reply O E cmd neigh st :
  (forall ret st', handle_netlink_cmd O E cmd st = Some (ret, st') ->
     netlink_tx (io st') = netlink_tx (io st))
  /\ (forall ret st', handle_timer_neigh_event O neigh st = Some (ret, st') ->
     netlink_tx (io st') = netlink_tx (io st)).
Proof.
  split; intros ret st' H.
  - assert (K : keeps (fun s => netlink_tx (io s))
                  (handle_netlink_cmd O E cmd)) by (destruct cmd; keeps).
    exact (K _ _ _ H).
  - assert (K : keeps (fun s => netlink_tx (io s)) (handle_timer_neigh_event O neigh))
      by keeps.
    exact (K _ _ _ H).
Qed.

Lemma netlink_tx_only_reply_witness :
  exists ret st',
    handle_netlink_cmd O_ok E_ready (CMD_NEIGH_ADD neigh_host) st_addr
      = Some (ret, st')
    /\ netlink_tx (io st') = netlink_tx (io st_addr).
Proof.
  pose proof (proj1 (netlink_tx_only_reply O_ok E_ready
                       (CMD_NEIGH_ADD neigh_host) 1%positive st_addr)) as K.
  destruct (handle_netlink_cmd O_ok E_ready (CMD_NEIGH_ADD neigh_host) st_addr)
    as [[ret st']|] eqn:H; [|vm_compute in H; discriminate H].
  exists ret, st'. split; [reflexivity|]. exact (K ret st' eq_refl).
Defined.

(** ** The FDB list of a Link *)

Lemma preserves_ret {A} (P : state -> Prop) (a : A) : preserves P (ret a).
Proof. intros st b st' HP [= <- <-]. exact HP. Qed.

Lemma preserves_pure {A} (P : state -> Prop) (m : M A) :
  (forall st a st', m st = Some (a, st') -> st' = st) -> preserves P m.
Proof. intros Hm st a st' HP H. by rewrite (Hm _ _ _ H). Qed.

Lemma preserves_conj {A} (P Q : state -> Prop) (m : M A) :
  preserves P m -> preserves Q m -> preserves (fun st => P st /\ Q st) m.
Proof. intros HP HQ st a st' [H1 H2] H. split; eauto. Qed.

(** The goal [links_fdb_empty] after a run: every Link of the new store is
    either the one just written, or a Link of the old store. *)
Ltac lfe_goal HP :=
  let q := fresh "q" in
  let x := fresh "x" in
  let Hq := fresh "Hq" in
  first
    [ exact HP
    | intros q x Hq; cbn [mem h_link] in Hq;
      repeat match type of Hq with
             | <[_ := _]> _ !! _ = Some _ =>
                 apply lookup_insert_Some in Hq as [[<- <-]|[_ Hq]]
             | delete _ _ !! _ = Some _ =>
                 apply lookup_delete_Some in Hq as [_ Hq]
             end;
      fields;
      first [ reflexivity | eapply HP; cbn [mem h_link]; eassumption ] ].

Ltac lfe_leaf :=
  let HP := fresh "HP" in
  let H := fresh "H" in
  intros [[? ? ? ? ? ?] [? ? ? ? ? ? ?] [? ? ? ? ? ? ? ?]] ? ? HP H;
  mrun_in H; minv H;
  first [ discriminate H | injection H as <- <-; lfe_goal HP ].

Ltac lfe_step :=
  lazymatch goal with
  | |- preserves _ (ret _) => apply preserves_ret
  | |- preserves _ (bind _ _) => apply preserves_bind; [|intros ?]
  | |- preserves _ (for_each _ _) => apply preserves_for_each; intros ?
  | |- preserves _ (cache_get_link_network_by_addr_loop _ _) =>
      apply preserves_pure, cache_get_link_network_by_addr_loop_pure
  | |- preserves _ (cache_del_network_find _ _) =>
      apply preserves_pure, cache_del_network_find_pure
  | |- preserves _ (match ?x with _ => _ end) => destruct x
  | |- preserves _ (let _ := _ in _) => cbv zeta
  | |- preserves _ (cache_update_link _ _ _) => solve [lfe_leaf]
  | |- preserves _ ?m =>
      let h := head_of m in
      first [ is_primitive h; solve [lfe_leaf] | unfold h ]
  end.

Ltac lfe := repeat lfe_step.

Lemma links_fdb_empty_handle_netlink_cmd O E cmd :
  preserves links_fdb_empty (handle_netlink_cmd O E cmd).
Proof. destruct cmd; lfe. Qed.

Lemma links_fdb_empty_handle_events O evs :
  preserves links_fdb_empty (handle_events O evs).
Proof.
  induction evs as [|[E cmd] rest IH]; simpl.
  - apply preserves_ret.
  - apply preserves_bind; [apply links_fdb_empty_handle_netlink_cmd | intros _; exact IH].
Qed.

Lemma links_fdb_empty_state_after O evs st :
  state_after O evs = Some st -> links_fdb_empty st.
Proof.
  unfold state_after. intros Hrun.
  destruct (handle_events O evs setup_cache) as [[u st1]|] eqn:Hev;
    [|discriminate].
  injection Hrun as ->.
  eapply links_fdb_empty_handle_events; [|exact Hev].
  intros p l H. unfold setup_cache in H. simpl in H. by rewrite lookup_empty in H.
Qed.

(** X6.  No code path appends to a Link's [fdb_list]: after any sequence of
    events handled from the empty cache, the [fdb_list] of every Link is
    empty, however many FDB entries point at the Link. *)
Theorem fdb_list_always_empty O evs st p l :
  state_after O evs = Some st ->
  h_link (mem st) !! p = Some l ->
  lc_fdb_list l = [].
Proof.
  intros Hrun Hl. exact (links_fdb_empty_state_after _ _ _ Hrun p l Hl).
Qed.

Lemma fdb_list_always_empty_witness :
  exists l, h_link (mem st_full) !! 1%positive = Some l /\ lc_fdb_list l = []
            /\ db_fdb_cache (db st_full) !! (mac_host, 2, 0) = Some 4%positive.
Proof.
  assert (Hl : exists l, h_link (mem st_full) !! 1%positive = Some l)
    by (eexists; vm_compute; reflexivity).
  destruct Hl as (l & Hl).
  assert (Hst : state_after O_ok events_full = Some st_full)
    by (vm_compute; reflexivity).
  exists l. split; [exact Hl|]. split.
  - exact (fdb_list_always_empty O_ok events_full st_full 1%positive l Hst Hl).
  - vm_compute. reflexivity.
Defined.

Lemma cache_del_link_keeps_fdb c st r st' :
  links_fdb_empty st ->
  cache_del_link c st = Some (r, st') ->
  fdb_part st' = fdb_part st.
Proof.
  intros HP H. unfold cache_del_link in H.
  apply bind_inv in H as (found & st1 & H1 & H). injection H1 as <- <-.
  destruct (db_link_cache (db st) !! lcmd_ifindex c) as [cache|];
    [|by injection H as <- <-].
  apply bind_inv in H as (l & st1 & H1 & H).
  unfold load_link in H1.
  destruct (h_link (mem st) !! cache) as [l0|]; [|discriminate H1].
  injection H1 as <- <-.
  apply bind_inv in H as (u & st2 & H2 & H).
  assert (P2 : links_fdb_empty st2 /\ fdb_part st2 = fdb_part st).
  { eapply (preserves_for_each (fun s => links_fdb_empty s /\ fdb_part s = fdb_part st));
      [|split; [exact HP|reflexivity]|exact H2].
    intros x. apply preserves_conj; [lfe|apply keeps_preserves; keeps]. }
  destruct P2 as [HP2 Hf2].
  apply bind_inv in H as (l' & st3 & H3 & H).
  unfold load_link in H3.
  destruct (h_link (mem st2) !! cache) as [l2|] eqn:Hl2; [|discriminate H3].
  injection H3 as <- <-.
  rewrite (HP2 _ _ Hl2) in H. simpl in H.
  apply bind_inv in H as (u1 & st4 & H4 & H). injection H4 as <- <-.
  apply bind_inv in H as (u2 & st5 & H5 & H). injection H5 as <- <-.
  apply bind_inv in H as (u3 & st6 & H6 & H). injection H as <- <-.
  assert (K : keeps fdb_part (free_link cache)) by keeps.
  rewrite (K _ _ _ H6). exact Hf2.
Qed.

(** X7.  LINK DEL never removes an FDB entry: in every state the handlers
    can reach from the empty cache, a LINK DEL leaves the fdb table and the
    store of FDB entries as they are, so the entries that point at the
    deleted Link stay cached. *)
Theorem handle_link_del_keeps_fdb O evs st c r st' :
  state_after O evs = Some st ->
  handle_link_del O c st = Some (r, st') ->
  db_fdb_cache (db st') = db_fdb_cache (db st)
  /\ h_fdb (mem st') = h_fdb (mem st).
Proof.
  intros Hrun H. apply links_fdb_empty_state_after in Hrun.
  unfold handle_link_del in H.
  apply bind_inv in H as (link & st1 & H1 & H).
  assert (P1 : links_fdb_empty st1 /\ fdb_part st1 = fdb_part st).
  { assert (K : preserves (fun s => links_fdb_empty s /\ fdb_part s = fdb_part st)
                  (cache_get_link O (lcmd_ifindex c)))
      by (apply preserves_conj; [lfe|apply keeps_preserves; keeps]).
    exact (K _ _ _ (conj Hrun eq_refl) H1). }
  destruct P1 as [HP1 Hf1].
  assert (Hf : fdb_part st' = fdb_part st).
  { destruct link as [lp|].
    - apply bind_inv in H as (z & st2 & H2 & H). injection H as <- <-.
      rewrite (cache_del_link_keeps_fdb _ _ _ _ HP1 H2). exact Hf1.
    - injection H as <- <-. exact Hf1. }
  unfold fdb_part in Hf. by simplify_eq.
Qed.

Lemma handle_link_del_keeps_fdb_witness :
  exists r st',
    handle_link_del O_ok link_br0 st_full = Some (r, st')
    /\ db_fdb_cache (db st') = db_fdb_cache (db st_full)
    /\ h_fdb (mem st') = h_fdb (mem st_full).
Proof.
  assert (Hst : state_after O_ok events_full = Some st_full)
    by (vm_compute; reflexivity).
  pose proof (handle_link_del_keeps_fdb O_ok events_full st_full link_br0)
    as K.
  destruct (handle_link_del O_ok link_br0 st_full) as [[r st']|] eqn:H;
    [|vm_compute in H; discriminate H].
  exists r, st'. split; [reflexivity|]. exact (K r st' Hst eq_refl).
Defined.

(** ** Deleting what is not cached *)

(** X8.  A DEL event for a key that is not cached is a no-op that reports
    success: LINK DEL, FDB DEL, NEIGH DEL and ADDR DEL return 0 and leave the
    whole state, the clock included, as it is. *)
Theorem delete_of_unknown_key_is_noop O st :
  (forall c, db_link_cache (db st) !! lcmd_ifindex c = None ->
     handle_link_del O c st = Some (0, st))
  /\ (forall c,
        db_fdb_cache (db st) !! (ncmd_mac c, ncmd_ifindex c, ncmd_vlan_id c) = None ->
        handle_fdb_del O c st = Some (0, st))
  /\ (forall c, db_neigh_cache (db st) !! (ncmd_ifindex c, ncmd_ip c) = None ->
        handle_neigh_del O c st = Some (0, st))
  /\ (forall c, db_lookup_addr (db st) !! acmd_network c = None ->
        handle_addr_del O c st = Some (0, st)).
Proof.
  destruct_state st. repeat split; intros c Hc.
  - simpl in Hc. mrun. mgo. reflexivity.
  - destruct c as [ifi vl mc ip nud ext]. simpl in Hc. mrun. mgo. reflexivity.
  - destruct c as [ifi vl mc ip nud ext]. simpl in Hc. mrun. mgo. reflexivity.
  - destruct c as [ifi ip net pl tpl]. simpl in Hc. mrun. mgo. reflexivity.
Qed.

Lemma delete_of_unknown_key_is_noop_witness :
  handle_link_del O_ok link_br0 setup_cache = Some (0, setup_cache)
  /\ handle_fdb_del O_ok (fdb_host false) setup_cache = Some (0, setup_cache)
  /\ handle_neigh_del O_ok neigh_host setup_cache = Some (0, setup_cache)
  /\ handle_addr_del O_ok addr_10_0_0_1 setup_cache = Some (0, setup_cache).
Proof.
  destruct (delete_of_unknown_key_is_noop O_ok setup_cache)
    as (H1 & H2 & H3 & H4).
  split; [apply H1; reflexivity|]. split; [apply H2; reflexivity|].
  split; [apply H3; reflexivity|apply H4; reflexivity].
Defined.

(** ** LINK ADD *)

(** X9.  A LINK ADD for a link that is cached, when the clock read of the
    lookup succeeds, only copies the attributes of the event: no table
    changes, so the bindings of the link stay indexed under the VLAN id it
    had; and [is_svi] and [ignore_link] keep the values they got when the
    link was inserted, whatever the new parent index and name are. *)
Theorem handle_link_add_update O E cmd st lp l t1 :
  db_link_cache (db st) !! lcmd_ifindex cmd = Some lp ->
  h_link (mem st) !! lp = Some l ->
  o_clock O (tick (io st)) = Some t1 ->
  exists st' l',
    handle_link_add O E cmd st = Some (0, st')
    /\ db st' = db st
    /\ h_link (mem st') = <[lp := l']> (h_link (mem st))
    /\ lc_is_svi l' = lc_is_svi l
    /\ lc_ignore_link l' = lc_ignore_link l
    /\ lc_network_list l' = lc_network_list l
    /\ lc_vlan_id l' = lcmd_vlan_id cmd
    /\ lc_ifname l' = lcmd_ifname cmd
    /\ lc_link_ifindex l' = lcmd_link_ifindex cmd.
Proof.
  intros Hd Hl H1. destruct_state st. simpl in *.
  mrun. mgo.
  match goal with
  | |- context [if ?b then _ else _] => destruct b
  end.
  - destruct (o_clock O (S tk)) as [t2|]; mgo;
      eexists _, _; (split; [reflexivity|]); simpl;
      rewrite ?insert_insert_eq; repeat split; reflexivity.
  - eexists _, _. split; [reflexivity|]. simpl.
    rewrite ?insert_insert_eq. repeat split; reflexivity.
Qed.

Lemma handle_link_add_update_witness :
  exists l st' l',
    h_link (mem st_addr) !! 1%positive = Some l
    /\ handle_link_add O_ok E_ready link_br0_moved st_addr = Some (0, st')
    /\ db st' = db st_addr
    /\ lc_is_svi l' = lc_is_svi l
    /\ lc_vlan_id l' = 20.
Proof.
  assert (Hd : db_link_cache (db st_addr) !! lcmd_ifindex link_br0_moved
               = Some 1%positive) by (vm_compute; reflexivity).
  assert (Hl : exists l, h_link (mem st_addr) !! 1%positive = Some l)
    by (eexists; vm_compute; reflexivity).
  destruct Hl as (l & Hl).
  assert (Hc : o_clock O_ok (tick (io st_addr)) = Some 100) by reflexivity.
  destruct (handle_link_add_update O_ok E_ready link_br0_moved st_addr 1%positive l 100
              Hd Hl Hc) as (st' & l' & H & Hdb & _ & Hs & _ & _ & Hv & _).
  exists l, st', l'. repeat split; assumption.
Defined.

(** X10.  A LINK ADD that repeats the attributes the cached link has, when
    the clock read of the lookup succeeds, is a touch: it stamps
    [referenced] and counts the reference, and changes nothing else;
    [updated] keeps its value and the clock is read once. *)
Theorem handle_link_add_replay O E cmd st lp l t1 :
  db_link_cache (db st) !! lcmd_ifindex cmd = Some lp ->
  h_link (mem st) !! lp = Some l ->
  o_clock O (tick (io st)) = Some t1 ->
  lc_link_ifindex l = lcmd_link_ifindex cmd ->
  lc_ifname l = lcmd_ifname cmd ->
  lc_mac l = lcmd_mac cmd ->
  lc_kind l = lcmd_kind cmd ->
  lc_slave_kind l = lcmd_slave_kind cmd ->
  lc_vlan_protocol l = lcmd_vlan_protocol cmd ->
  lc_vlan_id l = lcmd_vlan_id cmd ->
  lc_has_vlan l = lcmd_has_vlan cmd ->
  lc_is_macvlan l = lcmd_is_macvlan cmd ->
  handle_link_add O E cmd st
  = Some (0, with_io (fun w => set_tick (S (tick w)) w)
               (with_mem (fun h => set_h_link
                  (<[lp := link_set_reference_count (lc_reference_count l + 1)
                             (link_set_times (set_times_referenced t1 (lc_times l)) l)]>
                     (h_link h)) h) st)).
Proof.
  intros Hd Hl H1 E1 E2 E3 E4 E5 E6 E7 E8 E9. destruct_state st.
  destruct l as [a1 a2 a3 a4 a5 a6 a7 a8 a9 a10 a11 a12 a13 a14 a15 a16].
  simpl in *. mrun. mgo. rewrite <- E1, <- E2, <- E3, <- E4, <- E5, <- E6, <- E7, <- E8, <- E9.
  rewrite !Z.eqb_refl, !String.eqb_refl, N.eqb_refl, !Bool.eqb_reflx. simpl.
  rewrite insert_insert_eq. reflexivity.
Qed.

Lemma handle_link_add_replay_witness :
  exists st st',
    handle_link_add O_ok E_ready link_br0 st_br0 = Some (0, st)
    /\ handle_link_add O_ok E_ready link_br0 st = Some (0, st')
    /\ db st' = db st
    /\ tick (io st') = S (tick (io st)).
Proof.
  assert (Hst : exists st, handle_link_add O_ok E_ready link_br0 st_br0 = Some (0, st))
    by (eexists; vm_compute; reflexivity).
  destruct Hst as (st & Hst).
  assert (Hl : exists l, h_link (mem st) !! 1%positive = Some l
             /\ lc_link_ifindex l = lcmd_link_ifindex link_br0
             /\ lc_ifname l = lcmd_ifname link_br0
             /\ lc_mac l = lcmd_mac link_br0
             /\ lc_kind l = lcmd_kind link_br0
             /\ lc_slave_kind l = lcmd_slave_kind link_br0
             /\ lc_vlan_protocol l = lcmd_vlan_protocol link_br0
             /\ lc_vlan_id l = lcmd_vlan_id link_br0
             /\ lc_has_vlan l = lcmd_has_vlan link_br0
             /\ lc_is_macvlan l = lcmd_is_macvlan link_br0).
  { vm_compute in Hst. injection Hst as <-. eexists. split; [vm_compute; reflexivity|].
    repeat split. }
  destruct Hl as (l & Hl & E1 & E2 & E3 & E4 & E5 & E6 & E7 & E8 & E9).
  assert (Hd : db_link_cache (db st) !! lcmd_ifindex link_br0 = Some 1%positive).
  { vm_compute in Hst. injection Hst as <-. vm_compute. reflexivity. }
  assert (Hc : o_clock O_ok (tick (io st)) = Some 100) by reflexivity.
  pose proof (handle_link_add_replay O_ok E_ready link_br0 st 1%positive l 100
                Hd Hl Hc E1 E2 E3 E4 E5 E6 E7 E8 E9) as H.
  exists st. eexists. split; [exact Hst|]. split; [exact H|]. split; reflexivity.
Defined.

(** X11.  A LINK ADD for a link that is not cached inserts it: [is_svi] says
    whether the parent is the monitored bridge, [ignore_link] whether the
    deny filter matches the name, the three times are the clock's, both lists
    are empty; the parent index itself is not stored, [link_ifindex] stays
    0. *)
Theorem handle_link_add_insert O E cmd st t1 :
  db_link_cache (db st) !! lcmd_ifindex cmd = None ->
  o_clock O (tick (io st)) = Some t1 ->
  exists st',
    handle_link_add O E cmd st = Some (0, st')
    /\ db_link_cache (db st')
       = <[lcmd_ifindex cmd := next_ptr (mem st)]> (db_link_cache (db st))
    /\ h_link (mem st')
       = <[next_ptr (mem st) :=
             {| lc_ifindex := lcmd_ifindex cmd; lc_mac := lcmd_mac cmd;
                lc_ifname := lcmd_ifname cmd; lc_kind := lcmd_kind cmd;
                lc_slave_kind := lcmd_slave_kind cmd; lc_vlan_id := lcmd_vlan_id cmd;
                lc_vlan_protocol := lcmd_vlan_protocol cmd;
                lc_has_vlan := lcmd_has_vlan cmd; lc_is_macvlan := lcmd_is_macvlan cmd;
                lc_is_svi := (lcmd_link_ifindex cmd =? ifidx_mon E);
                lc_ignore_link := filter_deny_interfaces E (lcmd_ifname cmd);
                lc_link_ifindex := 0;
                lc_times := {| created := t1; updated := t1; referenced := t1 |};
                lc_reference_count := 0;
                lc_network_list := []; lc_fdb_list := [] |}]> (h_link (mem st)).
Proof.
  intros Hd H1. destruct_state st. simpl in *. mrun. mgo.
  unfold filter_deny_interfaces.
  destruct (has_deny_filter E); [destruct (deny_filter E (lcmd_ifname cmd))|];
    mgo; eexists; (split; [reflexivity|]); simpl;
    rewrite ?insert_insert_eq; split; reflexivity.
Qed.

Lemma handle_link_add_insert_witness :
  exists st' l,
    handle_link_add O_ok E_ready link_vlan10 st_addr = Some (0, st')
    /\ h_link (mem st') !! next_ptr (mem st_addr) = Some l
    /\ lc_is_svi l = true /\ lc_link_ifindex l = 0.
Proof.
  assert (Hd : db_link_cache (db st_addr) !! lcmd_ifindex link_vlan10 = None)
    by (vm_compute; reflexivity).
  assert (Hc : o_clock O_ok (tick (io st_addr)) = Some 100) by reflexivity.
  destruct (handle_link_add_insert O_ok E_ready link_vlan10 st_addr 100 Hd Hc)
    as (st' & H & _ & Hl).
  exists st'. eexists. split; [exact H|]. rewrite Hl, lookup_insert_eq.
  split; [reflexivity|]. split; reflexivity.
Defined.

(** X12.  When the clock fails in [cache_add_link], the function releases
    the new Link and returns the released pointer, not NULL; [handle_link_add]
    takes it for a link and writes [is_svi] through it: a LINK ADD for an
    unknown link has no defined behaviour when the clock fails. *)
Theorem handle_link_add_clock_failure O E cmd st :
  db_link_cache (db st) !! lcmd_ifindex cmd = None ->
  o_clock O (tick (io st)) = None ->
  (exists st1, cache_add_link O cmd st = Some (Some (next_ptr (mem st)), st1)
     /\ h_link (mem st1) !! next_ptr (mem st) = None
     /\ db st1 = db st)
  /\ handle_link_add O E cmd st = None.
Proof.
  intros Hd H1. destruct_state st. simpl in *. split.
  - mrun. mgo. eexists. split; [reflexivity|]. simpl.
    split; [apply lookup_delete_eq|reflexivity].
  - mrun. mgo. rewrite lookup_delete_eq. reflexivity.
Qed.

Lemma handle_link_add_clock_failure_witness :
  handle_link_add (O_clock_stops 0) E_ready link_br0 setup_cache = None.
Proof.
  apply (handle_link_add_clock_failure (O_clock_stops 0) E_ready link_br0 setup_cache);
    reflexivity.
Defined.

(** ** FDB events *)

(** X13.  FDB ADD followed by FDB DEL of the same key is a round trip for
    the FDB cache, when the three clock reads of the ADD succeed: the table
    and the store of entries are back where they were, whether or not the
    clock works in the lookup of the DEL. *)
Theorem handle_fdb_add_del_round_trip O E cmd st lp l t1 t2 t3 :
  has_links E = true -> has_networks E = true ->
  ncmd_ifindex cmd <> 0 ->
  ncmd_is_externally_learned cmd = false ->
  db_link_cache (db st) !! ncmd_ifindex cmd = Some lp ->
  h_link (mem st) !! lp = Some l ->
  db_fdb_cache (db st) !! (ncmd_mac cmd, ncmd_ifindex cmd, ncmd_vlan_id cmd) = None ->
  h_fdb (mem st) !! next_ptr (mem st) = None ->
  o_clock O (tick (io st)) = Some t1 ->
  o_clock O (S (tick (io st))) = Some t2 ->
  o_clock O (S (S (tick (io st)))) = Some t3 ->
  exists st',
    (let* _ := handle_fdb_add O E cmd in handle_fdb_del O cmd) st = Some (0, st')
    /\ db_fdb_cache (db st') = db_fdb_cache (db st)
    /\ h_fdb (mem st') = h_fdb (mem st)
    /\ db_link_cache (db st') = db_link_cache (db st).
Proof.
  intros HL HN Hi He Hd Hl Hk Hfresh H1 H2 H3.
  destruct_state st. destruct cmd as [ifi vl mc ip nud ext]. simpl in *. subst ext.
  apply Z.eqb_neq in Hi.
  mrun. mgo.
  destruct (o_clock O (S (S (S tk)))) as [t4|]; mgo;
    eexists; (split; [reflexivity|]); simpl;
    rewrite ?insert_insert_eq, ?delete_insert_eq, !delete_id by assumption;
    repeat split; reflexivity.
Qed.

Lemma handle_fdb_add_del_round_trip_witness :
  exists st',
    (let* _ := handle_fdb_add O_ok E_ready (fdb_host false) in
     handle_fdb_del O_ok (fdb_host false)) st_addr = Some (0, st')
    /\ db_fdb_cache (db st') = db_fdb_cache (db st_addr)
    /\ h_fdb (mem st') = h_fdb (mem st_addr).
Proof.
  assert (Hd : db_link_cache (db st_addr) !! ncmd_ifindex (fdb_host false)
               = Some 1%positive) by (vm_compute; reflexivity).
  assert (Hl : exists l, h_link (mem st_addr) !! 1%positive = Some l)
    by (eexists; vm_compute; reflexivity).
  destruct Hl as (l & Hl).
  assert (Hk : db_fdb_cache (db st_addr)
               !! (ncmd_mac (fdb_host false), ncmd_ifindex (fdb_host false),
                   ncmd_vlan_id (fdb_host false)) = None) by (vm_compute; reflexivity).
  assert (Hf : h_fdb (mem st_addr) !! next_ptr (mem st_addr) = None)
    by (vm_compute; reflexivity).
  assert (Hi : ncmd_ifindex (fdb_host false) <> 0) by discriminate.
  destruct (handle_fdb_add_del_round_trip O_ok E_ready (fdb_host false) st_addr
              1%positive l 100 100 100 eq_refl eq_refl Hi eq_refl Hd Hl Hk Hf
              eq_refl eq_refl eq_refl) as (st' & H & H1 & H2 & _).
  exists st'. repeat split; assumption.
Defined.

(** X14.  An FDB ADD for an entry that is cached, when the clock read of
    the link lookup succeeds, allocates nothing and changes no table: the
    entry is touched by its own lookup (when the clock works there) and
    keeps its MAC, Link and VLAN. *)
Theorem handle_fdb_add_replay O E cmd st lp l fp f t1 :
  has_links E = true -> has_networks E = true ->
  ncmd_ifindex cmd <> 0 ->
  ncmd_is_externally_learned cmd = false ->
  db_link_cache (db st) !! ncmd_ifindex cmd = Some lp ->
  h_link (mem st) !! lp = Some l ->
  db_fdb_cache (db st) !! (ncmd_mac cmd, ncmd_ifindex cmd, ncmd_vlan_id cmd) = Some fp ->
  h_fdb (mem st) !! fp = Some f ->
  o_clock O (tick (io st)) = Some t1 ->
  exists st',
    handle_fdb_add O E cmd st = Some (0, st')
    /\ db st' = db st
    /\ next_ptr (mem st') = next_ptr (mem st)
    /\ h_fdb (mem st')
       = match o_clock O (S (tick (io st))) with
         | Some t2 => <[fp := fdb_touch t2 f]> (h_fdb (mem st))
         | None => h_fdb (mem st)
         end.
Proof.
  intros HL HN Hi He Hd Hl Hk Hf H1.
  destruct_state st. destruct cmd as [ifi vl mc ip nud ext]. simpl in *. subst ext.
  apply Z.eqb_neq in Hi.
  mrun. mgo.
  destruct (o_clock O (S tk)) as [t2|]; mgo;
    eexists; (split; [reflexivity|]); simpl; repeat split; reflexivity.
Qed.

Lemma handle_fdb_add_replay_witness :
  exists st',
    handle_fdb_add O_ok E_ready (fdb_host false) st_full = Some (0, st')
    /\ db st' = db st_full
    /\ next_ptr (mem st') = next_ptr (mem st_full).
Proof.
  assert (Hd : db_link_cache (db st_full) !! ncmd_ifindex (fdb_host false)
               = Some 1%positive) by (vm_compute; reflexivity).
  assert (Hl : exists l, h_link (mem st_full) !! 1%positive = Some l)
    by (eexists; vm_compute; reflexivity).
  destruct Hl as (l & Hl).
  assert (Hk : db_fdb_cache (db st_full)
               !! (ncmd_mac (fdb_host false), ncmd_ifindex (fdb_host false),
                   ncmd_vlan_id (fdb_host false)) = Some 4%positive)
    by (vm_compute; reflexivity).
  assert (Hf : exists f, h_fdb (mem st_full) !! 4%positive = Some f)
    by (eexists; vm_compute; reflexivity).
  destruct Hf as (f & Hf).
  assert (Hi : ncmd_ifindex (fdb_host false) <> 0) by discriminate.
  destruct (handle_fdb_add_replay O_ok E_ready (fdb_host false) st_full
              1%positive l 4%positive f 100 eq_refl eq_refl Hi eq_refl Hd Hl Hk Hf
              eq_refl) as (st' & H & H1 & H2 & _).
  exists st'. repeat split; assumption.
Defined.

(** ** NEIGH events *)

Lemma handle_neigh_del_miss O c st :
  db_neigh_cache (db st) !! (ncmd_ifindex c, ncmd_ip c) = None ->
  handle_neigh_del O c st = Some (0, st).
Proof.
  intros Hc. destruct_state st. destruct c as [ifi vl mc ip nud ext]. simpl in Hc.
  mrun. mgo. reflexivity.
Qed.

Lemma neigh_part_before_ready O E cmd :
  engine_ready E = false ->
  preserves (fun st => neigh_part st = neigh_part setup_cache)
    (handle_netlink_cmd O E cmd).
Proof.
  intros HE.
  destruct cmd as [c|c|c|c|c|c|c|c];
    [ | | apply keeps_preserves; unfold neigh_part; keeps ..].
  - intros st r st' HP H. simpl in H. unfold handle_neigh_add in H.
    unfold engine_ready in HE. rewrite HE in H. simpl in H.
    injection H as <- <-. exact HP.
  - intros st r st' HP H. simpl in H.
    rewrite handle_neigh_del_miss in H.
    + injection H as <- <-. exact HP.
    + unfold neigh_part in HP. injection HP as -> _ _. apply lookup_empty.
Qed.

(** X15.  Readiness gating: as long as the three enumerations have not all
    finished, no sequence of events creates a Neighbor, arms a timer or
    sends a probe. *)
Theorem no_neighbor_before_ready O evs st :
  Forall (fun ev => engine_ready ev.1 = false) evs ->
  state_after O evs = Some st ->
  db_neigh_cache (db st) = ∅ /\ timers (io st) = ∅ /\ packets (io st) = [].
Proof.
  unfold state_after. intros Hevs Hrun.
  destruct (handle_events O evs setup_cache) as [[u st1]|] eqn:Hev;
    [|discriminate].
  injection Hrun as ->.
  assert (K : preserves (fun s => neigh_part s = neigh_part setup_cache)
                (handle_events O evs)).
  { clear Hev. induction Hevs as [|[E cmd] rest HE _ IH]; simpl.
    - apply preserves_ret.
    - apply preserves_bind; [apply neigh_part_before_ready, HE | intros _; exact IH]. }
  specialize (K _ _ _ eq_refl Hev). unfold neigh_part in K. simpl in K.
  by injection K as -> -> ->.
Qed.

Lemma no_neighbor_before_ready_witness :
  exists st, state_after O_ok events_early = Some st
             /\ db_neigh_cache (db st) = ∅
             /\ db_lookup_addr (db st) !! ip_10_0_0_0 = Some 2%positive.
Proof.
  assert (Hst : exists st, state_after O_ok events_early = Some st
                           /\ db_lookup_addr (db st) !! ip_10_0_0_0 = Some 2%positive)
    by (eexists; split; vm_compute; reflexivity).
  destruct Hst as (st & Hst & Hn).
  assert (Hevs : Forall (fun ev => engine_ready ev.1 = false) events_early)
    by (repeat constructor).
  exists st. split; [exact Hst|]. split; [|exact Hn].
  exact (proj1 (no_neighbor_before_ready O_ok events_early st Hevs Hst)).
Defined.

(** X16.  [cache_get_link_network_by_addr] returns the first binding of the
    link, in list order, whose Network contains the address: the address
    masked with the Network's prefix length is the Network's address.  It is
    not a longest-prefix match.  [None] means that no binding of the link
    matches.  The search changes nothing. *)
Theorem cache_get_link_network_by_addr_first_match link ip st l r st' :
  h_link (mem st) !! link = Some l ->
  cache_get_link_network_by_addr link ip st = Some (r, st') ->
  st' = st
  /\ exists pre post,
       lc_network_list l = pre ++ post
       /\ (forall q ln n, q ∈ pre ->
             h_link_network (mem st) !! q = Some ln ->
             h_network (mem st) !! lnc_network ln = Some n ->
             calculate_network_using_cidr ip (nc_prefixlen n) <> nc_network n)
       /\ match r with
          | Some q =>
              exists rest ln n,
                post = q :: rest
                /\ h_link_network (mem st) !! q = Some ln
                /\ h_network (mem st) !! lnc_network ln = Some n
                /\ calculate_network_using_cidr ip (nc_prefixlen n) = nc_network n
          | None => post = []
          end.
Proof.
  intros Hl H. unfold cache_get_link_network_by_addr in H.
  apply bind_inv in H as (l0 & st1 & H1 & H).
  unfold load_link in H1. rewrite Hl in H1. injection H1 as <- <-.
  revert H. generalize (lc_network_list l). clear Hl l.
  intros nl. induction nl as [|q rest IH]; intros H; simpl in H.
  - injection H as <- <-. split; [reflexivity|]. exists [], [].
    split; [reflexivity|]. split; [|reflexivity].
    intros q ln n Hq. by apply elem_of_nil in Hq.
  - apply bind_inv in H as (ln & st1 & H1 & H).
    apply bind_inv in H as (n & st2 & H2 & H).
    unfold load_link_network in H1.
    destruct (h_link_network (mem st) !! q) as [ln0|] eqn:Hln; [|discriminate H1].
    injection H1 as <- <-.
    unfold load_network in H2.
    destruct (h_network (mem st) !! lnc_network ln0) as [n0|] eqn:Hn; [|discriminate H2].
    injection H2 as <- <-.
    unfold compare_ipv6_addresses in H.
    destruct (N.eqb_spec (calculate_network_using_cidr ip (nc_prefixlen n0))
                (nc_network n0)) as [Heq|Hne].
    + injection H as <- <-. split; [reflexivity|]. exists [], (q :: rest).
      split; [reflexivity|]. split.
      * intros q' ln n Hq. by apply elem_of_nil in Hq.
      * exists rest, ln0, n0. auto.
    + destruct (IH H) as (-> & pre & post & Hpp & Hpre & Hr).
      split; [reflexivity|]. exists (q :: pre), post.
      split; [by rewrite Hpp|]. split; [|exact Hr].
      intros q' ln n Hq Hln' Hn'. apply elem_of_cons in Hq as [->|Hq].
      * rewrite Hln in Hln'. injection Hln' as <-. rewrite Hn in Hn'.
        by injection Hn' as <-.
      * eauto.
Qed.

Lemma cache_get_link_network_by_addr_first_match_witness :
  exists l, h_link (mem st_bound) !! 1%positive = Some l
    /\ cache_get_link_network_by_addr 1%positive ip_10_0_0_5 st_bound
       = Some (Some 3%positive, st_bound)
    /\ exists pre post, lc_network_list l = pre ++ post.
Proof.
  assert (Hl : exists l, h_link (mem st_bound) !! 1%positive = Some l)
    by (eexists; vm_compute; reflexivity).
  destruct Hl as (l & Hl).
  assert (H : cache_get_link_network_by_addr 1%positive ip_10_0_0_5 st_bound
              = Some (Some 3%positive, st_bound)) by (vm_compute; reflexivity).
  destruct (cache_get_link_network_by_addr_first_match 1%positive ip_10_0_0_5
              st_bound l _ _ Hl H) as (_ & pre & post & Hpp & _).
  exists l. split; [exact Hl|]. split; [exact H|]. exists pre, post. exact Hpp.
Defined.

(** The comparisons of the two NUD states the handlers look at. *)
Ltac nud_consts :=
  change (NUD_STALE =? NUD_REACHABLE) with false;
  change (NUD_STALE =? NUD_STALE) with true;
  change (NUD_REACHABLE =? NUD_REACHABLE) with true;
  change (NUD_REACHABLE =? NUD_STALE) with false;
  change (bool_decide (is_Some (@None positive))) with false.

Ltac nud_go := repeat (progress (nud_consts; mgo)).

(** X17.  A NEIGH ADD that passes the guards, for a neighbor that is not
    cached, on a link whose first binding contains the address, when the
    clock reads of the link lookup and of [cache_add_neigh] succeed: the
    Neighbor is inserted with that binding as its sender.  If it is STALE,
    one probe goes out at once (ARP for an IPv4-mapped address, a Neighbor
    Solicitation otherwise, when [sendto] succeeds) and no timer is armed; if
    it is REACHABLE, the sysctl file can be read and the timer wheel takes
    the timer, a timer is armed and no probe is sent. *)
Theorem handle_neigh_add_new O E cmd st lp l q rest lip net n t1 t2 :
  engine_ready E = true ->
  ncmd_ifindex cmd <> 0 ->
  is_zero_mac (ncmd_mac cmd) = false ->
  ncmd_is_externally_learned cmd = false ->
  db_link_cache (db st) !! ncmd_ifindex cmd = Some lp ->
  h_link (mem st) !! lp = Some l ->
  lc_network_list l = q :: rest ->
  h_link_network (mem st) !! q
    = Some {| lnc_ip := lip; lnc_network := net; lnc_link := lp |} ->
  h_network (mem st) !! net = Some n ->
  calculate_network_using_cidr (ncmd_ip cmd) (nc_prefixlen n) = nc_network n ->
  db_neigh_cache (db st) !! (ncmd_ifindex cmd, ncmd_ip cmd) = None ->
  o_clock O (tick (io st)) = Some t1 ->
  o_clock O (S (tick (io st))) = Some t2 ->
  let np := next_ptr (mem st) in
  let fresh timer :=
    {| ngc_ifindex := ncmd_ifindex cmd; ngc_mac := ncmd_mac cmd;
       ngc_ip := ncmd_ip cmd; ngc_nud_state := ncmd_nud_state cmd;
       ngc_sending_link_network := q; ngc_timer := timer;
       ngc_id := neigh_id (io st); ngc_update_count := 0;
       ngc_reference_count := 0;
       ngc_times := {| created := t2; updated := 0; referenced := t2 |} |} in
  (ncmd_nud_state cmd = NUD_STALE ->
   exists st',
     handle_neigh_add O E cmd st = Some (0, st')
     /\ db_neigh_cache (db st')
        = <[(ncmd_ifindex cmd, ncmd_ip cmd) := np]> (db_neigh_cache (db st))
     /\ h_neigh (mem st') = <[np := fresh None]> (h_neigh (mem st))
     /\ timers (io st') = timers (io st)
     /\ packets (io st')
        = packets (io st)
          ++ (if o_sendto O (S (S (tick (io st)))) then
                [{| pr_kind := if IN6_IS_ADDR_V4MAPPED (ncmd_ip cmd)
                               then ARP_REQUEST else NEIGHBOR_SOLICIT;
                    pr_dst_mac := ncmd_mac cmd; pr_src_mac := lc_mac l;
                    pr_src_ip := lip; pr_dst_ip := ncmd_ip cmd;
                    pr_sll_ifindex := lc_ifindex l |}]
              else []))
  /\ (ncmd_nud_state cmd = NUD_REACHABLE ->
      forall B,
      o_base_reachable_time_ms O (S (S (tick (io st))))
        (IN6_IS_ADDR_V4MAPPED (ncmd_ip cmd)) (lc_ifname l) = Some B ->
      o_timer_add O (S (S (S (S (tick (io st)))))) = true ->
      exists st',
        handle_neigh_add O E cmd st = Some (0, st')
        /\ db_neigh_cache (db st')
           = <[(ncmd_ifindex cmd, ncmd_ip cmd) := np]> (db_neigh_cache (db st))
        /\ h_neigh (mem st') = <[np := fresh (Some (Pos.succ np))]> (h_neigh (mem st))
        /\ timers (io st')
           = <[Pos.succ np :=
                 (np, gratuitous_seconds B (o_rand O (S (S (S (tick (io st)))))))]>
               (timers (io st))
        /\ packets (io st') = packets (io st)).
Proof.
  intros HE Hi Hm He Hd Hl Hnl Hq Hn Hc Hk H1 H2.
  unfold engine_ready in HE.
  destruct_state st. destruct cmd as [ifi vl mc ip nud ext].
  destruct l as [a1 a2 a3 a4 a5 a6 a7 a8 a9 a10 a11 a12 a13 a14 a15 a16].
  cbv zeta. hyps_red.
  subst ext a15. apply Z.eqb_neq in Hi.
  apply N.eqb_eq in Hc.
  split.
  - intros Hs. cbn [ncmd_nud_state] in Hs. subst nud.
    mrun. mgo. cbn [cache_get_link_network_by_addr_loop]. mrun. mgo.
    unfold compare_ipv6_addresses. nud_go.
    destruct (IN6_IS_ADDR_V4MAPPED ip); nud_go;
      (destruct (o_sendto O (S (S tk))); nud_go;
       eexists; (split; [reflexivity|]);
       cbn [mem db io h_neigh db_neigh_cache timers packets];
       rewrite ?insert_insert_eq, ?app_nil_r; repeat split; reflexivity).
  - intros Hs B HB HT. cbn [ncmd_nud_state] in Hs. subst nud. hyps_red.
    mrun. mgo. cbn [cache_get_link_network_by_addr_loop]. mrun. mgo.
    unfold compare_ipv6_addresses. nud_go.
    eexists. split; [reflexivity|].
    cbn [mem db io h_neigh db_neigh_cache timers packets].
    rewrite ?insert_insert_eq. repeat split; reflexivity.
Qed.

Lemma handle_neigh_add_new_witness :
  exists st',
    handle_neigh_add O_ok E_ready neigh_host_stale st_addr = Some (0, st')
    /\ timers (io st') = timers (io st_addr)
    /\ db_neigh_cache (db st') !! (2, ip_10_0_0_5) = Some (next_ptr (mem st_addr)).
Proof.
  assert (Hd : db_link_cache (db st_addr) !! ncmd_ifindex neigh_host_stale
               = Some 1%positive) by (vm_compute; reflexivity).
  assert (Hl : exists l, h_link (mem st_addr) !! 1%positive = Some l
                         /\ lc_network_list l = [3%positive])
    by (eexists; split; [vm_compute; reflexivity | vm_compute; reflexivity]).
  destruct Hl as (l & Hl & Hnl).
  assert (Hq : h_link_network (mem st_addr) !! 3%positive
               = Some {| lnc_ip := ip_10_0_0_1; lnc_network := 2%positive;
                         lnc_link := 1%positive |}) by (vm_compute; reflexivity).
  assert (Hn : exists n, h_network (mem st_addr) !! 2%positive = Some n
                 /\ calculate_network_using_cidr (ncmd_ip neigh_host_stale)
                      (nc_prefixlen n) = nc_network n)
    by (eexists; split; [vm_compute; reflexivity | vm_compute; reflexivity]).
  destruct Hn as (n & Hn & Hc).
  assert (Hk : db_neigh_cache (db st_addr)
               !! (ncmd_ifindex neigh_host_stale, ncmd_ip neigh_host_stale) = None)
    by (vm_compute; reflexivity).
  assert (Hi : ncmd_ifindex neigh_host_stale <> 0) by discriminate.
  destruct (proj1 (handle_neigh_add_new O_ok E_ready neigh_host_stale st_addr
                     1%positive l 3%positive [] ip_10_0_0_1 2%positive n 100 100
                     eq_refl Hi eq_refl eq_refl Hd Hl Hnl Hq Hn Hc Hk eq_refl eq_refl)
              eq_refl) as (st' & H & Hdb & _ & Ht & _).
  exists st'. split; [exact H|]. split; [exact Ht|].
  rewrite Hdb. apply lookup_insert_eq.
Defined.

(** X18.  NEIGH ADD of a REACHABLE neighbor followed by NEIGH DEL is a round
    trip for the neighbor cache, when the clock reads, the sysctl read and
    the timer registration of the ADD succeed: the table, the store of
    Neighbors and the armed timers are back where they were.  The neighbor
    id is not reused. *)
Theorem handle_neigh_add_del_round_trip O E cmd st lp l q rest lip net n t1 t2 B :
  engine_ready E = true ->
  ncmd_ifindex cmd <> 0 ->
  is_zero_mac (ncmd_mac cmd) = false ->
  ncmd_is_externally_learned cmd = false ->
  ncmd_nud_state cmd = NUD_REACHABLE ->
  db_link_cache (db st) !! ncmd_ifindex cmd = Some lp ->
  h_link (mem st) !! lp = Some l ->
  lc_network_list l = q :: rest ->
  h_link_network (mem st) !! q
    = Some {| lnc_ip := lip; lnc_network := net; lnc_link := lp |} ->
  h_network (mem st) !! net = Some n ->
  calculate_network_using_cidr (ncmd_ip cmd) (nc_prefixlen n) = nc_network n ->
  db_neigh_cache (db st) !! (ncmd_ifindex cmd, ncmd_ip cmd) = None ->
  h_neigh (mem st) !! next_ptr (mem st) = None ->
  timers (io st) !! Pos.succ (next_ptr (mem st)) = None ->
  o_clock O (tick (io st)) = Some t1 ->
  o_clock O (S (tick (io st))) = Some t2 ->
  o_base_reachable_time_ms O (S (S (tick (io st))))
    (IN6_IS_ADDR_V4MAPPED (ncmd_ip cmd)) (lc_ifname l) = Some B ->
  o_timer_add O (S (S (S (S (tick (io st)))))) = true ->
  exists st',
    (let* _ := handle_neigh_add O E cmd in handle_neigh_del O cmd) st = Some (0, st')
    /\ db_neigh_cache (db st') = db_neigh_cache (db st)
    /\ h_neigh (mem st') = h_neigh (mem st)
    /\ timers (io st') = timers (io st)
    /\ neigh_id (io st') = (neigh_id (io st) + 1) mod 2 ^ 64.
Proof.
  intros HE Hi Hm He Hs Hd Hl Hnl Hq Hn Hc Hk Hfn Hft H1 H2 HB HT.
  unfold engine_ready in HE.
  destruct_state st. destruct cmd as [ifi vl mc ip nud ext].
  destruct l as [a1 a2 a3 a4 a5 a6 a7 a8 a9 a10 a11 a12 a13 a14 a15 a16].
  hyps_red. subst ext a15 nud. apply Z.eqb_neq in Hi. apply N.eqb_eq in Hc.
  mrun. mgo. cbn [cache_get_link_network_by_addr_loop]. mrun. mgo.
  unfold compare_ipv6_addresses. nud_go.
  destruct (o_clock O (S (S (S (S (S tk)))))) as [t6|]; nud_go;
    (eexists; split; [reflexivity|];
     cbn [mem db io h_neigh db_neigh_cache timers neigh_id];
     rewrite ?insert_insert_eq, ?delete_insert_eq, !delete_id by assumption;
     repeat split; reflexivity).
Qed.

Lemma handle_neigh_add_del_round_trip_witness :
  exists st',
    (let* _ := handle_neigh_add O_ok E_ready neigh_host in
     handle_neigh_del O_ok neigh_host) st_addr = Some (0, st')
    /\ db_neigh_cache (db st') = db_neigh_cache (db st_addr)
    /\ h_neigh (mem st') = h_neigh (mem st_addr)
    /\ timers (io st') = timers (io st_addr).
Proof.
  assert (Hd : db_link_cache (db st_addr) !! ncmd_ifindex neigh_host
               = Some 1%positive) by (vm_compute; reflexivity).
  assert (Hl : exists l, h_link (mem st_addr) !! 1%positive = Some l
                         /\ lc_network_list l = [3%positive])
    by (eexists; split; [vm_compute; reflexivity | vm_compute; reflexivity]).
  destruct Hl as (l & Hl & Hnl).
  assert (Hq : h_link_network (mem st_addr) !! 3%positive
               = Some {| lnc_ip := ip_10_0_0_1; lnc_network := 2%positive;
                         lnc_link := 1%positive |}) by (vm_compute; reflexivity).
  assert (Hn : exists n, h_network (mem st_addr) !! 2%positive = Some n
                 /\ calculate_network_using_cidr (ncmd_ip neigh_host)
                      (nc_prefixlen n) = nc_network n)
    by (eexists; split; [vm_compute; reflexivity | vm_compute; reflexivity]).
  destruct Hn as (n & Hn & Hc).
  assert (Hk : db_neigh_cache (db st_addr)
               !! (ncmd_ifindex neigh_host, ncmd_ip neigh_host) = None)
    by (vm_compute; reflexivity).
  assert (Hfn : h_neigh (mem st_addr) !! next_ptr (mem st_addr) = None)
    by (vm_compute; reflexivity).
  assert (Hft : timers (io st_addr) !! Pos.succ (next_ptr (mem st_addr)) = None)
    by (vm_compute; reflexivity).
  assert (Hi : ncmd_ifindex neigh_host <> 0) by discriminate.
  destruct (handle_neigh_add_del_round_trip O_ok E_ready neigh_host st_addr
              1%positive l 3%positive [] ip_10_0_0_1 2%positive n 100 100 (30000 # 1)
              eq_refl Hi eq_refl eq_refl eq_refl Hd Hl Hnl Hq Hn Hc Hk Hfn Hft
              eq_refl eq_refl eq_refl eq_refl) as (st' & H & H1 & H2 & H3 & _).
  exists st'. repeat split; assumption.
Defined.

(** X19.  [cache_neigh_update] on a cached neighbor.  The MAC of the event
    always replaces the cached one.  If the NUD state is the cached one, that
    is all: no time is stamped, [update_count] stays, the clock is not read.
    If the state differs it is replaced too, and the change is stamped and
    counted when the clock works; when the clock fails the function reports
    the failure with the MAC and the state already overwritten. *)
Theorem cache_neigh_update_cases O cmd st np n :
  db_neigh_cache (db st) !! (ncmd_ifindex cmd, ncmd_ip cmd) = Some np ->
  h_neigh (mem st) !! np = Some n ->
  let n1 := neigh_set_mac (ncmd_mac cmd) n in
  let n2 := neigh_set_nud_state (ncmd_nud_state cmd) n1 in
  exists ok st',
    cache_neigh_update O cmd st = Some (ok, st')
    /\ db st' = db st
    /\ if ncmd_nud_state cmd =? ngc_nud_state n then
         ok = true /\ io st' = io st
         /\ h_neigh (mem st') = <[np := n1]> (h_neigh (mem st))
       else
         tick (io st') = S (tick (io st))
         /\ match o_clock O (tick (io st)) with
            | Some t =>
                ok = true
                /\ h_neigh (mem st')
                   = <[np := neigh_set_update_count (ngc_update_count n + 1)
                               (neigh_set_times
                                  (set_times_referenced t
                                     (set_times_updated t (ngc_times n))) n2)]>
                       (h_neigh (mem st))
            | None =>
                ok = false /\ h_neigh (mem st') = <[np := n2]> (h_neigh (mem st))
            end.
Proof.
  intros Hk Hn. destruct_state st. destruct cmd as [ifi vl mc ip nud ext].
  destruct n as [gi gm gip gnud gs gt gid guc grc gtm].
  cbv zeta. hyps_red. mrun. mgo. unfold is_same_mac.
  destruct (N.eqb_spec gm mc) as [->|Hmac]; mgo;
    (destruct (nud =? gnud) eqn:Hnud; mgo;
     [ apply Z.eqb_eq in Hnud; subst gnud
     | destruct (o_clock O tk) as [t|]; mgo ];
     eexists _, _; (split; [reflexivity|]);
     cbn [mem db io h_neigh tick];
     rewrite ?insert_insert_eq; repeat split; try reflexivity;
     symmetry; apply insert_id; assumption).
Qed.

Lemma cache_neigh_update_cases_witness :
  exists ok st',
    cache_neigh_update O_ok neigh_host_moved st_neigh = Some (ok, st')
    /\ ok = true /\ io st' = io st_neigh
    /\ ngc_mac <$> h_neigh (mem st') !! 4%positive = Some mac_other.
Proof.
  assert (Hk : db_neigh_cache (db st_neigh)
               !! (ncmd_ifindex neigh_host_moved, ncmd_ip neigh_host_moved)
               = Some 4%positive) by (vm_compute; reflexivity).
  assert (Hn : exists n, h_neigh (mem st_neigh) !! 4%positive = Some n
                 /\ ngc_nud_state n = NUD_REACHABLE)
    by (eexists; split; [vm_compute; reflexivity | vm_compute; reflexivity]).
  destruct Hn as (n & Hn & Hs).
  destruct (cache_neigh_update_cases O_ok neigh_host_moved st_neigh 4%positive n Hk Hn)
    as (ok & st' & H & _ & Hc).
  rewrite Hs in Hc. destruct Hc as (Hok & Hio & Hh).
  exists ok, st'. split; [exact H|]. split; [exact Hok|]. split; [exact Hio|].
  rewrite Hh, lookup_insert_eq. reflexivity.
Defined.

(** ** The refresh timer *)

(** X20.  When a refresh timer fires, [handle_timer_neigh_event] sends one
    probe to the neighbor's cached MAC from the sending binding (ARP for an
    IPv4-mapped address, a Neighbor Solicitation otherwise), clears the
    neighbor's timer slot and returns 0, also when [sendto] fails; it arms no
    new timer and changes no table. *)
Theorem handle_timer_neigh_event_fires O st np n sln sl :
  h_neigh (mem st) !! np = Some n ->
  h_link_network (mem st) !! ngc_sending_link_network n = Some sln ->
  h_link (mem st) !! lnc_link sln = Some sl ->
  exists st',
    handle_timer_neigh_event O np st = Some (0, st')
    /\ h_neigh (mem st') = <[np := neigh_set_timer None n]> (h_neigh (mem st))
    /\ db st' = db st
    /\ timers (io st') = timers (io st)
    /\ packets (io st')
       = packets (io st)
         ++ (if o_sendto O (tick (io st)) then
               [{| pr_kind := if IN6_IS_ADDR_V4MAPPED (ngc_ip n)
                              then ARP_REQUEST else NEIGHBOR_SOLICIT;
                   pr_dst_mac := ngc_mac n; pr_src_mac := lc_mac sl;
                   pr_src_ip := lnc_ip sln; pr_dst_ip := ngc_ip n;
                   pr_sll_ifindex := lc_ifindex sl |}]
             else []).
Proof.
  intros Hn Hsln Hsl. destruct_state st.
  destruct n as [gi gm gip gnud gs gt gid guc grc gtm]. hyps_red.
  unfold handle_timer_neigh_event. mrun. mgo.
  destruct (IN6_IS_ADDR_V4MAPPED gip); mgo;
    (destruct (o_sendto O tk); mgo;
     eexists; (split; [reflexivity|]);
     cbn [mem db io h_neigh timers packets];
     rewrite ?app_nil_r; repeat split; reflexivity).
Qed.

Lemma handle_timer_neigh_event_fires_witness :
  exists st',
    handle_timer_neigh_event O_ok 5%positive st_full = Some (0, st')
    /\ ngc_timer <$> h_neigh (mem st') !! 5%positive = Some None
    /\ timers (io st') = timers (io st_full).
Proof.
  assert (Hn : exists n, h_neigh (mem st_full) !! 5%positive = Some n
                 /\ ngc_sending_link_network n = 3%positive)
    by (eexists; split; [vm_compute; reflexivity | vm_compute; reflexivity]).
  destruct Hn as (n & Hn & Hs).
  assert (Hsln : exists sln, h_link_network (mem st_full) !! 3%positive = Some sln
                   /\ lnc_link sln = 1%positive)
    by (eexists; split; [vm_compute; reflexivity | vm_compute; reflexivity]).
  destruct Hsln as (sln & Hsln & Hsl').
  assert (Hsl : exists sl, h_link (mem st_full) !! 1%positive = Some sl)
    by (eexists; vm_compute; reflexivity).
  destruct Hsl as (sl & Hsl).
  rewrite <- Hs in Hsln. rewrite <- Hsl' in Hsl.
  destruct (handle_timer_neigh_event_fires O_ok st_full 5%positive n sln sl Hn Hsln Hsl)
    as (st' & H & Hh & _ & Ht & _).
  exists st'. split; [exact H|]. split; [|exact Ht].
  rewrite Hh, lookup_insert_eq. reflexivity.
Defined.

(** ** A reply whose neighbor cannot be re-armed *)

(** X21.  When the reply is for a cached neighbor with an armed timer and
    the refresh interval cannot be read, the handler has cancelled the timer
    before it fails: it returns 1, the timer entry is gone from the wheel,
    nothing is enqueued, and the neighbor's slot still holds the cancelled
    handle. *)
Theorem reply_rearm_failure_keeps_stale_timer_slot O E r st lnp ln l np n t sln sl :
  only_ipv6 E && negb (nr_in_family r =? AF_INET6) = false ->
  only_ipv4 E && negb (nr_in_family r =? AF_INET) = false ->
  db_lookup_vlan_networkid (db st) !! (nr_network_id r, nr_vlan_id r) = Some lnp ->
  h_link_network (mem st) !! lnp = Some ln ->
  h_link (mem st) !! lnc_link ln = Some l ->
  db_fdb_cache (db st) !! (nr_mac r, lc_ifindex l, nr_vlan_id r) = None ->
  db_neigh_cache (db st) !! (lc_ifindex l, nr_ip r) = Some np ->
  h_neigh (mem st) !! np = Some n ->
  ngc_timer n = Some t ->
  h_link_network (mem st) !! ngc_sending_link_network n = Some sln ->
  h_link (mem st) !! lnc_link sln = Some sl ->
  o_base_reachable_time_ms O (S (tick (io st)))
    (IN6_IS_ADDR_V4MAPPED (ngc_ip n)) (lc_ifname sl) = None ->
  exists st',
    handle_neighbor_reply O E r st = Some (1, st')
    /\ netlink_tx (io st') = netlink_tx (io st)
    /\ timers (io st') = delete t (timers (io st))
    /\ ngc_timer <$> h_neigh (mem st') !! np = Some (Some t).
Proof.
  intros H6 H4 Hv Hln Hl Hd Hg Hn Ht Hsln Hsl HB.
  destruct_state st. destruct r as [fam vl nid' mc ip].
  destruct n as [gi gm gip gnud gs gt gid guc grc gtm]. hyps_red. subst gt.
  mrun. rewrite H6, H4. cbv beta iota.
  destruct (o_clock O tk) as [tc|] eqn:Hc; mgo;
    (eexists; split; [reflexivity|];
     cbn [netlink_tx timers io mem h_neigh]; rewrite ?lookup_insert_eq;
     repeat split; try reflexivity).
  rewrite Hn. reflexivity.
Qed.

Lemma reply_rearm_failure_keeps_stale_timer_slot_witness :
  exists st',
    handle_neighbor_reply O_sysctl_fails E_ready reply_host st_neigh = Some (1, st')
    /\ timers (io st') = delete 5%positive (timers (io st_neigh))
    /\ ngc_timer <$> h_neigh (mem st') !! 4%positive = Some (Some 5%positive).
Proof.
  assert (Hv : db_lookup_vlan_networkid (db st_neigh)
               !! (nr_network_id reply_host, nr_vlan_id reply_host) = Some 3%positive)
    by (vm_compute; reflexivity).
  assert (Hln : exists ln, h_link_network (mem st_neigh) !! 3%positive = Some ln
                  /\ lnc_link ln = 1%positive)
    by (eexists; split; [vm_compute; reflexivity | vm_compute; reflexivity]).
  destruct Hln as (ln & Hln & Hll).
  assert (Hl : exists l, h_link (mem st_neigh) !! 1%positive = Some l
                 /\ lc_ifindex l = 2)
    by (eexists; split; [vm_compute; reflexivity | vm_compute; reflexivity]).
  destruct Hl as (l & Hl & Hli).
  assert (Hd : db_fdb_cache (db st_neigh) !! (nr_mac reply_host, 2, nr_vlan_id reply_host)
               = None) by (vm_compute; reflexivity).
  assert (Hg : db_neigh_cache (db st_neigh) !! (2, nr_ip reply_host) = Some 4%positive)
    by (vm_compute; reflexivity).
  assert (Hn : exists n, h_neigh (mem st_neigh) !! 4%positive = Some n
                 /\ ngc_timer n = Some 5%positive
                 /\ ngc_sending_link_network n = 3%positive)
    by (eexists; split; [vm_compute; reflexivity|split; vm_compute; reflexivity]).
  destruct Hn as (n & Hn & Ht & Hs).
  rewrite <- Hli in Hd, Hg. rewrite <- Hll in Hl.
  assert (Hsln : h_link_network (mem st_neigh) !! ngc_sending_link_network n = Some ln)
    by (rewrite Hs; exact Hln).
  destruct (reply_rearm_failure_keeps_stale_timer_slot O_sysctl_fails E_ready reply_host
              st_neigh 3%positive ln l 4%positive n 5%positive ln l
              eq_refl eq_refl Hv Hln Hl Hd Hg Hn Ht Hsln Hl eq_refl)
    as (st' & H & _ & Htm & Hslot).
  exists st'. repeat split; assumption.
Defined.

(** ** ADDR events *)

(** X22.  An ADDR ADD creates nothing when the link is not an SVI, and when
    the Network and the binding of the link to it exist: no table, no store
    of Networks or LinkNetworks and no eBPF map entry changes, no object is
    allocated and no network id is consumed. *)
Theorem handle_addr_add_creates_nothing O E cmd st lp l t1 :
  has_links E = true ->
  negb (disable_ipv6ll_filter E) && IN6_IS_ADDR_LINKLOCAL (acmd_ip cmd) = false ->
  db_link_cache (db st) !! acmd_ifindex cmd = Some lp ->
  h_link (mem st) !! lp = Some l ->
  o_clock O (tick (io st)) = Some t1 ->
  lc_is_svi l = false
  \/ (exists netp n q,
        lc_is_svi l = true
        /\ db_lookup_addr (db st) !! acmd_network cmd = Some netp
        /\ h_network (mem st) !! netp = Some n
        /\ db_lookup_addr_ifindex (db st) !! (nc_network n, lc_ifindex l) = Some q) ->
  exists st',
    handle_addr_add O E cmd st = Some (0, st')
    /\ db st' = db st
    /\ h_network (mem st') = h_network (mem st)
    /\ h_link_network (mem st') = h_link_network (mem st)
    /\ target_networks (io st') = target_networks (io st)
    /\ next_ptr (mem st') = next_ptr (mem st)
    /\ network_id (io st') = network_id (io st).
Proof.
  intros HL Hll Hd Hl H1 Hcase.
  destruct_state st. destruct cmd as [ifi ip net pl tpl].
  destruct l as [a1 a2 a3 a4 a5 a6 a7 a8 a9 a10 a11 a12 a13 a14 a15 a16].
  hyps_red. mrun. rewrite HL, Hll. mgo.
  destruct Hcase as [Hs|(netp & n & q & Hs & Hnet & Hn & Hq)]; hyps_red; subst a10; mgo.
  - eexists. split; [reflexivity|]. repeat split; reflexivity.
  - eexists. split; [reflexivity|]. repeat split; reflexivity.
Qed.

Lemma handle_addr_add_creates_nothing_witness :
  exists st',
    handle_addr_add O_ok E_ready addr_10_0_0_1 st_full = Some (0, st')
    /\ db st' = db st_full
    /\ target_networks (io st') = target_networks (io st_full).
Proof.
  assert (Hd : db_link_cache (db st_full) !! acmd_ifindex addr_10_0_0_1
               = Some 1%positive) by (vm_compute; reflexivity).
  assert (Hl : exists l, h_link (mem st_full) !! 1%positive = Some l
                 /\ lc_is_svi l = true /\ lc_ifindex l = 2)
    by (eexists; split; [vm_compute; reflexivity|split; vm_compute; reflexivity]).
  destruct Hl as (l & Hl & Hs & Hi).
  assert (Hnet : db_lookup_addr (db st_full) !! acmd_network addr_10_0_0_1
                 = Some 2%positive) by (vm_compute; reflexivity).
  assert (Hn : exists n, h_network (mem st_full) !! 2%positive = Some n
                 /\ nc_network n = ip_10_0_0_0)
    by (eexists; split; [vm_compute; reflexivity | vm_compute; reflexivity]).
  destruct Hn as (n & Hn & Hnn).
  assert (Hq : db_lookup_addr_ifindex (db st_full) !! (nc_network n, lc_ifindex l)
               = Some 3%positive) by (rewrite Hnn, Hi; vm_compute; reflexivity).
  destruct (handle_addr_add_creates_nothing O_ok E_ready addr_10_0_0_1 st_full
              1%positive l 100 eq_refl eq_refl Hd Hl eq_refl
              (or_intror (ex_intro _ 2%positive (ex_intro _ n (ex_intro _ 3%positive
                 (conj Hs (conj Hnet (conj Hn Hq))))))))
    as (st' & H & Hdb & _ & _ & Ht & _).
  exists st'. repeat split; assumption.
Defined.

(** X23.  Every failure of [cache_add_network] past the link lookup runs into
    the second release of the key at [err3]: when [bpf_map_update_elem]
    fails, or when [clock_gettime] fails after it, the function has no
    defined behaviour. *)
Theorem cache_add_network_failure_is_undefined O cmd st lp l t1 :
  db_link_cache (db st) !! acmd_ifindex cmd = Some lp ->
  h_link (mem st) !! lp = Some l ->
  o_clock O (tick (io st)) = Some t1 ->
  o_bpf_update O (S (tick (io st))) = false
  \/ o_clock O (S (S (tick (io st)))) = None ->
  cache_add_network O cmd st = None.
Proof.
  intros Hd Hl H1 Hfail.
  destruct_state st. destruct cmd as [ifi ip net pl tpl].
  destruct l as [a1 a2 a3 a4 a5 a6 a7 a8 a9 a10 a11 a12 a13 a14 a15 a16].
  hyps_red. mrun. mgo.
  destruct (o_bpf_update O (S tk)) eqn:HB; mgo; [|reflexivity].
  destruct Hfail as [Hf|Hf]; [discriminate|]. mgo. reflexivity.
Qed.

Lemma cache_add_network_failure_is_undefined_witness :
  cache_add_network (O_clock_stops 2) addr_10_0_0_1 st_br0 = None
  /\ cache_add_network O_bpf_fails addr_10_0_0_1 st_br0 = None.
Proof.
  assert (Hd : db_link_cache (db st_br0) !! acmd_ifindex addr_10_0_0_1
               = Some 1%positive) by (vm_compute; reflexivity).
  assert (Hl : exists l, h_link (mem st_br0) !! 1%positive = Some l)
    by (eexists; vm_compute; reflexivity).
  destruct Hl as (l & Hl).
  assert (H1 : o_clock (O_clock_stops 2) (tick (io st_br0)) = Some 100)
    by (vm_compute; reflexivity).
  assert (H2 : o_clock (O_clock_stops 2) (S (S (tick (io st_br0)))) = None)
    by (vm_compute; reflexivity).
  split.
  - exact (cache_add_network_failure_is_undefined (O_clock_stops 2) addr_10_0_0_1
             st_br0 1%positive l 100 Hd Hl H1 (or_intror H2)).
  - exact (cache_add_network_failure_is_undefined O_bpf_fails addr_10_0_0_1
             st_br0 1%positive l 100 Hd Hl eq_refl (or_introl eq_refl)).
Defined.

Lemma cache_del_network_find_none c l st r st' :
  (forall p n, h_network (mem st) !! p = Some n -> nc_network n <> acmd_ip c) ->
  cache_del_network_find c l st = Some (r, st') ->
  r = None.
Proof.
  intros Hne. revert r st'. induction l as [|q rest IH]; intros r st' H; simpl in H.
  - by injection H as <- <-.
  - apply bind_inv in H as (ln & st1 & H1 & H).
    apply bind_inv in H as (n & st2 & H2 & H).
    unfold load_link_network in H1.
    destruct (h_link_network (mem st) !! q) as [ln0|]; [|discriminate H1].
    injection H1 as <- <-.
    unfold load_network in H2.
    destruct (h_network (mem st) !! lnc_network ln0) as [n0|] eqn:Hn; [|discriminate H2].
    injection H2 as <- <-.
    unfold compare_ipv6_addresses in H.
    destruct (N.eqb_spec (nc_network n0) (acmd_ip c)) as [Heq|_].
    + destruct (Hne _ _ Hn Heq).
    + simpl in H. eauto.
Qed.

(** X24.  [cache_del_network] looks for the Network by the address of the
    event, not by its network address: an ADDR DEL whose [ip] is the address
    of no Network (a host address such as 10.0.0.1 in 10.0.0.0/24) returns 0
    and removes nothing, although [handle_addr_del] has just found the
    Network by [network]. *)
Theorem handle_addr_del_ip_mismatch O c st r st' :
  (forall p n, h_network (mem st) !! p = Some n -> nc_network n <> acmd_ip c) ->
  handle_addr_del O c st = Some (r, st') ->
  r = 0
  /\ db st' = db st
  /\ target_networks (io st') = target_networks (io st)
  /\ h_network (mem st') = h_network (mem st)
  /\ h_link_network (mem st') = h_link_network (mem st).
Proof.
  intros Hne H.
  set (f := fun s : state => (db s, target_networks (io s), h_network (mem s),
                              h_link_network (mem s))).
  assert (Hf : r = 0 /\ f st' = f st).
  { unfold handle_addr_del in H.
    apply bind_inv in H as (found & st0 & H0 & H). injection H0 as <- <-.
    destruct (db_lookup_addr (db st) !! acmd_network c) as [netp|];
      [|by injection H as <- <-].
    apply bind_inv in H as (b & st3 & H3 & H). injection H as <- <-.
    split; [reflexivity|].
    unfold cache_del_network in H3.
    apply bind_inv in H3 as (lc & st1 & H1 & H3).
    assert (K : keeps f (cache_get_link O (acmd_ifindex c))) by (unfold f; keeps).
    specialize (K _ _ _ H1).
    destruct lc as [lp|]; [|by injection H3 as <- <-].
    apply bind_inv in H3 as (l & st2 & H2 & H3).
    unfold load_link in H2.
    destruct (h_link (mem st1) !! lp) as [l0|]; [|discriminate H2].
    injection H2 as <- <-.
    apply bind_inv in H3 as (found & st2 & H2 & H3).
    pose proof (cache_del_network_find_pure _ _ _ _ _ H2) as ->.
    assert (Hne1 : forall p n, h_network (mem st1) !! p = Some n ->
                               nc_network n <> acmd_ip c).
    { unfold f in K. injection K as _ _ -> _. exact Hne. }
    rewrite (cache_del_network_find_none _ _ _ _ _ Hne1 H2) in H3.
    by injection H3 as <- <-. }
  destruct Hf as [-> Hf]. unfold f in Hf. by simplify_eq.
Qed.

Lemma handle_addr_del_ip_mismatch_witness :
  exists r st',
    handle_addr_del O_ok addr_10_0_0_1 st_addr = Some (r, st')
    /\ r = 0
    /\ db st' = db st_addr
    /\ target_networks (io st') = target_networks (io st_addr).
Proof.
  assert (Hone : forall p n, h_network (mem st_addr) !! p = Some n ->
                             nc_network n <> acmd_ip addr_10_0_0_1).
  { assert (Heq : exists n0, h_network (mem st_addr) = {[2%positive := n0]}
                             /\ nc_network n0 = ip_10_0_0_0)
      by (eexists; split; [vm_compute; reflexivity | vm_compute; reflexivity]).
    destruct Heq as (n0 & Heq & Hnn). intros p n Hp. rewrite Heq in Hp.
    apply lookup_singleton_Some in Hp as [_ <-]. rewrite Hnn. discriminate. }
  pose proof (handle_addr_del_ip_mismatch O_ok addr_10_0_0_1 st_addr) as K.
  destruct (handle_addr_del O_ok addr_10_0_0_1 st_addr) as [[r st']|] eqn:H;
    [|vm_compute in H; discriminate H].
  destruct (K r st' Hone eq_refl) as (Hr & Hdb & Ht & _).
  exists r, st'. repeat split; assumption.
Defined.

Lemma cache_get_link_hit O ifindex st lp l t :
  db_link_cache (db st) !! ifindex = Some lp ->
  h_link (mem st) !! lp = Some l ->
  o_clock O (tick (io st)) = Some t ->
  exists st1,
    cache_get_link O ifindex st = Some (Some lp, st1)
    /\ db st1 = db st
    /\ next_ptr (mem st1) = next_ptr (mem st)
    /\ h_network (mem st1) = h_network (mem st)
    /\ h_link_network (mem st1) = h_link_network (mem st)
    /\ exists l1, h_link (mem st1) !! lp = Some l1
                  /\ lc_network_list l1 = lc_network_list l.
Proof.
  intros Hd Hl H1. destruct_state st. hyps_red. mrun. mgo.
  eexists. split; [reflexivity|]. cbn [mem db next_ptr h_network h_link_network h_link].
  do 4 (split; [reflexivity|]). eexists. rewrite lookup_insert_eq.
  split; reflexivity.
Qed.

Lemma cache_del_network_find_some c l st r st' :
  cache_del_network_find c l st = Some (r, st') ->
  (exists q ln n,
     q ∈ l /\ h_link_network (mem st) !! q = Some ln
     /\ h_network (mem st) !! lnc_network ln = Some n
     /\ nc_network n = acmd_ip c /\ nc_prefixlen n = acmd_prefixlen c) ->
  exists q' ln' n',
    r = Some (lnc_network ln') /\ q' ∈ l
    /\ h_link_network (mem st) !! q' = Some ln'
    /\ h_network (mem st) !! lnc_network ln' = Some n'.
Proof.
  revert r st'. induction l as [|x rest IH]; intros r st' H (q & ln & n & Hq & Hln & Hn & Hip & Hpl).
  - by apply elem_of_nil in Hq.
  - simpl in H.
    apply bind_inv in H as (ln0 & st1 & H1 & H).
    apply bind_inv in H as (n0 & st2 & H2 & H).
    unfold load_link_network in H1.
    destruct (h_link_network (mem st) !! x) as [lnx|] eqn:Hlnx; [|discriminate H1].
    injection H1 as <- <-.
    unfold load_network in H2.
    destruct (h_network (mem st) !! lnc_network lnx) as [nx|] eqn:Hnx; [|discriminate H2].
    injection H2 as <- <-.
    destruct (compare_ipv6_addresses (nc_network nx) (acmd_ip c)
              && (nc_prefixlen nx =? acmd_prefixlen c)) eqn:Hm.
    + injection H as <- <-. exists x, lnx, nx.
      split; [reflexivity|]. split; [apply list_elem_of_here|]. auto.
    + apply elem_of_cons in Hq as [->|Hq].
      * rewrite Hlnx in Hln. injection Hln as <-. rewrite Hnx in Hn. injection Hn as <-.
        unfold compare_ipv6_addresses in Hm. rewrite Hip, Hpl in Hm.
        rewrite N.eqb_refl, Z.eqb_refl in Hm. discriminate Hm.
      * destruct (IH _ _ H) as (q' & ln' & n' & Hr & Hq' & Hln' & Hn').
        { exists q, ln, n. auto. }
        exists q', ln', n'. split; [exact Hr|]. split; [by apply list_elem_of_further|].
        auto.
Qed.

(** X25.  In every state the handlers can reach from the empty cache, an
    ADDR DEL that finds its Network has no defined behaviour: the Network
    that [cache_del_network] finds through a binding of the link has that
    binding on its [links], so the loop over [links] runs, and its step reads
    the list node the body has released. *)
Theorem handle_addr_del_found_is_undefined O evs st c netp lp l t1 q ln n :
  state_after O evs = Some st ->
  db_lookup_addr (db st) !! acmd_network c = Some netp ->
  db_link_cache (db st) !! acmd_ifindex c = Some lp ->
  h_link (mem st) !! lp = Some l ->
  o_clock O (tick (io st)) = Some t1 ->
  q ∈ lc_network_list l ->
  h_link_network (mem st) !! q = Some ln ->
  h_network (mem st) !! lnc_network ln = Some n ->
  nc_network n = acmd_ip c ->
  nc_prefixlen n = acmd_prefixlen c ->
  handle_addr_del O c st = None.
Proof.
  intros Hrun Hnet Hd Hl H1 Hq Hln Hn Hip Hpl.
  assert (Hinv : cache_inv st).
  { unfold state_after in Hrun.
    destruct (handle_events O evs setup_cache) as [[u st1]|] eqn:Hev; [|discriminate].
    injection Hrun as ->.
    exact (preserves_handle_events O evs _ _ _ cache_inv_setup_cache Hev). }
  destruct (handle_addr_del O c st) as [[r st']|] eqn:H; [exfalso|reflexivity].
  unfold handle_addr_del in H.
  apply bind_inv in H as (found & st0 & H0 & H).
  unfold cache_get_network, gets in H0. injection H0 as <- <-. rewrite Hnet in H.
  apply bind_inv in H as (b & st3 & H3 & _).
  unfold cache_del_network in H3.
  apply bind_inv in H3 as (lc & st1 & Hg & H3).
  destruct (cache_get_link_hit O _ st lp l t1 Hd Hl H1)
    as (st1' & Hg' & _ & Hnp & Hhn & Hhln & l1 & Hl1 & Hnl).
  rewrite Hg' in Hg. injection Hg as <- <-.
  apply bind_inv in H3 as (l2 & st2 & H2 & H3).
  unfold load_link in H2. rewrite Hl1 in H2. injection H2 as <- <-.
  apply bind_inv in H3 as (fnd & st2 & Hf & H3).
  pose proof (cache_del_network_find_pure _ _ _ _ _ Hf) as ->.
  destruct (cache_del_network_find_some _ _ _ _ _ Hf) as (q' & ln' & n' & -> & Hq' & Hln' & Hn').
  { exists q, ln, n. rewrite Hnl, Hhln, Hhn. auto. }
  apply bind_inv in H3 as (n2 & st2 & H2 & H3).
  unfold load_network in H2. rewrite Hn' in H2. injection H2 as <- <-.
  assert (Hin : q' ∈ nc_links n').
  { unfold cache_inv in Hinv. rewrite Hhln in Hln'. rewrite Hhn in Hn'.
    exact (inv_listed _ _ _ Hinv q' ln' n' Hln' Hn'). }
  apply bind_inv in H3 as (u1 & s1 & _ & H3).
  apply bind_inv in H3 as (u2 & s2 & _ & H3).
  apply bind_inv in H3 as (u3 & s3 & H3 & _).
  destruct (nc_links n') as [|x rest]; [by apply elem_of_nil in Hin|].
  unfold cache_del_network_links in H3.
  apply bind_inv in H3 as (u4 & s4 & _ & H3). discriminate H3.
Qed.

Lemma handle_addr_del_found_is_undefined_witness :
  handle_addr_del O_ok
    {| acmd_ifindex := 2; acmd_ip := ip_10_0_0_0; acmd_network := ip_10_0_0_0;
       acmd_prefixlen := 24; acmd_true_prefixlen := 24 |} st_addr = None.
Proof.
  assert (Hst : state_after O_ok events_addr = Some st_addr)
    by (vm_compute; reflexivity).
  assert (Hl : exists l, h_link (mem st_addr) !! 1%positive = Some l
                 /\ lc_network_list l = [3%positive])
    by (eexists; split; [vm_compute; reflexivity | vm_compute; reflexivity]).
  destruct Hl as (l & Hl & Hnl).
  assert (Hln : exists ln, h_link_network (mem st_addr) !! 3%positive = Some ln
                  /\ lnc_network ln = 2%positive)
    by (eexists; split; [vm_compute; reflexivity | vm_compute; reflexivity]).
  destruct Hln as (ln & Hln & Hlnn).
  assert (Hn : exists n, h_network (mem st_addr) !! 2%positive = Some n
                 /\ nc_network n = ip_10_0_0_0 /\ nc_prefixlen n = 24)
    by (eexists; split; [vm_compute; reflexivity | split; vm_compute; reflexivity]).
  destruct Hn as (n & Hn & Hip & Hpl).
  rewrite <- Hlnn in Hn.
  assert (Hq : 3%positive ∈ lc_network_list l)
    by (rewrite Hnl; apply list_elem_of_here).
  refine (handle_addr_del_found_is_undefined O_ok events_addr st_addr
            {| acmd_ifindex := 2; acmd_ip := ip_10_0_0_0; acmd_network := ip_10_0_0_0;
               acmd_prefixlen := 24; acmd_true_prefixlen := 24 |}
            2%positive 1%positive l 100 3%positive ln n
            Hst _ _ Hl eq_refl Hq Hln Hn Hip Hpl);
    vm_compute; reflexivity.
Defined.
